(** * MathAcademy dashboard: parser, statistics and chart series

    A shallow embedding of the JavaScript classes of the dashboard
    ([PDFDataParser], [StatisticsCalculator], [ChartHelpers] in the two
    states in which the repository holds it, and the values that
    [UIController] computes for the page) together with the properties
    that the design document states about them, and with further
    properties that the code has.

    Conventions of the embedding.
    - Text is [string] over 8-bit characters; the character classes of the
      regular expressions ([\s], [\w], [\d], [.]) are the restrictions of the
      ECMAScript classes to that range.
    - XP amounts are integers ([Z]), as [parseInt] yields them: a Number
      holds an integer below 2^53 as it is, and a property that needs this
      bound says so.
    - A percentage or a rate is computed as the program computes it, in
      binary64 arithmetic ([JS.double], the IEEE 754 operations of the
      Standard Library's [SpecFloat]): a quotient that is multiplied before
      it is rounded need not round like the exact value (23 of 40 XP are
      57 percent).  A quotient of two integers that is rounded at once, and
      [daysBetween], are taken exactly ([Q]); [Math.round] is the nearest
      integer, a half going up.
    - A [Date] is its time value, the number of milliseconds since the epoch;
      the local zone is a fixed offset [utcOffset] from UTC, the clock is
      [now].
    - A date key (the [YYYY-MM-DD] text of a local calendar day) is kept as
      the number of that day, counted from 1970-01-01; [dateKeyText] renders
      it. *)

From Stdlib Require Import Ascii String DecimalString QArith Qround Qabs SpecFloat.
From stdpp Require Import gmap strings list fin_maps sorting.

Local Open Scope Z_scope.

(* ===================================================================== *)
(** ** The JavaScript primitives the classes rely on *)
(* ===================================================================== *)

Module JS.

Definition code (c : ascii) : nat := nat_of_ascii c.

Definition between (lo hi : nat) (c : ascii) : bool :=
  (Nat.leb lo (code c)) && (Nat.leb (code c) hi).

(** [\d] *)
Definition isDigit : ascii -> bool := between 48 57.
Definition isUpper : ascii -> bool := between 65 90.
Definition isLower : ascii -> bool := between 97 122.
(** [[A-Za-z]] *)
Definition isAlpha (c : ascii) : bool := isUpper c || isLower c.
(** [\w] is [[A-Za-z0-9_]] *)
Definition isWord (c : ascii) : bool :=
  isAlpha c || isDigit c || Nat.eqb (code c) 95.
(** [\s]: TAB, LF, VT, FF, CR, SPACE and NBSP *)
Definition isSpace (c : ascii) : bool :=
  between 9 13 c || Nat.eqb (code c) 32 || Nat.eqb (code c) 160.
(** [.] without the [s] flag: anything but a line terminator *)
Definition isDot (c : ascii) : bool :=
  negb (Nat.eqb (code c) 10 || Nat.eqb (code c) 13).

(** [String.prototype.toLowerCase], on one character: A-Z and the
    Latin-1 capitals (all of 192..222 but the multiplication sign). *)
Definition lowerChar (c : ascii) : ascii :=
  if isUpper c || (between 192 222 c && negb (Nat.eqb (code c) 215))
  then ascii_of_nat (code c + 32) else c.

Fixpoint toLowerCase (s : string) : string :=
  match s with
  | EmptyString => EmptyString
  | String c t => String (lowerChar c) (toLowerCase t)
  end.

(** [String.prototype.toUpperCase], on one character: a-z and the
    Latin-1 small letters that have a capital in Latin-1 (all of
    224..254 but the division sign). *)
Definition upperChar (c : ascii) : ascii :=
  if isLower c || (between 224 254 c && negb (Nat.eqb (code c) 247))
  then ascii_of_nat (code c - 32) else c.

Fixpoint trimStart (s : string) : string :=
  match s with
  | String c t => if isSpace c then trimStart t else s
  | EmptyString => EmptyString
  end.

(** the text without its trailing white space *)
Fixpoint trimEnd (s : string) : string :=
  match s with
  | EmptyString => EmptyString
  | String c t =>
      match trimEnd t with
      | EmptyString => if isSpace c then EmptyString else String c EmptyString
      | t' => String c t'
      end
  end.

Definition trim (s : string) : string := trimEnd (trimStart s).

Fixpoint startsWith (p s : string) : bool :=
  match p, s with
  | EmptyString, _ => true
  | String a p', String b s' => if Ascii.eqb a b then startsWith p' s' else false
  | String _ _, EmptyString => false
  end.

(** [s.includes(sub)] *)
Fixpoint includes (sub s : string) : bool :=
  startsWith sub s ||
  match s with
  | EmptyString => false
  | String _ t => includes sub t
  end.

(** [s.substring(from)] and the text before it *)
Fixpoint dropS (n : nat) (s : string) : string :=
  match n, s with
  | O, _ => s
  | S n', String _ t => dropS n' t
  | S _, EmptyString => EmptyString
  end.

Fixpoint takeS (n : nat) (s : string) : string :=
  match n, s with
  | O, _ => EmptyString
  | S n', String c t => String c (takeS n' t)
  | S _, EmptyString => EmptyString
  end.

(** [s.substring(a, b)] for [a <= b] *)
Definition substring (a b : nat) (s : string) : string :=
  takeS (b - a) (dropS a s).

(** a truthy string is a non-empty one *)
Definition truthyS (s : string) : bool :=
  match s with EmptyString => false | _ => true end.

(** *** Numbers *)

(** [Math.round]: the nearest integer, halves go up. *)
Definition Math_round (q : Q) : Z := Qfloor (q + (1 # 2)).

(** [a / b] of two integers, [b] not zero *)
Definition quot (a b : Z) : Q := Qmake a 1 / Qmake b 1.

Definition digitVal (c : ascii) : Z := Z.of_nat (code c) - 48.

(** the value of the longest prefix of decimal digits, and whether there
    was a digit at all *)
Fixpoint digitsPrefix (acc : Z) (seen : bool) (s : string) : option Z :=
  match s with
  | String c t =>
      if isDigit c then digitsPrefix (10 * acc + digitVal c) true t
      else if seen then Some acc else None
  | EmptyString => if seen then Some acc else None
  end.

Definition hexVal (c : ascii) : option Z :=
  if isDigit c then Some (digitVal c)
  else if between 97 102 c then Some (Z.of_nat (code c) - 87)
  else if between 65 70 c then Some (Z.of_nat (code c) - 55)
  else None.

Fixpoint hexPrefix (acc : Z) (seen : bool) (s : string) : option Z :=
  match s with
  | String c t =>
      match hexVal c with
      | Some v => hexPrefix (16 * acc + v) true t
      | None => if seen then Some acc else None
      end
  | EmptyString => if seen then Some acc else None
  end.

Definition unsignedInt (s : string) : option Z :=
  match s with
  | String "0" (String x t) =>
      if Ascii.eqb x "x" || Ascii.eqb x "X" then hexPrefix 0 false t
      else digitsPrefix 0 false s
  | _ => digitsPrefix 0 false s
  end.

(** [parseInt(s)] without a radix; [None] is [NaN].  Leading white space
    is skipped, a sign is honoured, [0x] selects radix 16. *)
Definition parseInt (s : string) : option Z :=
  match trimStart s with
  | String "-" t => Z.opp <$> unsignedInt t
  | String "+" t => unsignedInt t
  | t => unsignedInt t
  end.

(** [x || d] on a number that may be [NaN]: [0] and [NaN] are falsy *)
Definition orElse (x : option Z) (d : Z) : Z :=
  match x with
  | Some v => if Z.eqb v 0 then d else v
  | None => d
  end.

(** [x || y] when [y] may be [NaN] as well *)
Definition orElseN (x y : option Z) : option Z :=
  match x with
  | Some v => if Z.eqb v 0 then y else Some v
  | None => y
  end.

(** An integer-valued number that may be [NaN]: what a sum becomes once
    an [undefined] has been added to it. *)
Inductive num : Type := Fin (z : Z) | NaN.

(** [x + y] where [y] may be [undefined] *)
Definition addN (x : num) (y : option Z) : num :=
  match x, y with
  | Fin a, Some b => Fin (a + b)
  | _, _ => NaN
  end.

(** [x > 0]; every comparison with [NaN] is false *)
Definition posN (x : num) : bool :=
  match x with Fin a => 0 <? a | NaN => false end.

(** [x > y] and [x <= y] where [y] may be [undefined] *)
Definition gtU (x : Z) (y : option Z) : bool :=
  match y with Some b => b <? x | None => false end.
Definition leU (x : Z) (y : option Z) : bool :=
  match y with Some b => x <=? b | None => false end.

(** [x < y] on rationals *)
Definition ltQ (x y : Q) : bool :=
  Qnum x * Zpos (Qden y) <? Qnum y * Zpos (Qden x).

(** *** Doubles *)

(** A Number of the program is a binary64 value; the operations are those
    of IEEE 754 with 53 bits of precision, rounding to nearest, ties to
    even. *)
Definition double : Type := spec_float.

(** the Number that holds an integer: the integer itself below 2^53 *)
Definition ofInt (z : Z) : double := binary_normalize 53 1024 z 0 false.

(** [x / y], [x * y] and [x > y] *)
Definition divD : double -> double -> double := SFdiv 53 1024.
Definition mulD : double -> double -> double := SFmul 53 1024.
Definition gtD (x y : double) : bool := SFltb y x.

(** the exact value of a finite double; [NaN] and the infinities, which
    no quotient of two amounts below 2^53 with a positive divisor is,
    are given the value 0 *)
Definition valueD (x : double) : Q :=
  match x with
  | S754_finite s m e =>
      let n := if s then Zneg m else Zpos m in
      match e with
      | Z0 => Qmake n 1
      | Zpos p => Qmake (n * Z.pow_pos 2 p) 1
      | Zneg p => Qmake n (Pos.pow 2 p)
      end
  | _ => 0%Q
  end.

(** [Math.round] of a double: the integer nearest to its value, a half
    going up *)
Definition Math_roundD (x : double) : Z := Math_round (valueD x).

(** [Math.round((a / b) * 100)] on two integers *)
Definition roundedPercent (a b : Z) : Z :=
  Math_roundD (mulD (divD (ofInt a) (ofInt b)) (ofInt 100)).

(** [Math.round(x * 10) / 10]: the value of the Number that the
    division yields, in lowest terms *)
Definition round1 (x : double) : Q :=
  Qred (valueD (divD (ofInt (Math_roundD (mulD x (ofInt 10)))) (ofInt 10))).

(** [String(z)] for an integer, and [s.padStart(w, '0')] *)
Definition intText (z : Z) : string :=
  NilZero.string_of_int (Z.to_int z).

Fixpoint zeros (k : nat) : string :=
  match k with O => EmptyString | S k' => String "0" (zeros k') end.

Definition padStart0 (w : nat) (s : string) : string :=
  (zeros (w - String.length s) +:+ s)%string.

End JS.

(* ===================================================================== *)
(** ** Regular expressions: a backtracking matcher *)
(* ===================================================================== *)

Module RegExp.
Import JS.

(** The fragment of the pattern language that the sources use. *)
Inductive re : Type :=
| Eps : re                       (* the empty pattern *)
| Bol : re                       (* ^ *)
| Chr : (ascii -> bool) -> re    (* one character of a class *)
| Seq : re -> re -> re           (* ab *)
| Alt : re -> re -> re           (* a|b *)
| Star : bool -> re -> re        (* a* when greedy, a*? otherwise *)
| Grp : nat -> re -> re.         (* capture group number n *)

Record mstate : Type := MState {
  pos : nat;                     (* offset in the subject *)
  rest : string;                 (* the subject from [pos] on *)
  caps : list (nat * string)     (* captures, the latest first *)
}.

Definition advance (s : mstate) (t : string) : mstate :=
  {| pos := S (pos s); rest := t; caps := caps s |}.

Definition capture (i : nat) (from to : mstate) : mstate :=
  {| pos := pos to; rest := rest to;
     caps := (i, takeS (pos to - pos from) (rest from)) :: caps to |}.

(** The iterations of a starred pattern, [step] matching its body once:
    a greedy star tries one more iteration before it tries what follows,
    a lazy one the other way round.  An iteration that consumes nothing
    is rejected.  [n] bounds the number of iterations. *)
Fixpoint starLoop (step : (mstate -> option mstate) -> mstate -> option mstate)
         (greedy : bool) (k : mstate -> option mstate) (n : nat) (s : mstate)
  : option mstate :=
  match n with
  | O => k s
  | S n' =>
      if greedy then
        match step (fun s' => if Nat.ltb (pos s) (pos s')
                              then starLoop step greedy k n' s' else None) s with
        | Some x => Some x
        | None => k s
        end
      else
        match k s with
        | Some x => Some x
        | None => step (fun s' => if Nat.ltb (pos s) (pos s')
                                  then starLoop step greedy k n' s' else None) s
        end
  end.

(** [mtch r k s]: match [r] at [s], then the continuation [k]; the first
    success in priority order wins, as in the ECMAScript matcher.  Every
    iteration of a star consumes a character, so the length of the rest
    of the subject bounds their number. *)
Fixpoint mtch (r : re) (k : mstate -> option mstate) (s : mstate) : option mstate :=
  match r with
  | Eps => k s
  | Bol => if Nat.eqb (pos s) 0 then k s else None
  | Chr p =>
      match rest s with
      | String c t => if p c then k (advance s t) else None
      | EmptyString => None
      end
  | Seq a b => mtch a (mtch b k) s
  | Alt a b =>
      match mtch a k s with
      | Some x => Some x
      | None => mtch b k s
      end
  | Star greedy a => starLoop (mtch a) greedy k (S (String.length (rest s))) s
  | Grp i a => mtch a (fun s' => k (capture i s s')) s
  end.

(** Derived forms. *)
Definition Plus (greedy : bool) (a : re) : re := Seq a (Star greedy a).
Definition Opt (a : re) : re := Alt a Eps.

Fixpoint Times (n : nat) (a : re) : re :=
  match n with O => Eps | S n' => Seq a (Times n' a) end.

Fixpoint UpTo (n : nat) (a : re) : re :=
  match n with O => Eps | S n' => Opt (Seq a (UpTo n' a)) end.

(** [a{m,n}] *)
Definition Range (m n : nat) (a : re) : re := Seq (Times m a) (UpTo (n - m) a).

Fixpoint lit (s : string) : re :=
  match s with
  | EmptyString => Eps
  | String c t => Seq (Chr (Ascii.eqb c)) (lit t)
  end.

(** [w1|w2|...] *)
Fixpoint oneOf (ws : list string) : re :=
  match ws with
  | [] => Chr (fun _ => false)
  | [w] => lit w
  | w :: ws' => Alt (lit w) (oneOf ws')
  end.

Fixpoint cat (rs : list re) : re :=
  match rs with
  | [] => Eps
  | r :: rs' => Seq r (cat rs')
  end.

(** The result of a successful [exec]: [m.index], [m[0]], the groups, and
    what [lastIndex] becomes. *)
Record MatchResult : Type := Match {
  index : nat;
  matched : string;
  groups : list (nat * string);
  lastIndex : nat;
  after : string                 (* the subject from [lastIndex] on *)
}.

(** [m[i]]; a group that took no part reads as the empty text here (all
    groups of the patterns below take part in every match). *)
Fixpoint group (i : nat) (gs : list (nat * string)) : string :=
  match gs with
  | [] => EmptyString
  | (j, w) :: gs' => if Nat.eqb i j then w else group i gs'
  end.

Definition start (p : nat) (s : string) : mstate :=
  {| pos := p; rest := s; caps := [] |}.

(** First match at or after offset [p], where [s] is the subject from
    [p] on. *)
Fixpoint search (r : re) (p : nat) (s : string) : option MatchResult :=
  match mtch r Some (start p s) with
  | Some e =>
      Some {| index := p; matched := takeS (pos e - p) s; groups := caps e;
              lastIndex := pos e; after := rest e |}
  | None =>
      match s with
      | EmptyString => None
      | String _ t => search r (S p) t
      end
  end.

(** The loop [while ((m = r.exec(text)) !== null) ...] of a pattern with
    the [g] flag: every match, left to right, each search resuming at
    the end of the previous match.  (After an empty match the source
    loop would not advance; the model stops there.) *)
Fixpoint execLoop (r : re) (fuel : nat) (p : nat) (s : string) : list MatchResult :=
  match fuel with
  | O => []
  | S f =>
      match search r p s with
      | None => []
      | Some m =>
          m :: (if Nat.ltb (index m) (lastIndex m)
                then execLoop r f (lastIndex m) (after m) else [])
      end
  end.

Definition execAll (r : re) (s : string) : list MatchResult :=
  execLoop r (S (String.length s)) 0 s.

(** [s.replace(r, f)] for a pattern without the [g] flag: the first match
    is replaced by [f] of its groups. *)
Definition replaceFirst (r : re) (f : list (nat * string) -> string) (s : string) : string :=
  match search r 0 s with
  | None => s
  | Some m => (takeS (index m) s +:+ f (groups m) +:+ after m)%string
  end.

End RegExp.

(* ===================================================================== *)
(** ** Dates *)
(* ===================================================================== *)

Module DateModel.
Import JS RegExp.

(** A [Date] is its time value in milliseconds since 1970-01-01T00:00Z. *)
Abbreviation Date := Z (only parsing).

Definition msPerDay : Z := 86400000.
Definition msPerHour : Z := 3600000.

(** Day number of the civil date [y]-[m]-[d] in the proleptic Gregorian
    calendar ([m] from 1, [d] from 1), and its inverse. *)
Definition daysFromCivil (y m d : Z) : Z :=
  let y' := if m <=? 2 then y - 1 else y in
  let era := y' / 400 in
  let yoe := y' - era * 400 in
  let mp := if m <=? 2 then m + 9 else m - 3 in
  let doy := (153 * mp + 2) / 5 + d - 1 in
  let doe := yoe * 365 + yoe / 4 - yoe / 100 + doy in
  era * 146097 + doe - 719468.

Definition civilFromDays (n : Z) : Z * Z * Z :=
  let z := n + 719468 in
  let era := z / 146097 in
  let doe := z - era * 146097 in
  let yoe := (doe - doe / 1460 + doe / 36524 - doe / 146096) / 365 in
  let doy := doe - (365 * yoe + yoe / 4 - yoe / 100) in
  let mp := (5 * doy + 2) / 153 in
  let d := doy - (153 * mp + 2) / 5 + 1 in
  let m := if mp <? 10 then mp + 3 else mp - 9 in
  let y := yoe + era * 400 + (if m <=? 2 then 1 else 0) in
  (y, m, d).

(** A date key, the text [YYYY-MM-DD] of a calendar day, as the number of
    that day. *)
Abbreviation DateKey := Z (only parsing).

Definition pad2 (z : Z) : string := padStart0 2 (intText z).

(** the text that [toLocalDateString] builds for day [k] *)
Definition dateKeyText (k : DateKey) : string :=
  let '(y, m, d) := civilFromDays k in
  (intText y +:+ "-" +:+ pad2 m +:+ "-" +:+ pad2 d)%string.

(** [new Date(key)] on a [YYYY-MM-DD] text: a date-only form denotes
    midnight UTC of that day. *)
Definition dateOfKey (k : DateKey) : Date := k * msPerDay.

Section Local.
(** local time is UTC plus [utcOffset] milliseconds *)
Variable utcOffset : Z.

(** the number of the local calendar day that holds instant [t] *)
Definition localDay (t : Date) : Z := (t + utcOffset) / msPerDay.

(** midnight, local time, at the start of local day [k] *)
Definition localMidnight (k : Z) : Date := k * msPerDay - utcOffset.

(** [date.getDay()]: 0 is Sunday; 1970-01-01 was a Thursday *)
Definition getDay (t : Date) : Z := (localDay t + 4) mod 7.

(** [date.getHours()] *)
Definition getHours (t : Date) : Z := ((t + utcOffset) mod msPerDay) / msPerHour.

(** [date.getMonth() + 1] and [date.getDate()] *)
Definition monthOf (t : Date) : Z := snd (fst (civilFromDays (localDay t))).
Definition dateOf (t : Date) : Z := snd (civilFromDays (localDay t)).

(** [date.setHours(0, 0, 0, 0)] *)
Definition setHours0 (t : Date) : Date := localMidnight (localDay t).

(** [date.setDate(date.getDate() + k)]: under a fixed offset, where
    every local day lasts 24 hours, a step of [k] times 24 hours *)
Definition addDays (t : Date) (k : Z) : Date := t + k * msPerDay.

(** the same call spelled out on the fields of local time: the local
    day moves by [k], the time of day stays *)
Definition setDatePlus (t : Date) (k : Z) : Date :=
  localMidnight (localDay t + k) + (t + utcOffset) mod msPerDay.

(** [date.toDateString()], used as a key: names the local day *)
Definition toDateString (t : Date) : DateKey := localDay t.

Definition monthNames : list string :=
  ["jan"; "feb"; "mar"; "apr"; "may"; "jun";
   "jul"; "aug"; "sep"; "oct"; "nov"; "dec"]%string.

Fixpoint monthIndex (names : list string) (i : Z) (w : string) : option Z :=
  match names with
  | [] => None
  | n :: names' => if String.eqb n w then Some i else monthIndex names' (i + 1) w
  end.

Definition monthDayYear : re :=
  cat [Bol; Star true (Chr isSpace);
       Grp 1 (Times 3 (Chr isAlpha)); Plus true (Chr isSpace);
       Grp 2 (Range 1 2 (Chr isDigit)); lit ","; Plus true (Chr isSpace);
       Grp 3 (Times 4 (Chr isDigit)); Star true (Chr isSpace)].

(** [new Date(text)] for a text of the shape [Mon D, YYYY], the only
    shape [parseDate] hands over once a header has matched; [None] is
    an Invalid Date.  Such a text is not in the ECMAScript date
    format, so its reading is left to the engine; this is the reading
    of the usual engines: the month by its English three-letter name
    in any case, a day from 1 to 31, years below 100 moved into
    1950..2049, and the result midnight local time of that day. *)
Definition newDateOfText (s : string) : option Date :=
  match search monthDayYear 0 s with
  | Some m =>
      if truthyS (after m) then None else
      match monthIndex monthNames 1 (toLowerCase (group 1 (groups m))),
            parseInt (group 2 (groups m)), parseInt (group 3 (groups m)) with
      | Some mo, Some d, Some y =>
          if (1 <=? d) && (d <=? 31) then
            let y' := if y <? 50 then y + 2000 else if y <? 100 then y + 1900 else y in
            Some (localMidnight (daysFromCivil y' mo 1 + (d - 1)))
          else None
      | _, _, _ => None
      end
  | None => None
  end.

(** [date.getFullYear()] *)
Definition yearOf (t : Date) : Z := fst (fst (civilFromDays (localDay t))).

(** [new Date(year, monthIndex, day)] for a month index of 0..11, given
    here as the month from 1: midnight, local time, of that day, a day
    beyond the end of the month running into the next one; a year of
    0..99 stands for 1900 + year. *)
Definition newDate (y m d : Z) : Date :=
  let y' := if (0 <=? y) && (y <=? 99) then 1900 + y else y in
  localMidnight (daysFromCivil y' m 1 + (d - 1)).

(** [ChartHelpers.toLocalDateString] *)
Definition toLocalDateString (t : Date) : DateKey := localDay t.

End Local.

End DateModel.

(* ===================================================================== *)
(** ** The activity record *)
(* ===================================================================== *)

(** One logged task.  [taskName] is read by the statistics code and set by
    nothing; [base] may be unset; [course] may be absent. *)
Record Activity : Type := mkActivity {
  date : string;
  timestamp : Z;
  type : string;
  course : option string;
  title : string;
  taskName : option string;
  earned : Z;
  maxXP : option Z;
  base : option Z;
  percentage : Z;
  isSuccess : bool;
  rawText : string
}.

(* ===================================================================== *)
(** ** pdf-parser.js *)
(* ===================================================================== *)

Module PDFDataParser.
Import JS RegExp DateModel.
Local Open Scope string_scope.
Local Open Scope Z_scope.

(** [/(Mon|Tue|Wed|Thu|Fri|Sat|Sun),\s+[A-Za-z]{3}\s+\d{1,2}(?:st|nd|rd|th)?,\s+\d{4}/g] *)
Definition datePattern : re :=
  cat [Grp 1 (oneOf ["Mon"; "Tue"; "Wed"; "Thu"; "Fri"; "Sat"; "Sun"]);
       lit ","; Plus true (Chr isSpace);
       Times 3 (Chr isAlpha); Plus true (Chr isSpace);
       Range 1 2 (Chr isDigit); Opt (oneOf ["st"; "nd"; "rd"; "th"]);
       lit ","; Plus true (Chr isSpace);
       Times 4 (Chr isDigit)].

(** [/(Mathematical Foundations \w+)\s+(Placement|Supplemental)\s+(\d+)\s*\/\s*XP/g] *)
Definition diagnosticRegex : re :=
  cat [Grp 1 (Seq (lit "Mathematical Foundations ") (Plus true (Chr isWord)));
       Plus true (Chr isSpace);
       Grp 2 (oneOf ["Placement"; "Supplemental"]);
       Plus true (Chr isSpace);
       Grp 3 (Plus true (Chr isDigit));
       Star true (Chr isSpace); lit "/"; Star true (Chr isSpace); lit "XP"].

(** [/(Mathematical Foundations \w+)\s+(Lesson|Review|Quiz|Diagnostic|Multistep)\s+(.*?)\s+(\d+)\s*\/\s*(\d+)\s*XP/g] *)
Definition activityRegex : re :=
  cat [Grp 1 (Seq (lit "Mathematical Foundations ") (Plus true (Chr isWord)));
       Plus true (Chr isSpace);
       Grp 2 (oneOf ["Lesson"; "Review"; "Quiz"; "Diagnostic"; "Multistep"]);
       Plus true (Chr isSpace);
       Grp 3 (Star false (Chr isDot));
       Plus true (Chr isSpace);
       Grp 4 (Plus true (Chr isDigit));
       Star true (Chr isSpace); lit "/"; Star true (Chr isSpace);
       Grp 5 (Plus true (Chr isDigit));
       Star true (Chr isSpace); lit "XP"].

(** [/^(Mon|Tue|Wed|Thu|Fri|Sat|Sun),?\s*/] *)
Definition dayNamePrefix : re :=
  cat [Bol; Grp 1 (oneOf ["Mon"; "Tue"; "Wed"; "Thu"; "Fri"; "Sat"; "Sun"]);
       Opt (lit ","); Star true (Chr isSpace)].

(** [/(\d+)(st|nd|rd|th)/] *)
Definition ordinalSuffix : re :=
  cat [Grp 1 (Plus true (Chr isDigit)); Grp 2 (oneOf ["st"; "nd"; "rd"; "th"])].

(** [normalizeActivityType]; [None] is an absent argument. *)
Definition normalizeActivityType (type : option string) : string :=
  match type with
  | None => "lesson"
  | Some t =>
      if negb (truthyS t) then "lesson" else
      let normalizedType := trim (toLowerCase t) in
      if String.eqb normalizedType "lesson" || String.eqb normalizedType "lessons"
      then "lesson"
      else if String.eqb normalizedType "review" || String.eqb normalizedType "reviews"
      then "review"
      else if String.eqb normalizedType "quiz" || String.eqb normalizedType "quizzes"
      then "quiz"
      else if String.eqb normalizedType "diagnostic" || String.eqb normalizedType "diagnostics"
              || String.eqb normalizedType "placement" || String.eqb normalizedType "supplemental"
      then "diagnostic"
      else if String.eqb normalizedType "multistep" || String.eqb normalizedType "multisteps"
              || String.eqb normalizedType "practice"
      then "multistep"
      else "lesson"
  end.

Section WithClock.
Variable now : Z.
Variable utcOffset : Z.

(** [parseDate]: the day name and the ordinal suffix are removed, the
    rest goes to [new Date]; an Invalid Date is replaced by the
    current date. *)
Definition parseDate (dateStr : string) : Z :=
  let cleanDateStr :=
    replaceFirst ordinalSuffix (fun g => group 1 g)
      (replaceFirst dayNamePrefix (fun _ => "") dateStr) in
  match newDateOfText utcOffset cleanDateStr with
  | None => now
  | Some parsed => parsed
  end.

(** one record of the diagnostic pass *)
Definition diagnosticActivity (dateStr : string) (m : MatchResult) : Activity :=
  let fullMatch := matched m in
  let course := group 1 (groups m) in
  let type := group 2 (groups m) in
  let xpValue := group 3 (groups m) in
  let earnedXP := orElse (parseInt xpValue) 63 in
  let parsedDate := parseDate dateStr in
  {| date := dateStr;
     timestamp := parsedDate;
     type := "diagnostic";
     course := Some (trim course);
     title := type +:+ " Activity";
     taskName := None;
     earned := earnedXP;
     maxXP := Some earnedXP;
     base := Some earnedXP;
     percentage := 100;
     isSuccess := true;
     rawText := fullMatch |}.

(** one record of the graded pass.  [parseDate] never hands back an
    Invalid Date, so the fallback on [isNaN(parsedDate.getTime())]
    in this loop leaves the timestamp as it is.  The two numbers of the
    line are the integers that their digits denote, which a Number holds
    as they are below 2^53; the percentage is computed on doubles. *)
Definition gradedActivity (dateStr : string) (m : MatchResult) : Activity :=
  let fullMatch := matched m in
  let course := group 1 (groups m) in
  let type := group 2 (groups m) in
  let description := group 3 (groups m) in
  let earnedXP := group 4 (groups m) in
  let maxXP := group 5 (groups m) in
  let parsedDate := parseDate dateStr in
  let earned := orElse (parseInt earnedXP) 0 in
  let base := orElse (orElseN (parseInt maxXP) (parseInt earnedXP)) 0 in
  let percentage :=
    if (0 <? base)%Z then roundedPercent earned base else 100 in
  {| date := dateStr;
     timestamp := parsedDate;
     type := normalizeActivityType (Some type);
     course := Some (trim course);
     title := trim description;
     taskName := None;
     earned := earned;
     maxXP := Some base;
     base := Some base;
     percentage := percentage;
     isSuccess := (70 <=? percentage)%Z;
     rawText := fullMatch |}.

(** the two passes of [parseActivitySection] over a section *)
Definition diagnosticPass (dateStr sectionText : string) : list Activity :=
  map (diagnosticActivity dateStr) (execAll diagnosticRegex sectionText).

Definition gradedPass (dateStr sectionText : string) : list Activity :=
  map (gradedActivity dateStr) (execAll activityRegex sectionText).

(** [parseActivitySection]: the graded records of the section, then
    its diagnostic records. *)
Definition parseActivitySection (dateStr sectionText : string) : list Activity :=
  let diagnosticActivities := diagnosticPass dateStr sectionText in
  let activities := gradedPass dateStr sectionText in
  activities ++ diagnosticActivities.

(** the loop over the date headers: each section runs from the end of
    its header to the start of the next one, or to the end of the
    text *)
Fixpoint sections (text : string) (dateMatches : list MatchResult) : list Activity :=
  match dateMatches with
  | [] => []
  | currentDate :: rest =>
      let sectionStart := lastIndex currentDate in
      let sectionEnd :=
        match rest with
        | nextDate :: _ => index nextDate
        | [] => String.length text
        end in
      let sectionText := substring sectionStart sectionEnd text in
      (if Nat.ltb 10 (String.length sectionText)
       then parseActivitySection (matched currentDate) sectionText
       else [])
      ++ sections text rest
  end.

(** the last filter: a truthy [type]; [earned] and [timestamp] are
    defined in every record of this type *)
Definition wellFormed (a : Activity) : bool :=
  truthyS (type a) && true && true.

(** [parseActivities] *)
Definition parseActivities (text : string) : list Activity :=
  let dateMatches := execAll datePattern text in
  let activities := sections text dateMatches in
  List.filter wellFormed activities.

End WithClock.

Section Engine.
(** what [new Date] makes of a text such as [Oct 16, 2025 10:30 AM]:
    the text is not in the ECMAScript date format, so its reading is
    the engine's; it is taken to be a date *)
Variable newDateOfDateTime : string -> Z.

(** [parseDateTime]; [new Date] does not throw *)
Definition parseDateTime (dateStr timeStr : string) : Z :=
  newDateOfDateTime (dateStr +:+ " " +:+ timeStr).

(** the literal of [generateSampleData]: type, earned, maxXP, date,
    time and course of each sample *)
Definition sampleActivities : list (string * Z * Z * string * string * string) :=
  [ ("lessons", 20, 20, "Oct 16, 2025", "10:30 AM", "Mathematical Foundations III");
    ("reviews", 15, 20, "Oct 16, 2025", "11:15 AM", "Mathematical Foundations III");
    ("quizzes", 18, 20, "Oct 15, 2025", "2:45 PM", "Mathematical Foundations III");
    ("diagnostics", 25, 30, "Oct 14, 2025", "9:20 AM", "Mathematical Foundations II");
    ("multisteps", 22, 25, "Oct 14, 2025", "3:10 PM", "Mathematical Foundations II") ].

(** [generateSampleData]; these records have no [rawText], which is
    given as the empty text here and read by nothing *)
Definition generateSampleData : list Activity :=
  map (fun '(type, earned, maxXP, date, time, course) =>
         let timestamp := parseDateTime date time in
         let base := maxXP in
         let percentage := roundedPercent earned base in
         {| date := date;
            timestamp := timestamp;
            type := type;
            course := Some course;
            title := "Sample " +:+ match type with
                                  | String c rest => String (upperChar c) rest
                                  | EmptyString => ""
                                  end;
            taskName := None;
            earned := earned;
            maxXP := Some maxXP;
            base := Some base;
            percentage := percentage;
            isSuccess := (70 <=? percentage);
            rawText := "" |})
      sampleActivities.
End Engine.

End PDFDataParser.

(* ===================================================================== *)
(** ** Objects used as insertion-ordered dictionaries, and [Array.sort] *)
(* ===================================================================== *)

Module Dict.

(** [o[k] = f(o[k] || init)]: a new key goes to the end, as the
    enumeration order of an object's own string keys has it. *)
Fixpoint upsert {V : Type} (k : Z) (init : V) (f : V -> V) (o : list (Z * V)) : list (Z * V) :=
  match o with
  | [] => [(k, f init)]
  | (k', v) :: o' =>
      if k =? k' then (k', f v) :: o' else (k', v) :: upsert k init f o'
  end.

(** [Object.values(o)] *)
Definition values {V : Type} (o : list (Z * V)) : list V := map snd o.

(** [Array.prototype.sort] with the comparator [(a, b) => key(a) - key(b)]:
    ascending, and stable. *)
Fixpoint insertBy {A : Type} (key : A -> Z) (x : A) (l : list A) : list A :=
  match l with
  | [] => [x]
  | y :: l' => if key x <=? key y then x :: l else y :: insertBy key x l'
  end.

Fixpoint sortBy {A : Type} (key : A -> Z) (l : list A) : list A :=
  match l with
  | [] => []
  | x :: l' => insertBy key x (sortBy key l')
  end.

(** [set.add(x)] on a [Set] kept in insertion order *)
Fixpoint setAdd (x : string) (s : list string) : list string :=
  match s with
  | [] => [x]
  | y :: s' => if String.eqb x y then s else y :: setAdd x s'
  end.

End Dict.

(* ===================================================================== *)
(** ** statistics.js *)
(* ===================================================================== *)

Module StatisticsCalculator.
Import JS DateModel.
Local Open Scope string_scope.
Local Open Scope Z_scope.

Record ActivityCounts : Type := {
  diagnostics : nat; lessons : nat; reviews : nat; multisteps : nat; quizzes : nat
}.

(** [successRate] is the value of a Number, the one nearest to a
    multiple of a tenth; the two totals are missing from the snapshot of
    an empty log. *)
Record SuccessMetrics : Type := {
  perfectCount : nat; passCount : nat; failCount : nat;
  successRate : Q;
  totalEarned : option Z;
  totalPossible : option num
}.

Module DayStat.
Record t : Type := {
  date : Z; xp : Z; earned : Z; base : num; count : nat;
  activities : list Activity
}.
End DayStat.

Module Slot.
Record t : Type := { xp : Z; count : nat }.
End Slot.

Module Weekday.
Record t : Type := {
  weekdayStats : list Slot.t; bestWeekday : string; bestWeekdayAvg : Z
}.
End Weekday.

(** a day is named by its key; [None] is the empty text *)
Record BestPerformance : Type := {
  bestDayXP : Z; bestDayDate : option Z;
  bestAccuracy : Q; bestAccuracyDate : option Z
}.

Module DayPoint.
Record t : Type := { date : Z; label : string; xp : Z; count : nat }.
End DayPoint.

Record TimeAnalysis : Type := {
  hourlyStats : list Slot.t; mostProductiveHour : string; maxHourlyXP : Z
}.

Record Stats : Type := {
  totalXP : Z;
  totalActivities : nat;
  activityCounts : ActivityCounts;
  successMetrics : SuccessMetrics;
  avgXPPerDay : Z;
  dailyStats : list (Z * DayStat.t);
  weekdayStats : Weekday.t;
  bestPerformance : BestPerformance;
  last14Days : list DayPoint.t;
  timeAnalysis : TimeAnalysis
}.

(** [calculateTotalXP] *)
Definition calculateTotalXP (data : list Activity) : Z :=
  fold_left (fun sum activity => sum + earned activity) data 0.

(** [(activity.taskName || '').toLowerCase().includes('quiz')] *)
Definition isQuiz (activity : Activity) : bool :=
  let taskName := match taskName activity with
                  | Some n => if truthyS n then n else ""
                  | None => ""
                  end in
  includes "quiz" (toLowerCase taskName).

(** [!isQuiz && (type === 'diagnostic' || type === 'assessment' ||
    type === 'supplemental diagnostic')] *)
Definition isDiagnostic (activity : Activity) : bool :=
  let type := toLowerCase (type activity) in
  negb (isQuiz activity) &&
  (String.eqb type "diagnostic" || String.eqb type "assessment"
   || String.eqb type "supplemental diagnostic").

Definition noCounts : ActivityCounts :=
  {| diagnostics := 0; lessons := 0; reviews := 0; multisteps := 0; quizzes := 0 |}.

(** the body of the loop of [calculateActivityCounts] *)
Definition countActivity (counts : ActivityCounts) (activity : Activity) : ActivityCounts :=
  let originalType := type activity in
  let type := toLowerCase originalType in
  let taskName := match taskName activity with
                  | Some n => if truthyS n then n else ""
                  | None => ""
                  end in
  let c := counts in
  if includes "quiz" (toLowerCase taskName) then
    {| diagnostics := diagnostics c; lessons := lessons c; reviews := reviews c;
       multisteps := multisteps c; quizzes := S (quizzes c) |}
  else if String.eqb type "diagnostic" || String.eqb type "assessment"
          || String.eqb type "supplemental diagnostic" then
    {| diagnostics := S (diagnostics c); lessons := lessons c; reviews := reviews c;
       multisteps := multisteps c; quizzes := quizzes c |}
  else if String.eqb type "lesson" then
    {| diagnostics := diagnostics c; lessons := S (lessons c); reviews := reviews c;
       multisteps := multisteps c; quizzes := quizzes c |}
  else if String.eqb type "review" then
    {| diagnostics := diagnostics c; lessons := lessons c; reviews := S (reviews c);
       multisteps := multisteps c; quizzes := quizzes c |}
  else if String.eqb type "multistep" then
    {| diagnostics := diagnostics c; lessons := lessons c; reviews := reviews c;
       multisteps := S (multisteps c); quizzes := quizzes c |}
  else if String.eqb type "quiz" then
    {| diagnostics := diagnostics c; lessons := lessons c; reviews := reviews c;
       multisteps := multisteps c; quizzes := S (quizzes c) |}
  else c.

(** [calculateActivityCounts] *)
Definition calculateActivityCounts (data : list Activity) : ActivityCounts :=
  fold_left countActivity data noCounts.

(** the first loop of [calculateSuccessMetrics], on the triple
    (perfect, pass, fail) *)
Definition classify (acc : nat * nat * nat) (activity : Activity) : nat * nat * nat :=
  let '(perfectCount, passCount, failCount) := acc in
  if isDiagnostic activity then
    if 0 <? earned activity then (perfectCount, S passCount, failCount)
    else (perfectCount, passCount, S failCount)
  else
    if gtU (earned activity) (base activity) then (S perfectCount, passCount, failCount)
    else if (0 <? earned activity) && leU (earned activity) (base activity)
    then (perfectCount, S passCount, failCount)
    else (perfectCount, passCount, S failCount).

(** the second loop, on the pair (totalEarned, totalPossible) *)
Definition attain (acc : Z * num) (activity : Activity) : Z * num :=
  let '(totalEarned, totalPossible) := acc in
  if isDiagnostic activity then
    (totalEarned + earned activity, addN totalPossible (Some (earned activity)))
  else
    (totalEarned + earned activity, addN totalPossible (base activity)).

(** [totalPossible > 0 ? (totalEarned / totalPossible * 100) : 0] *)
Definition attainmentRate (totalEarned : Z) (totalPossible : num) : double :=
  match totalPossible with
  | Fin p => if 0 <? p then mulD (divD (ofInt totalEarned) (ofInt p)) (ofInt 100)
             else ofInt 0
  | NaN => ofInt 0
  end.

(** [calculateSuccessMetrics] *)
Definition calculateSuccessMetrics (data : list Activity) : SuccessMetrics :=
  let '(perfectCount, passCount, failCount) := fold_left classify data (0, 0, 0)%nat in
  let '(totalEarned, totalPossible) := fold_left attain data (0, Fin 0) in
  let xpAttainmentRate := attainmentRate totalEarned totalPossible in
  {| perfectCount := perfectCount;
     passCount := passCount;
     failCount := failCount;
     successRate := round1 xpAttainmentRate;
     totalEarned := Some totalEarned;
     totalPossible := Some totalPossible |}.

Section WithClock.
Variable now : Z.
Variable utcOffset : Z.

(** [calculateDailyStats]: one entry per local day, in the order in
    which the days first occur. *)
Definition calculateDailyStats (data : list Activity) : list (Z * DayStat.t) :=
  fold_left
    (fun dailyStats activity =>
       let date := timestamp activity in
       let dateKey := toDateString utcOffset date in
       Dict.upsert dateKey
         {| DayStat.date := date; DayStat.xp := 0; DayStat.earned := 0;
            DayStat.base := Fin 0; DayStat.count := 0; DayStat.activities := [] |}
         (fun d =>
            {| DayStat.date := DayStat.date d;
               DayStat.xp := DayStat.xp d + earned activity;
               DayStat.earned := DayStat.earned d + earned activity;
               DayStat.base := addN (DayStat.base d) (base activity);
               DayStat.count := S (DayStat.count d);
               DayStat.activities := DayStat.activities d ++ [activity] |})
         dailyStats)
    data [].

(** [calculateAvgXPPerDay] *)
Definition calculateAvgXPPerDay (data : list Activity) : Z :=
  let dailyStats := calculateDailyStats data in
  let uniqueDays := length dailyStats in
  let totalXP := calculateTotalXP data in
  if Nat.ltb 0 uniqueDays then Math_round (quot totalXP (Z.of_nat uniqueDays)) else 0.

Definition weekdayNames : list string :=
  ["Sunday"; "Monday"; "Tuesday"; "Wednesday"; "Thursday"; "Friday"; "Saturday"].

Definition emptySlot : Slot.t := {| Slot.xp := 0; Slot.count := 0 |}.

Definition bump (e : Z) (s : Slot.t) : Slot.t :=
  {| Slot.xp := Slot.xp s + e; Slot.count := S (Slot.count s) |}.

(** [stats.count > 0 ? stats.xp / stats.count : 0] *)
Definition slotAvg (s : Slot.t) : Q :=
  if Nat.ltb 0 (Slot.count s) then quot (Slot.xp s) (Z.of_nat (Slot.count s)) else 0.

(** [calculateWeekdayStats]; the day index of a valid date is always
    one of 0..6, so the guard of the loop holds. *)
Definition calculateWeekdayStats (data : list Activity) : Weekday.t :=
  let weekdayStats :=
    fold_left
      (fun ws activity =>
         let day := getDay utcOffset (timestamp activity) in
         alter (bump (orElse (Some (earned activity)) 0)) (Z.to_nat day) ws)
      data (replicate 7 emptySlot) in
  let '(bestWeekday, bestWeekdayAvg, _) :=
    fold_left
      (fun '(bestWeekday, bestWeekdayAvg, index) stats =>
         let avg := slotAvg stats in
         if ltQ bestWeekdayAvg avg
         then (nth index weekdayNames "", avg, S index)
         else (bestWeekday, bestWeekdayAvg, S index))
      weekdayStats ("", 0%Q, 0%nat) in
  {| Weekday.weekdayStats := weekdayStats;
     Weekday.bestWeekday := bestWeekday;
     Weekday.bestWeekdayAvg := Math_round bestWeekdayAvg |}.

(** the sums over the records of a day that are not diagnostics *)
Definition nonDiagnosticTotals (acts : list Activity) : Z * num :=
  fold_left
    (fun '(nonDiagnosticEarned, nonDiagnosticBase) activity =>
       if negb (isDiagnostic activity)
       then (nonDiagnosticEarned + earned activity,
             addN nonDiagnosticBase (base activity))
       else (nonDiagnosticEarned, nonDiagnosticBase))
    acts (0, Fin 0).

(** [calculateBestPerformance] *)
Definition calculateBestPerformance (data : list Activity) : BestPerformance :=
  let dailyStats := calculateDailyStats data in
  let '(bestDayXP, bestDayDate, bestAccuracy, bestAccuracyDate) :=
    fold_left
      (fun '(bestDayXP, bestDayDate, bestAccuracy, bestAccuracyDate) '(dateKey, stats) =>
         let '(bestDayXP, bestDayDate) :=
           if bestDayXP <? DayStat.xp stats
           then (DayStat.xp stats, Some dateKey) else (bestDayXP, bestDayDate) in
         let '(nonDiagnosticEarned, nonDiagnosticBase) :=
           nonDiagnosticTotals (DayStat.activities stats) in
         let accuracy := attainmentRate nonDiagnosticEarned nonDiagnosticBase in
         if gtD accuracy bestAccuracy && posN nonDiagnosticBase
         then (bestDayXP, bestDayDate, accuracy, Some dateKey)
         else (bestDayXP, bestDayDate, bestAccuracy, bestAccuracyDate))
      dailyStats (0, None, ofInt 0, None) in
  {| bestDayXP := bestDayXP;
     bestDayDate := bestDayDate;
     bestAccuracy := round1 bestAccuracy;
     bestAccuracyDate := bestAccuracyDate |}.

Fixpoint lookupDay {V : Type} (k : Z) (o : list (Z * V)) : option V :=
  match o with
  | [] => None
  | (k', v) :: o' => if k =? k' then Some v else lookupDay k o'
  end.

(** [getLast14Days]: today and the thirteen days before it, oldest
    first *)
Definition getLast14Days (data : list Activity) : list DayPoint.t :=
  let today := now in
  let dailyStats := calculateDailyStats data in
  map (fun i =>
         let date := addDays today (- Z.of_nat i) in
         let dateKey := toDateString utcOffset date in
         {| DayPoint.date := date;
            DayPoint.label := intText (monthOf utcOffset date) +:+ "/"
                              +:+ intText (dateOf utcOffset date);
            DayPoint.xp := match lookupDay dateKey dailyStats with
                           | Some d => DayStat.xp d | None => 0 end;
            DayPoint.count := match lookupDay dateKey dailyStats with
                              | Some d => DayStat.count d | None => 0%nat end |})
      (rev (seq 0 14)).

Definition formatHour (hour : nat) : string :=
  let ampm := if Nat.leb 12 hour then "PM" else "AM" in
  let displayHour :=
    if Nat.eqb hour 0 then 12%nat
    else if Nat.ltb 12 hour then (hour - 12)%nat else hour in
  intText (Z.of_nat displayHour) +:+ ":00 " +:+ ampm.

(** [calculateTimeAnalysis] *)
Definition calculateTimeAnalysis (data : list Activity) : TimeAnalysis :=
  let hourlyStats :=
    fold_left
      (fun hs activity =>
         let hour := getHours utcOffset (timestamp activity) in
         alter (bump (earned activity)) (Z.to_nat hour) hs)
      data (replicate 24 emptySlot) in
  let '(mostProductiveHour, maxHourlyXP, _) :=
    fold_left
      (fun '(mostProductiveHour, maxHourlyXP, hour) stats =>
         if maxHourlyXP <? Slot.xp stats
         then (hour, Slot.xp stats, S hour)
         else (mostProductiveHour, maxHourlyXP, S hour))
      hourlyStats (0%nat, 0, 0%nat) in
  {| hourlyStats := hourlyStats;
     mostProductiveHour := formatHour mostProductiveHour;
     maxHourlyXP := maxHourlyXP |}.

(** [getEmptyStats] *)
Definition getEmptyStats : Stats :=
  {| totalXP := 0;
     totalActivities := 0;
     activityCounts :=
       {| diagnostics := 0; lessons := 0; reviews := 0; multisteps := 0; quizzes := 0 |};
     successMetrics :=
       {| perfectCount := 0; passCount := 0; failCount := 0; successRate := 0;
          totalEarned := None; totalPossible := None |};
     avgXPPerDay := 0;
     dailyStats := [];
     weekdayStats :=
       {| Weekday.weekdayStats := replicate 7 {| Slot.xp := 0; Slot.count := 0 |};
          Weekday.bestWeekday := ""; Weekday.bestWeekdayAvg := 0 |};
     bestPerformance :=
       {| bestDayXP := 0; bestDayDate := None; bestAccuracy := 0; bestAccuracyDate := None |};
     last14Days := [];
     timeAnalysis :=
       {| hourlyStats := replicate 24 {| Slot.xp := 0; Slot.count := 0 |};
          mostProductiveHour := ""; maxHourlyXP := 0 |} |}.

(** [calculateStats]; [None] is a calculator whose [data] is missing *)
Definition calculateStats (data : option (list Activity)) : Stats :=
  match data with
  | None => getEmptyStats
  | Some data =>
      if Nat.eqb (length data) 0 then getEmptyStats else
      {| totalXP := calculateTotalXP data;
         totalActivities := length data;
         activityCounts := calculateActivityCounts data;
         successMetrics := calculateSuccessMetrics data;
         avgXPPerDay := calculateAvgXPPerDay data;
         dailyStats := calculateDailyStats data;
         weekdayStats := calculateWeekdayStats data;
         bestPerformance := calculateBestPerformance data;
         last14Days := getLast14Days data;
         timeAnalysis := calculateTimeAnalysis data |}
  end.

(** the [switch] of [filterByPeriod]: the start of the period; there is
    none for ['all'] and for any other text *)
Definition startDate (period : string) : option Z :=
  if String.eqb period "today" then
    Some (newDate utcOffset (yearOf utcOffset now) (monthOf utcOffset now)
                  (dateOf utcOffset now))
  else if String.eqb period "week" then
    Some (now - 7 * 24 * 60 * 60 * 1000)
  else if String.eqb period "month" then
    Some (newDate utcOffset (yearOf utcOffset now) (monthOf utcOffset now) 1)
  else None.

(** [filterByPeriod], as the data of the calculator it returns *)
Definition filterByPeriod (period : string) (data : list Activity) : list Activity :=
  match startDate period with
  | None => data
  | Some startDate =>
      List.filter (fun activity => startDate <=? timestamp activity) data
  end.

End WithClock.

End StatisticsCalculator.

(* ===================================================================== *)
(** ** chart-helpers.js *)
(* ===================================================================== *)

Module ChartHelpers.
Import JS DateModel.
Local Open Scope string_scope.
Local Open Scope Z_scope.

(** The aggregate of one local day. *)
Module Day.
Record t : Type := {
  date : Z;
  xp : Z;
  count : nat;
  totalPossible : Z;
  totalEarned : Z;
  courses : list string;
  courseTransition : bool;
  transitionFrom : option string;
  transitionTo : option string
}.
End Day.

Module Transition.
Record t : Type := { from : option string; to : option string }.
End Transition.

(** A label is a date key, or the text of a placeholder. *)
Inductive Label : Type :=
| Text (s : string)
| Key (k : Z).

Record TimeSeries : Type := {
  labels : list Label;
  values : list Z;
  transitions : option (gmap Z Transition.t)
}.

(** what the chart functions are handed: [stats.calculator] and its
    [data], either of which may be missing *)
Record Calculator : Type := { data : option (list Activity) }.
Record StatsView : Type := { calculator : option Calculator }.

Definition calculatorData (stats : StatsView) : option (list Activity) :=
  match calculator stats with
  | Some c => data c
  | None => None
  end.

(** [stats.calculator.data.sort((a, b) => new Date(a.timestamp) - new Date(b.timestamp))] *)
Definition sortByTimestamp (l : list Activity) : list Activity :=
  Dict.sortBy timestamp l.

Section WithClock.
Variable now : Z.
Variable utcOffset : Z.

Definition emptyDay (dateKey : Z) : Day.t :=
  {| Day.date := dateKey; Day.xp := 0; Day.count := 0;
     Day.totalPossible := 0; Day.totalEarned := 0; Day.courses := [];
     Day.courseTransition := false;
     Day.transitionFrom := None; Day.transitionTo := None |}.

(** the (earned, possible) pair that a record adds to its day *)
Definition attainment (activity : Activity) : Z * Z :=
  if StatisticsCalculator.isDiagnostic activity then
    (orElse (Some (earned activity)) 0, orElse (Some (earned activity)) 0)
  else
    (orElse (Some (earned activity)) 0, orElse (base activity) 10).

(** the body of the first loop of [groupActivitiesByDay] *)
Definition addToDay (activity : Activity) (g : Day.t) : Day.t :=
  let '(earnedXP, possibleXP) := attainment activity in
  {| Day.date := Day.date g;
     Day.xp := Day.xp g + orElse (Some (earned activity)) 0;
     Day.count := S (Day.count g);
     Day.totalPossible := Day.totalPossible g + possibleXP;
     Day.totalEarned := Day.totalEarned g + earnedXP;
     Day.courses :=
       match course activity with
       | Some c => if truthyS c then Dict.setAdd c (Day.courses g) else Day.courses g
       | None => Day.courses g
       end;
     Day.courseTransition := Day.courseTransition g;
     Day.transitionFrom := Day.transitionFrom g;
     Day.transitionTo := Day.transitionTo g |}.

(** one round of that loop: the record joins the group of its local
    day, which is created when the record is the first of that day *)
Definition groupStep (groups : list (Z * Day.t)) (activity : Activity) : list (Z * Day.t) :=
  let dateKey := toLocalDateString utcOffset (timestamp activity) in
  Dict.upsert dateKey (emptyDay dateKey) (addToDay activity) groups.

Definition dailyGroups (activities : list Activity) : list (Z * Day.t) :=
  fold_left groupStep activities [].

Definition withTransition (day : Day.t) (flag : bool) (f t : option string) : Day.t :=
  {| Day.date := Day.date day; Day.xp := Day.xp day; Day.count := Day.count day;
     Day.totalPossible := Day.totalPossible day; Day.totalEarned := Day.totalEarned day;
     Day.courses := Day.courses day;
     Day.courseTransition := flag; Day.transitionFrom := f; Day.transitionTo := t |}.

(** the second loop: a day is a transition when its first course
    differs from the first course of the latest earlier day that has
    a course *)
Fixpoint markTransitions (previousCourse : option string) (days : list Day.t) : list Day.t :=
  match days with
  | [] => []
  | day :: days' =>
      match Day.courses day with
      | currentCourse :: _ =>
          (match previousCourse with
           | Some p =>
               if truthyS p && negb (String.eqb currentCourse p)
               then withTransition day true (Some p) (Some currentCourse)
               else withTransition day false None None
           | None => withTransition day false None None
           end) :: markTransitions (Some currentCourse) days'
      | [] => withTransition day false None None :: markTransitions previousCourse days'
      end
  end.

(** the days in ascending order, before the transitions are marked *)
Definition sortedDays (activities : list Activity) : list Day.t :=
  Dict.sortBy (fun d => dateOfKey (Day.date d)) (Dict.values (dailyGroups activities)).

(** [groupActivitiesByDay] *)
Definition groupActivitiesByDay (activities : list Activity) : list Day.t :=
  markTransitions None (sortedDays activities).

Definition placeholder (ls : list string) (vs : list Z) : TimeSeries :=
  {| labels := map Text ls; values := vs; transitions := None |}.

(** the lookup tables that the chart functions build from the days *)
Definition lookupOf (f : Day.t -> Z) (dailyData : list Day.t) : gmap Z Z :=
  fold_left (fun m day => <[Day.date day := f day]> m) dailyData ∅.

Definition transitionLookupOf (dailyData : list Day.t) : gmap Z Transition.t :=
  fold_left
    (fun m day =>
       if Day.courseTransition day
       then <[Day.date day := {| Transition.from := Day.transitionFrom day;
                                 Transition.to := Day.transitionTo day |}]> m
       else m)
    dailyData ∅.

(** the loop [while (currentDate <= lastDate)] of the cumulative
    charts: one point per day, [currentDate] moving on by one day *)
Fixpoint cumulate (lookup : gmap Z Z) (fuel : nat) (currentDate lastDate : Z)
         (cumulative : Z) : list (Z * Z) :=
  match fuel with
  | O => []
  | S fuel' =>
      if currentDate <=? lastDate then
        let dateKey := toLocalDateString utcOffset currentDate in
        let dayValue := orElse (lookup !! dateKey) 0 in
        let cumulative := cumulative + dayValue in
        (dateKey, cumulative)
          :: cumulate lookup fuel' (addDays currentDate 1) lastDate cumulative
      else []
  end.

(** the number of rounds of that loop *)
Definition rounds (firstDate lastDate : Z) : nat :=
  Z.to_nat ((lastDate - firstDate) / msPerDay + 1).

(** the common part of [getCumulativeXPData] and
    [getCumulativeActivitiesData], [f] being the statistic of a day
    that is accumulated.  The list of days is never empty here;
    were it so, reading [dailyData[0].date] would throw. *)
Definition cumulativeSeries (f : Day.t -> Z) (dailyData : list Day.t) : option TimeSeries :=
  match head dailyData, last dailyData with
  | Some first, Some final =>
      let firstDate := setHours0 utcOffset (dateOfKey (Day.date first)) in
      let lastDate := setHours0 utcOffset (dateOfKey (Day.date final)) in
      let lookup := lookupOf f dailyData in
      let transitionLookup := transitionLookupOf dailyData in
      let data := cumulate lookup (rounds firstDate lastDate) firstDate lastDate 0 in
      Some {| labels := map (fun d => Key (fst d)) data;
              values := map snd data;
              transitions := Some transitionLookup |}
  | _, _ => None
  end.

Definition orThrow (r : option TimeSeries) : TimeSeries :=
  match r with
  | Some t => t
  | None => {| labels := []; values := []; transitions := None |}
  end.

(** [getCumulativeXPData] *)
Definition getCumulativeXPData (stats : StatsView) : TimeSeries :=
  match calculatorData stats with
  | None => placeholder ["Day 1"; "Day 2"; "Day 3"; "Day 4"; "Day 5"] [12; 28; 41; 67; 85]
  | Some data =>
      let activities := sortByTimestamp data in
      if Nat.eqb (length activities) 0
      then placeholder ["Day 1"; "Day 2"; "Day 3"] [5; 12; 20]
      else
        let dailyData := groupActivitiesByDay activities in
        orThrow (cumulativeSeries Day.xp dailyData)
  end.

(** [getCumulativeActivitiesData] *)
Definition getCumulativeActivitiesData (stats : StatsView) : TimeSeries :=
  match calculatorData stats with
  | None => placeholder ["Day 1"; "Day 2"; "Day 3"; "Day 4"] [2; 5; 7; 12]
  | Some data =>
      let activities := sortByTimestamp data in
      if Nat.eqb (length activities) 0
      then placeholder ["Day 1"; "Day 2"] [1; 2]
      else
        let dailyData := groupActivitiesByDay activities in
        orThrow (cumulativeSeries (fun d => Z.of_nat (Day.count d)) dailyData)
  end.

(** [dailyData.slice(Math.max(0, i - 6), i + 1)] *)
Definition window (dailyData : list Day.t) (i : nat) : list Day.t :=
  let windowStart := (i - 6)%nat in
  take (i + 1 - windowStart) (drop windowStart dailyData).

Definition sumOf (f : Day.t -> Z) (w : list Day.t) : Z :=
  fold_left (fun sum day => sum + f day) w 0.

(** the rolling charts: one point for each day with records *)
Definition rolling (point : list Day.t -> Z) (dailyData : list Day.t) : TimeSeries :=
  let transitionLookup := transitionLookupOf dailyData in
  let data := imap (fun i day => (Day.date day, point (window dailyData i))) dailyData in
  {| labels := map (fun d => Key (fst d)) data;
     values := map snd data;
     transitions := Some transitionLookup |}.

(** [totalPossible > 0 ? Math.round((totalEarned / totalPossible) * 100) : 0] *)
Definition percentOf (totalEarned totalPossible : Z) : Z :=
  if 0 <? totalPossible then roundedPercent totalEarned totalPossible else 0.

(** [getAvgXPOverTimeData] *)
Definition getAvgXPOverTimeData (stats : StatsView) : TimeSeries :=
  match calculatorData stats with
  | None => placeholder ["Week 1"; "Week 2"; "Week 3"] [108; 112; 115]
  | Some data =>
      let activities := sortByTimestamp data in
      if Nat.eqb (length activities) 0
      then placeholder ["Week 1"; "Week 2"] [110; 112]
      else
        let dailyData := groupActivitiesByDay activities in
        rolling (fun window =>
                   let totalXP := sumOf Day.xp window in
                   Math_round (quot totalXP (Z.of_nat (length window))))
                dailyData
  end.

(** [getSuccessRateOverTimeData] *)
Definition getSuccessRateOverTimeData (stats : StatsView) : TimeSeries :=
  match calculatorData stats with
  | None => placeholder ["Month 1"; "Month 2"; "Month 3"] [87; 86; 88]
  | Some data =>
      let activities := sortByTimestamp data in
      if Nat.eqb (length activities) 0
      then placeholder ["Month 1"; "Month 2"] [70; 80]
      else
        let dailyData := groupActivitiesByDay activities in
        rolling (fun window =>
                   let totalEarned := sumOf Day.totalEarned window in
                   let totalPossible := sumOf Day.totalPossible window in
                   percentOf totalEarned totalPossible)
                dailyData
  end.

(** the seven days of the week view: today and the six days before
    it, oldest first *)
Definition lastSevenDays : list Z :=
  map (fun i => toLocalDateString utcOffset (addDays now (- i))) [6; 5; 4; 3; 2; 1; 0].

(** the loop [for (let i = 6; i >= 0; i--)] of the week charts; [step]
    gives the value pushed for a day and the running total *)
Definition weekSeries (step : Z -> Z -> Z * Z) : TimeSeries :=
  let '(labels, values, _) :=
    fold_left
      (fun '(labels, values, cumulative) dateKey =>
         let '(value, cumulative) := step cumulative dateKey in
         ((labels ++ [Key dateKey])%list, (values ++ [value])%list, cumulative))
      lastSevenDays ([], [], 0) in
  {| labels := labels; values := values; transitions := None |}.

Definition noSeries : TimeSeries :=
  {| labels := []; values := []; transitions := None |}.

Definition weekView (f : Day.t -> Z) (cumulativeView : bool) (stats : StatsView) : TimeSeries :=
  match calculatorData stats with
  | None => noSeries
  | Some data =>
      let activities := sortByTimestamp data in
      if Nat.eqb (length activities) 0 then noSeries
      else
        let dailyData := groupActivitiesByDay activities in
        let lookup := lookupOf f dailyData in
        weekSeries (fun cumulative dateKey =>
                      let dayValue := orElse (lookup !! dateKey) 0 in
                      if cumulativeView
                      then (cumulative + dayValue, cumulative + dayValue)
                      else (dayValue, cumulative))
  end.

(** [getDailyXPData] *)
Definition getDailyXPData : StatsView -> TimeSeries := weekView Day.xp false.

(** [getWeeklyCumulativeXPData] *)
Definition getWeeklyCumulativeXPData : StatsView -> TimeSeries := weekView Day.xp true.

(** [getDailyActivitiesData] *)
Definition getDailyActivitiesData : StatsView -> TimeSeries :=
  weekView (fun d => Z.of_nat (Day.count d)) false.

(** [getWeeklyCumulativeActivitiesData] *)
Definition getWeeklyCumulativeActivitiesData : StatsView -> TimeSeries :=
  weekView (fun d => Z.of_nat (Day.count d)) true.

Definition attainmentLookupOf (dailyData : list Day.t) : gmap Z Z :=
  fold_left
    (fun m day =>
       if 0 <? Day.totalPossible day
       then <[Day.date day :=
                roundedPercent (Day.totalEarned day) (Day.totalPossible day)]> m
       else m)
    dailyData ∅.

(** [getDailyAttainmentData] *)
Definition getDailyAttainmentData (stats : StatsView) : TimeSeries :=
  match calculatorData stats with
  | None => noSeries
  | Some data =>
      let activities := sortByTimestamp data in
      if Nat.eqb (length activities) 0 then noSeries
      else
        let dailyData := groupActivitiesByDay activities in
        let dailyAttainmentLookup := attainmentLookupOf dailyData in
        weekSeries (fun cumulative dateKey =>
                      (match dailyAttainmentLookup !! dateKey with
                       | Some v => v
                       | None => 100
                       end, cumulative))
  end.

(** [daysBetween] *)
Definition daysBetween (date1 date2 : Z) : Z :=
  Math_round (Qabs (Qmake (date1 - date2) 1 / Qmake msPerDay 1)).

End WithClock.

(** the loop [for (let i = 0; i < data.length; i += step)] of
    [sampleData], on the part of the data from index [i] on *)
Fixpoint everyNth {A : Type} (fuel step : nat) (rest : list A) : list A :=
  match fuel, rest with
  | S fuel', x :: _ => x :: everyNth fuel' step (drop step rest)
  | _, _ => []
  end.

(** [sampleData] for a number of points that is a natural number; the
    equality of [A] is [===].  With [maxPoints] 0 the step is
    [Infinity], and the loop ends after its first round. *)
Definition sampleData {A : Type} `{EqDecision A} (data : list A) (maxPoints : nat) : list A :=
  if Nat.leb (length data) maxPoints then data else
  let step := if Nat.eqb maxPoints 0 then length data
              else Nat.div (length data) maxPoints in
  let sampled := everyNth (length data) step data in
  match last sampled, last data with
  | Some x, Some y => if decide (x = y) then sampled else (sampled ++ [y])%list
  | _, _ => sampled
  end.

End ChartHelpers.

(* ===================================================================== *)
(** ** src/js/chart-helpers.js: the chart helpers that name days in UTC *)
(* ===================================================================== *)

(** The repository holds the chart helpers twice.  In the file
    [src/js/chart-helpers.js] a day is named by
    [date.toISOString().split('T')[0]], and the dates made from these
    names are used as they are; [ChartHelpers] above is the other state,
    with [toLocalDateString] and the week views.  What the two states
    share, [addToDay], [markTransitions] and the lookup tables, is taken
    from [ChartHelpers].  The aggregate of the days reads no local time;
    the loops of the cumulative charts step from day to day with
    [setDate], on local time. *)
Module LegacyChartHelpers.
Import JS DateModel ChartHelpers.
Local Open Scope string_scope.
Local Open Scope Z_scope.

(** [date.toISOString().split('T')[0]]: the day in UTC *)
Definition isoDate (t : Z) : Z := t / msPerDay.

Definition groupStep (groups : list (Z * Day.t)) (activity : Activity) : list (Z * Day.t) :=
  let dateKey := isoDate (timestamp activity) in
  Dict.upsert dateKey (emptyDay dateKey) (addToDay activity) groups.

Definition dailyGroups (activities : list Activity) : list (Z * Day.t) :=
  fold_left groupStep activities [].

Definition sortedDays (activities : list Activity) : list Day.t :=
  Dict.sortBy (fun d => dateOfKey (Day.date d)) (Dict.values (dailyGroups activities)).

(** [groupActivitiesByDay] *)
Definition groupActivitiesByDay (activities : list Activity) : list Day.t :=
  markTransitions None (sortedDays activities).

Section WithZone.
Variable utcOffset : Z.

(** the loop [while (currentDate <= lastDate)] *)
Fixpoint cumulate (lookup : gmap Z Z) (fuel : nat) (currentDate lastDate : Z)
         (cumulative : Z) : list (Z * Z) :=
  match fuel with
  | O => []
  | S fuel' =>
      if currentDate <=? lastDate then
        let dateKey := isoDate currentDate in
        let dayValue := orElse (lookup !! dateKey) 0 in
        let cumulative := cumulative + dayValue in
        (dateKey, cumulative)
          :: cumulate lookup fuel' (setDatePlus utcOffset currentDate 1) lastDate cumulative
      else []
  end.

Definition cumulativeSeries (f : Day.t -> Z) (dailyData : list Day.t) : option TimeSeries :=
  match head dailyData, last dailyData with
  | Some first, Some final =>
      let firstDate := dateOfKey (Day.date first) in
      let lastDate := dateOfKey (Day.date final) in
      let lookup := lookupOf f dailyData in
      let transitionLookup := transitionLookupOf dailyData in
      let data := cumulate lookup (rounds firstDate lastDate) firstDate lastDate 0 in
      Some {| labels := map (fun d => Key (fst d)) data;
              values := map snd data;
              transitions := Some transitionLookup |}
  | _, _ => None
  end.

(** [getCumulativeXPData] *)
Definition getCumulativeXPData (stats : StatsView) : TimeSeries :=
  match calculatorData stats with
  | None => placeholder ["Day 1"; "Day 2"; "Day 3"; "Day 4"; "Day 5"] [12; 28; 41; 67; 85]
  | Some data =>
      let activities := sortByTimestamp data in
      if Nat.eqb (length activities) 0
      then placeholder ["Day 1"; "Day 2"; "Day 3"] [5; 12; 20]
      else
        let dailyData := groupActivitiesByDay activities in
        orThrow (cumulativeSeries Day.xp dailyData)
  end.

(** [getCumulativeActivitiesData] *)
Definition getCumulativeActivitiesData (stats : StatsView) : TimeSeries :=
  match calculatorData stats with
  | None => placeholder ["Day 1"; "Day 2"; "Day 3"; "Day 4"] [2; 5; 7; 12]
  | Some data =>
      let activities := sortByTimestamp data in
      if Nat.eqb (length activities) 0
      then placeholder ["Day 1"; "Day 2"] [1; 2]
      else
        let dailyData := groupActivitiesByDay activities in
        orThrow (cumulativeSeries (fun d => Z.of_nat (Day.count d)) dailyData)
  end.

End WithZone.
End LegacyChartHelpers.

(* ===================================================================== *)
(** ** ui-controller.js: what the dashboard shows *)
(* ===================================================================== *)

(** The values that [UIController] hands to the page, without the page:
    the elements of the document are taken to exist and [ChartHelpers] to
    be loaded. *)
Module UIController.
Import JS DateModel StatisticsCalculator ChartHelpers.
Local Open Scope string_scope.
Local Open Scope Z_scope.

(** [activity => activity.course] as a test *)
Definition hasCourse (activity : Activity) : bool :=
  match course activity with
  | Some c => truthyS c
  | None => false
  end.

(** the text that [renderCurrentCourse] puts on the card: the course
    of the latest record that has one; [None] when it returns before
    touching the card *)
Definition currentCourse (stats : StatsView) : option string :=
  match calculatorData stats with
  | None => None
  | Some activities =>
      let sortedActivities :=
        Dict.sortBy (fun a => - timestamp a) (List.filter hasCourse activities) in
      match sortedActivities with
      | [] => None
      | latest :: _ => course latest
      end
  end.

Section WithClock.
Variable now : Z.
Variable utcOffset : Z.

(** [switchPeriod] and [updateStats]: the snapshot of the filtered
    log, with the filtered calculator attached *)
Definition switchPeriod (period : string) (originalData : list Activity) : Stats * StatsView :=
  let filteredData := filterByPeriod now utcOffset period originalData in
  (calculateStats now utcOffset (Some filteredData),
   {| calculator := Some {| data := Some filteredData |} |}).

(** the series that [renderXPChart] draws; none in the view of today,
    where [renderInlineCharts] hides the charts *)
Definition xpChartData (currentPeriod : string) (stats : StatsView) : option TimeSeries :=
  if String.eqb currentPeriod "today" then None
  else if String.eqb currentPeriod "week"
  then Some (getWeeklyCumulativeXPData now utcOffset stats)
  else Some (getCumulativeXPData utcOffset stats).

End WithClock.
End UIController.

(* ===================================================================== *)
(** ** The properties: what they are stated with *)
(* ===================================================================== *)

Import JS RegExp DateModel PDFDataParser StatisticsCalculator ChartHelpers.
Local Open Scope string_scope.
Local Open Scope list_scope.
Local Open Scope Z_scope.

(** *** Sample inputs *)

Definition newline : string := String (ascii_of_nat 10) "".

(** Scenario A of the design document *)
Definition scenarioHeader : string := "Mon, Jan 5th, 2026".
Definition scenarioLine : string :=
  "Mathematical Foundations I Lesson Intro to Limits 8 / 10 XP".

(** a section with a placement line whose XP number is 0 *)
Definition zeroPlacement : string := " Mathematical Foundations II Placement 0 / XP".

(** a record as a caller of the statistics may build it: no [taskName] *)
Definition record (ty ti : string) (e : Z) (b : option Z) : Activity :=
  {| date := ""; timestamp := 0; type := ty; course := None; title := ti;
     taskName := None; earned := e; maxXP := b; base := b;
     percentage := 0; isSuccess := false; rawText := "" |}.

(** Scenario E: a quiz that the log labels as an assessment *)
Definition assessmentQuiz : Activity := record "Assessment" "Chapter 3 Quiz" 8 (Some 10).

(** a log whose one line is a lesson with "Quiz" in its description *)
Definition quizNamedLesson : string :=
  "Mon, Jan 5th, 2026 Mathematical Foundations I Lesson Quiz Warm-up 8 / 10 XP".

(** two lessons, the first with nothing earned and nothing possible, as
    the parser records the line [0 / 0 XP] *)
Definition zeroBaseLog : list Activity :=
  [record "lesson" "Warm-up" 0 (Some 0); record "lesson" "Limits" 10 (Some 10)].

(** a lesson whose record has no [base] *)
Definition unsetBaseLog : list Activity := [record "lesson" "Limits" 8 None].

(** a log of one day with two lessons, the first with nothing earned
    and nothing offered *)
Definition zeroOfZeroText : string :=
  "Mon, Jan 5th, 2026 Mathematical Foundations I Lesson Warm-up 0 / 0 XP "
  +:+ "Mathematical Foundations I Lesson Limits 10 / 10 XP".

(** a section with a lesson of 23 of 40 XP *)
Definition lessonOf23 : string :=
  " Mathematical Foundations I Lesson Limits 23 / 40 XP".

(** the chart functions' argument for a log *)
Definition view (acts : list Activity) : StatsView :=
  {| calculator := Some {| data := Some acts |} |}.

(** one lesson on the morning of 5 January 2026, in a zone seven hours
    behind UTC *)
Definition mountainTime : Z := -7 * msPerHour.

Definition morningLesson : Activity :=
  {| date := "Mon, Jan 5th, 2026";
     timestamp := localMidnight mountainTime (daysFromCivil 2026 1 5) + 10 * msPerHour;
     type := "lesson"; course := Some "Mathematical Foundations I";
     title := "Intro to Limits"; taskName := None;
     earned := 8; maxXP := Some 10; base := Some 10;
     percentage := 80; isSuccess := true; rawText := "" |}.

(** a lesson of one course on 5 January 2026 and two records of another
    course three days later, in UTC *)
Definition twoCourseLog : list Activity :=
  [ {| date := "Thu, Jan 8th, 2026";
       timestamp := localMidnight 0 (daysFromCivil 2026 1 8) + 9 * msPerHour;
       type := "review"; course := Some "Mathematical Foundations II";
       title := "Limits"; taskName := None;
       earned := 5; maxXP := Some 5; base := Some 5;
       percentage := 100; isSuccess := true; rawText := "" |};
    {| date := "Mon, Jan 5th, 2026";
       timestamp := localMidnight 0 (daysFromCivil 2026 1 5) + 10 * msPerHour;
       type := "lesson"; course := Some "Mathematical Foundations I";
       title := "Intro to Limits"; taskName := None;
       earned := 8; maxXP := Some 10; base := Some 10;
       percentage := 80; isSuccess := true; rawText := "" |};
    {| date := "Thu, Jan 8th, 2026";
       timestamp := localMidnight 0 (daysFromCivil 2026 1 8) + 11 * msPerHour;
       type := "diagnostic"; course := Some "Mathematical Foundations II";
       title := "Placement Activity"; taskName := None;
       earned := 63; maxXP := Some 63; base := Some 63;
       percentage := 100; isSuccess := true; rawText := "" |} ].

(** *** The taxonomy *)

Definition taxonomy : list string :=
  ["diagnostic"; "lesson"; "review"; "quiz"; "multistep"].

(** the tokens that [normalizeActivityType] knows *)
Definition knownTokens : list string :=
  ["lesson"; "lessons"; "review"; "reviews"; "quiz"; "quizzes";
   "diagnostic"; "diagnostics"; "placement"; "supplemental";
   "multistep"; "multisteps"; "practice"].

(** *** The three success classes *)

Definition isPerfect (a : Activity) : bool :=
  negb (isDiagnostic a) && gtU (earned a) (base a).

Definition isPass (a : Activity) : bool :=
  (negb (isDiagnostic a) && (0 <? earned a) && leU (earned a) (base a))
  || (isDiagnostic a && (0 <? earned a)).

Definition isFail (a : Activity) : bool := negb (isPerfect a) && negb (isPass a).

Definition countIf (p : Activity -> bool) (l : list Activity) : nat :=
  length (List.filter p l).

Definition tally (b : bool) : nat := if b then 1%nat else 0%nat.

(** *** Totals *)

Fixpoint sumZ (l : list Z) : Z :=
  match l with [] => 0 | x :: l' => x + sumZ l' end.

Definition plusN (x y : num) : num :=
  match x, y with Fin a, Fin b => Fin (a + b) | _, _ => NaN end.

(** a sum in which a missing summand gives [NaN] *)
Fixpoint sumN (l : list (option Z)) : num :=
  match l with
  | [] => Fin 0
  | x :: l' => match x, sumN l' with
               | Some a, Fin b => Fin (a + b)
               | _, _ => NaN
               end
  end.

(** what a record adds to the possible XP of the snapshot *)
Definition possibleOf (a : Activity) : option Z :=
  if isDiagnostic a then Some (earned a) else base a.

(** what it adds to the possible XP of its day in the daily aggregate *)
Definition possibleOfAggregator (a : Activity) : Z := snd (attainment a).

(** the success rate under the rule of the daily aggregate *)
Definition claimedSuccessRate (data : list Activity) : Q :=
  round1 (attainmentRate (sumZ (map earned data))
                         (Fin (sumZ (map possibleOfAggregator data)))).

(** *** What a pattern can do *)

(** zero or more steps of a relation *)
Inductive iter (R : mstate -> mstate -> Prop) : mstate -> mstate -> Prop :=
| iter_stop s : iter R s s
| iter_step s s1 s2 : R s s1 -> iter R s1 s2 -> iter R s s2.

(** [run r s s']: pattern [r] can take the matcher from state [s] to [s'] *)
Fixpoint run (r : re) (s s' : mstate) : Prop :=
  match r with
  | Eps => s' = s
  | Bol => pos s = 0%nat /\ s' = s
  | Chr p => exists c t, rest s = String c t /\ p c = true /\ s' = advance s t
  | Seq a b => exists m, run a s m /\ run b m s'
  | Alt a b => run a s s' \/ run b s s'
  | Star _ a => iter (run a) s s'
  | Grp i a => exists m, run a s m /\ s' = capture i s m
  end.

(** the capture groups of a pattern *)
Fixpoint groupsIn (r : re) : list nat :=
  match r with
  | Eps | Bol | Chr _ => []
  | Seq a b | Alt a b => groupsIn a ++ groupsIn b
  | Star _ a => groupsIn a
  | Grp i a => i :: groupsIn a
  end.

(** the patterns that match characters of one class only *)
Fixpoint classOnly (p : ascii -> bool) (r : re) : Prop :=
  match r with
  | Eps => True
  | Bol => False
  | Chr q => forall c, q c = true -> p c = true
  | Seq a b | Alt a b => classOnly p a /\ classOnly p b
  | Star _ a => classOnly p a
  | Grp _ _ => False
  end.

(** whether a pattern may match the empty text *)
Fixpoint nullable (r : re) : bool :=
  match r with
  | Eps | Bol => true
  | Chr _ => false
  | Seq a b => nullable a && nullable b
  | Alt a b => nullable a || nullable b
  | Star _ _ => true
  | Grp _ a => nullable a
  end.

Fixpoint allS (p : ascii -> bool) (s : string) : bool :=
  match s with
  | EmptyString => true
  | String c t => p c && allS p t
  end.

(** *** Days and series *)

Definition keyLe {A : Type} (key : A -> Z) (a b : A) : Prop := key a <= key b.

(** the local days on which the log has a record *)
Definition activeDays (tz : Z) (acts : list Activity) : list Z :=
  map (fun a => localDay tz (timestamp a)) acts.

Definition firstActiveDay (tz : Z) (acts : list Activity) : Z :=
  fold_right Z.min (hd 0 (activeDays tz acts)) (activeDays tz acts).

Definition lastActiveDay (tz : Z) (acts : list Activity) : Z :=
  fold_right Z.max (hd 0 (activeDays tz acts)) (activeDays tz acts).

(** each value is at least [lo] and at least the value before it *)
Fixpoint ascending (lo : Z) (l : list Z) : Prop :=
  match l with
  | [] => True
  | x :: l' => lo <= x /\ ascending x l'
  end.

Definition nondecreasing (l : list Z) : Prop :=
  forall (i : nat) (v w : Z), l !! i = Some v -> l !! S i = Some w -> v <= w.

Definition firstCourse (d : Day.t) : option string := head (Day.courses d).

(** A course transition occurs on day [k] of the ascending list [days]: the
    first course [c] of that day differs from the first course [p] of the
    latest earlier day that has a course. *)
Definition TransitionAt (days : list Day.t) (k : Z) (p c : string) : Prop :=
  exists before prev between day after,
    days = before ++ prev :: between ++ day :: after
    /\ Forall (fun d => Day.courses d = []) between
    /\ firstCourse prev = Some p /\ firstCourse day = Some c
    /\ p <> c /\ Day.date day = k.

(** the nine series-building operations *)
Definition allSeries (now tz : Z) (stats : StatsView) : list TimeSeries :=
  [getCumulativeXPData tz stats; getCumulativeActivitiesData tz stats;
   getAvgXPOverTimeData tz stats; getSuccessRateOverTimeData tz stats;
   getDailyXPData now tz stats; getWeeklyCumulativeXPData now tz stats;
   getDailyActivitiesData now tz stats; getWeeklyCumulativeActivitiesData now tz stats;
   getDailyAttainmentData now tz stats].

(** labels and values of one length, and a transition entry only on a day
    of transition *)
Definition wellShaped (tz : Z) (stats : StatsView) (t : TimeSeries) : Prop :=
  length (labels t) = length (values t)
  /\ forall m k tr, transitions t = Some m -> m !! k = Some tr ->
       exists acts p c,
         calculatorData stats = Some acts
         /\ tr = {| Transition.from := Some p; Transition.to := Some c |}
         /\ TransitionAt (sortedDays tz (sortByTimestamp acts)) k p c.

(** *** Days, sums and samples *)

(** the records of local day [k], in the order of the log *)
Definition onDay (tz k : Z) (acts : list Activity) : list Activity :=
  List.filter (fun a => localDay tz (timestamp a) =? k) acts.

(** the XP earned on local day [k] *)
Definition dayTotal (tz : Z) (acts : list Activity) (k : Z) : Z :=
  sumZ (map earned (onDay tz k acts)).


(** the running totals of a list, from [acc] *)
Fixpoint prefixSums (acc : Z) (l : list Z) : list Z :=
  match l with
  | [] => []
  | x :: l' => (acc + x) :: prefixSums (acc + x) l'
  end.

(** the records of the local days [lo], ..., [lo + n - 1] *)
Definition inDays (tz lo n : Z) (acts : list Activity) : list Activity :=
  List.filter (fun a => (lo <=? localDay tz (timestamp a))
                        && (localDay tz (timestamp a) <? lo + n)) acts.

(** the records logged in hour [h] of a day, and on weekday [d] *)
Definition atHour (tz : Z) (h : nat) (acts : list Activity) : list Activity :=
  List.filter (fun a => Nat.eqb (Z.to_nat (getHours tz (timestamp a))) h) acts.

Definition onWeekday (tz : Z) (d : nat) (acts : list Activity) : list Activity :=
  List.filter (fun a => Nat.eqb (Z.to_nat (getDay tz (timestamp a))) d) acts.

(** the slot that holds the records [l] *)
Definition slotOf (l : list Activity) : Slot.t :=
  {| Slot.xp := sumZ (map earned l); Slot.count := length l |}.

(** the attainment, in percent, of local day [k]: 100 on a day on which
    nothing was possible *)
Definition dayAttainment (tz : Z) (acts : list Activity) (k : Z) : Z :=
  let possible := sumZ (map possibleOfAggregator (onDay tz k acts)) in
  if 0 <? possible then roundedPercent (dayTotal tz acts k) possible else 100.

(** noon of 8 January 2026, UTC *)
Definition noonOfJan8 : Z := localMidnight 0 (daysFromCivil 2026 1 8) + 12 * msPerHour.

(** *** Grouping by a key *)

(** one round of a loop that groups records by a key in a dictionary *)
Definition gstep {V : Type} (key : Activity -> Z) (init : Activity -> V)
    (f : Activity -> V -> V) (groups : list (Z * V)) (a : Activity) : list (Z * V) :=
  Dict.upsert (key a) (init a) (f a) groups.

(** the entry that [calculateDailyStats] creates for the first record of a
    day, and what a record adds to the entry of its day *)
Definition dayInit (a : Activity) : DayStat.t :=
  {| DayStat.date := timestamp a; DayStat.xp := 0; DayStat.earned := 0;
     DayStat.base := Fin 0; DayStat.count := 0; DayStat.activities := [] |}.

Definition dayAdd (activity : Activity) (d : DayStat.t) : DayStat.t :=
  {| DayStat.date := DayStat.date d;
     DayStat.xp := DayStat.xp d + earned activity;
     DayStat.earned := DayStat.earned d + earned activity;
     DayStat.base := addN (DayStat.base d) (base activity);
     DayStat.count := S (DayStat.count d);
     DayStat.activities := DayStat.activities d ++ [activity] |}.


(** *** Tables of slots *)

(** one round of the loops that fill the tables of the hours and of the
    weekdays: the record goes to the slot [idx] with the weight [w] *)
Definition slotStep (idx : Activity -> nat) (w : Activity -> Z)
    (hs : list Slot.t) (a : Activity) : list Slot.t :=
  alter (bump (w a)) (idx a) hs.

Definition hourStep (tz : Z) : list Slot.t -> Activity -> list Slot.t :=
  slotStep (fun a => Z.to_nat (getHours tz (timestamp a))) earned.

Definition weekdayStep (tz : Z) : list Slot.t -> Activity -> list Slot.t :=
  slotStep (fun a => Z.to_nat (getDay tz (timestamp a)))
           (fun a => orElse (Some (earned a)) 0).

(** *** Counts *)

Definition countsTotal (c : ActivityCounts) : nat :=
  (diagnostics c + lessons c + reviews c + multisteps c + quizzes c)%nat.

Definition addCounts (c d : ActivityCounts) : ActivityCounts :=
  {| diagnostics := diagnostics c + diagnostics d;
     lessons := lessons c + lessons d;
     reviews := reviews c + reviews d;
     multisteps := multisteps c + multisteps d;
     quizzes := quizzes c + quizzes d |}.

(** the types that [calculateActivityCounts] knows, in lower case *)
Definition countedTypes : list string :=
  ["diagnostic"; "assessment"; "supplemental diagnostic"; "lesson"; "review";
   "multistep"; "quiz"].

(** whether [calculateActivityCounts] counts a record in one of its categories *)
Definition counted (a : Activity) : bool :=
  isQuiz a || existsb (String.eqb (toLowerCase (type a))) countedTypes.

(* ===================================================================== *)
(** ** Numbers and text *)
(* ===================================================================== *)

Lemma Math_round_frac (n : Z) (d : positive) :
  Math_round (Qmake n d) = (2 * n + Zpos d) / (2 * Zpos d).
Proof.
  unfold Math_round.
  assert (E : (Qmake n d + (1 # 2) == Qmake (2 * n + Zpos d) (2 * d))%Q).
  { unfold Qeq, Qplus. cbn [Qnum Qden]. lia. }
  rewrite (Qfloor_comp _ _ E). reflexivity.
Qed.

Lemma Math_round_int (n : Z) : Math_round (Qmake n 1) = n.
Proof.
  rewrite Math_round_frac. symmetry. apply (Z.div_unique _ _ _ 1); lia.
Qed.

(** *** Doubles *)

Lemma digits2_iter p k : digits2_pos (Pos.iter xO p k) = (digits2_pos p + k)%positive.
Proof.
  induction k as [|k IH] using Pos.peano_ind.
  - cbn. lia.
  - rewrite Pos.iter_succ. cbn [digits2_pos]. rewrite IH. lia.
Qed.

Lemma digits2_lower p : 2 ^ (Zpos (digits2_pos p) - 1) <= Zpos p.
Proof.
  induction p as [p IH|p IH|]; cbn [digits2_pos]; [| |done].
  all: rewrite Pos2Z.inj_succ;
       replace (Z.succ (Zpos (digits2_pos p)) - 1)
         with (Z.succ (Zpos (digits2_pos p) - 1)) by lia;
       rewrite Z.pow_succ_r by lia; lia.
Qed.

Lemma digits2_small p : Zpos p < 2 ^ 53 -> Zpos (digits2_pos p) <= 53.
Proof.
  intros H. destruct (Z.le_gt_cases (Zpos (digits2_pos p)) 53) as [|Hd]; [done|].
  pose proof (digits2_lower p) as Hl.
  assert (2 ^ 53 <= 2 ^ (Zpos (digits2_pos p) - 1)) by (apply Z.pow_le_mono_r; lia).
  lia.
Qed.

(** a positive integer below 2^53 is held by a positive finite double *)
Lemma ofInt_finite e :
  0 < e < 2 ^ 53 -> exists m ex, ofInt e = S754_finite false m ex.
Proof.
  intros [H0 H]. destruct e as [|p|p]; try lia.
  pose proof (digits2_small p H) as Hd.
  unfold ofInt, binary_normalize, binary_round, shl_align.
  set (d := digits2_pos p) in *.
  assert (Hf : fexp 53 1024 (Zpos d + 0) = Zpos d - 53).
  { unfold fexp, emin. lia. }
  rewrite Hf.
  destruct (Zpos d - 53 - 0) as [|k|k] eqn:Hk; try lia.
  - unfold binary_round_aux, shr_fexp. cbn [Zdigits2 shr_record_of_loc]. fold d.
    assert (Hs : fexp 53 1024 (Zpos d + 0) - 0 = 0) by (rewrite Hf; lia).
    rewrite Hs. cbn [shr shr_m loc_of_shr_record round_nearest_even Zdigits2]. fold d.
    rewrite Hs. cbn [shr shr_m]. cbn. eauto.
  - unfold binary_round_aux, shr_fexp. cbn [Zdigits2 shr_record_of_loc].
    rewrite digits2_iter. fold d.
    assert (Hs : fexp 53 1024 (Zpos (d + k) + (Zpos d - 53)) - (Zpos d - 53) = 0).
    { unfold fexp, emin. lia. }
    rewrite Hs. cbn [shr shr_m loc_of_shr_record round_nearest_even Zdigits2].
    rewrite digits2_iter. fold d. rewrite Hs. cbn [shr shr_m].
    assert (Hle : (Zpos d - 53 <=? 1024 - 53) = true) by (apply Z.leb_le; lia).
    rewrite Hle. eauto.
Qed.

(** a finite double divided by itself is 1 *)
Lemma divD_self s m e :
  divD (S754_finite s m e) (S754_finite s m e) = S754_finite false 4503599627370496 (-52).
Proof.
  unfold divD, SFdiv, SFdiv_core_binary. cbn [Zdigits2].
  replace (Zpos (digits2_pos m) + e - (Zpos (digits2_pos m) + e)) with 0 by lia.
  replace (e - e) with 0 by lia.
  change (Z.min (fexp 53 1024 0) 0) with (-53).
  change (0 - -53) with 53.
  assert (Hd : Z.div_eucl (Z.shiftl (Zpos m) 53) (Zpos m) = (2 ^ 53, 0)).
  { rewrite Z.shiftl_mul_pow2 by lia.
    pose proof (Z.div_eucl_eq (Zpos m * 2 ^ 53) (Zpos m) ltac:(lia)) as E.
    pose proof (Z.mod_pos_bound (Zpos m * 2 ^ 53) (Zpos m) ltac:(lia)) as B.
    unfold Z.modulo in B.
    destruct (Z.div_eucl (Zpos m * 2 ^ 53) (Zpos m)) as [q r].
    assert (q = 2 ^ 53) by nia. assert (r = 0) by nia. by subst. }
  cbv zeta. cbv iota. rewrite Hd.
  assert (Hl : new_location (Zpos m) 0 = loc_Exact).
  { unfold new_location. by destruct (Z.even _). }
  rewrite Hl. destruct s; reflexivity.
Qed.

(** all of a positive amount is 100 percent of it *)
Lemma roundedPercent_self e : 0 < e < 2 ^ 53 -> roundedPercent e e = 100.
Proof.
  intros H. destruct (ofInt_finite e H) as (m & ex & E).
  unfold roundedPercent. rewrite E, divD_self. reflexivity.
Qed.

Lemma orElse_self e : orElse (Some e) 0 = e.
Proof. unfold orElse. destruct (e =? 0) eqn:E; [apply Z.eqb_eq in E; lia|done]. Qed.

Lemma append_cons c (u v : string) : String c u +:+ v = String c (u +:+ v).
Proof. reflexivity. Qed.

Lemma takeS_app w t : takeS (String.length w) (w +:+ t) = w.
Proof.
  induction w as [|c w IH]; [done|].
  rewrite append_cons. cbn [String.length takeS]. by rewrite IH.
Qed.

Lemma allS_app p u v : allS p (u +:+ v) = allS p u && allS p v.
Proof.
  induction u as [|c u IH]; [done|].
  rewrite append_cons. cbn [allS]. rewrite IH. by destruct (p c).
Qed.

Lemma string_app_assoc (u v w : string) : (u +:+ v) +:+ w = u +:+ (v +:+ w).
Proof. induction u as [|c u IH]; [done|]. rewrite !append_cons. by rewrite IH. Qed.

Lemma string_app_length (u v : string) :
  String.length (u +:+ v) = (String.length u + String.length v)%nat.
Proof.
  induction u as [|c u IH]; [done|].
  rewrite append_cons. cbn [String.length]. by rewrite IH.
Qed.

(** *** [parseInt] on a run of digits *)

Lemma digitsPrefix_digits s : forall acc seen,
  allS isDigit s = true -> 0 <= acc ->
  (seen = true \/ s <> "") ->
  exists v, digitsPrefix acc seen s = Some v /\ acc <= v.
Proof.
  induction s as [|c s IH]; intros acc seen Hd Hacc Hs; cbn in *.
  - destruct Hs as [->|]; [|done]. exists acc. split; [done|lia].
  - apply andb_prop in Hd as [Hc Hd]. rewrite Hc.
    assert (0 <= digitVal c).
    { unfold digitVal, isDigit, between in *. apply andb_prop in Hc as [H1 _].
      apply Nat.leb_le in H1. lia. }
    destruct (IH (10 * acc + digitVal c) true Hd) as (v & Hv & Hle); [lia|by left|].
    exists v. split; [done|lia].
Qed.

Lemma digit_not_other c :
  isDigit c = true ->
  isSpace c = false /\ c <> "-"%char /\ c <> "+"%char /\ c <> "x"%char /\ c <> "X"%char.
Proof.
  destruct c as [[] [] [] [] [] [] [] []]; cbn; intros H; try discriminate H;
    repeat split; discriminate.
Qed.

(** a non-empty run of digits reads as a number that is not negative *)
Lemma parseInt_digits s :
  allS isDigit s = true -> s <> "" -> exists v, parseInt s = Some v /\ 0 <= v.
Proof.
  intros Hd Hs. destruct s as [|c s]; [done|].
  pose proof Hd as Hd'. cbn in Hd'. apply andb_prop in Hd' as [Hc Hd'].
  destruct (digit_not_other c Hc) as (Hsp & Hm & Hpl & _).
  assert (E : parseInt (String c s) = unsignedInt (String c s)).
  { unfold parseInt. cbn [trimStart]. rewrite Hsp.
    destruct c as [[] [] [] [] [] [] [] []]; try reflexivity; congruence. }
  assert (E' : unsignedInt (String c s) = digitsPrefix 0 false (String c s)).
  { unfold unsignedInt. destruct s as [|x t]; [by destruct c as [[] [] [] [] [] [] [] []]|].
    cbn in Hd'. apply andb_prop in Hd' as [Hx _].
    destruct (digit_not_other x Hx) as (_ & _ & _ & Hx1 & Hx2).
    apply Ascii.eqb_neq in Hx1, Hx2. rewrite Hx1, Hx2.
    by destruct c as [[] [] [] [] [] [] [] []]. }
  rewrite E, E'. apply digitsPrefix_digits; [done|lia|by right].
Qed.

(* ===================================================================== *)
(** ** The matcher *)
(* ===================================================================== *)

(** Whatever the matcher answers, the pattern can do. *)
Lemma mtch_sound r : forall k s res,
  mtch r k s = Some res -> exists s', run r s s' /\ k s' = Some res.
Proof.
  induction r as [| |p|a IHa b IHb|a IHa b IHb|g a IHa|i a IHa]; intros k s res H; cbn [mtch] in H.
  - by exists s.
  - destruct (Nat.eqb (pos s) 0) eqn:E; [|done]. apply Nat.eqb_eq in E. by exists s.
  - destruct (rest s) as [|c t] eqn:E; [done|]. destruct (p c) eqn:Hp; [|done].
    exists (advance s t). split; [|done]. cbn. by exists c, t.
  - apply IHa in H as (m & Ha & H). apply IHb in H as (s' & Hb & H).
    exists s'. split; [|done]. cbn. by exists m.
  - destruct (mtch a k s) eqn:E.
    + inversion H; subst. apply IHa in E as (s' & Ha & E). exists s'. cbn. tauto.
    + apply IHb in H as (s' & Hb & H). exists s'. cbn. tauto.
  - cbn [run]. revert H. generalize (S (String.length (rest s))). intros n. revert s res.
    induction n as [|n IHn]; intros s res H.
    + exists s. split; [apply iter_stop|exact H].
    + cbn [starLoop] in H.
      assert (Hmore : forall x,
        mtch a (fun s' => if Nat.ltb (pos s) (pos s') then starLoop (mtch a) g k n s' else None) s
        = Some x -> exists s', iter (run a) s s' /\ k s' = Some x).
      { intros x E. apply IHa in E as (s1 & Ha & E).
        destruct (Nat.ltb (pos s) (pos s1)); [|done].
        apply IHn in E as (s' & Hit & E). exists s'. split; [|done].
        by apply iter_step with s1. }
      destruct g.
      * destruct (mtch a _ s) eqn:E.
        -- inversion H; subst. by apply Hmore.
        -- exists s. split; [apply iter_stop|done].
      * destruct (k s) eqn:E.
        -- inversion H; subst. exists s. split; [apply iter_stop|done].
        -- by apply Hmore.
  - apply IHa in H as (m & Ha & H). exists (capture i s m). split; [|done]. cbn. by exists m.
Qed.

(** A pattern leaves the groups that it does not hold as they are. *)
Lemma run_frame r : forall s s' i,
  run r s s' -> ~ In i (groupsIn r) -> group i (caps s') = group i (caps s).
Proof.
  induction r as [| |p|a IHa b IHb|a IHa b IHb|g a IHa|j a IHa]; intros s s' i H Hi; cbn [run groupsIn] in *.
  - by subst.
  - by destruct H as [_ ->].
  - by destruct H as (c & t & _ & _ & ->).
  - destruct H as (m & Ha & Hb). rewrite in_app_iff in Hi.
    rewrite (IHb m s' i), (IHa s m i); tauto.
  - rewrite in_app_iff in Hi. destruct H; [apply IHa|apply IHb]; tauto.
  - induction H as [|s s1 s2 H1 _ IH]; [done|]. rewrite IH. by apply IHa.
  - destruct H as (m & Ha & ->). cbn [capture caps group].
    destruct (Nat.eqb i j) eqn:E; [apply Nat.eqb_eq in E; subst; exfalso; apply Hi; by left|].
    apply IHa; [done|]. intros Hin. apply Hi. by right.
Qed.

(** What a pattern consumes is a prefix of the rest of the subject. *)
Lemma run_consumes r : forall s s',
  run r s s' ->
  exists w, rest s = w +:+ rest s' /\ pos s' = (pos s + String.length w)%nat.
Proof.
  induction r as [| |q|a IHa b IHb|a IHa b IHb|g a IHa|j a IHa]; intros s s' H; cbn [run] in *.
  - subst. by exists "".
  - destruct H as [_ ->]. by exists "".
  - destruct H as (c & t & Hr & Hq & ->). exists (String c ""). cbn. rewrite Hr. split; [done|lia].
  - destruct H as (m & Ha & Hb).
    destruct (IHa _ _ Ha) as (u & Hru & Hpu). destruct (IHb _ _ Hb) as (v & Hrv & Hpv).
    exists (u +:+ v). rewrite string_app_assoc, <- Hrv, string_app_length. split; [done|lia].
  - destruct H; eauto.
  - induction H as [s|s s1 s2 H1 _ IH].
    + exists "". split; [done|cbn; lia].
    + destruct (IHa _ _ H1) as (u & Hru & Hpu). destruct IH as (v & Hrv & Hpv).
      exists (u +:+ v). rewrite string_app_assoc, <- Hrv, string_app_length. split; [done|lia].
  - destruct H as (m & Ha & ->). apply IHa in Ha as (w & Hr & Hp). by exists w.
Qed.

(** A pattern over one class consumes characters of that class. *)
Lemma run_class p r : classOnly p r -> forall s s',
  run r s s' ->
  exists w, allS p w = true /\ rest s = w +:+ rest s'
            /\ pos s' = (pos s + String.length w)%nat.
Proof.
  induction r as [| |q|a IHa b IHb|a IHa b IHb|g a IHa|j a IHa]; intros Hc s s' H; cbn [run classOnly] in *.
  - subst. by exists "".
  - done.
  - destruct H as (c & t & Hr & Hq & ->). exists (String c ""). cbn.
    rewrite (Hc c Hq), Hr. repeat split; lia.
  - destruct Hc as [Hca Hcb]. destruct H as (m & Ha & Hb).
    destruct (IHa Hca _ _ Ha) as (u & Hu & Hru & Hpu).
    destruct (IHb Hcb _ _ Hb) as (v & Hv & Hrv & Hpv).
    exists (u +:+ v). rewrite allS_app, Hu, Hv, string_app_assoc, <- Hrv, string_app_length.
    repeat split; [done|lia].
  - destruct Hc as [Hca Hcb]. destruct H; eauto.
  - induction H as [s|s s1 s2 H1 _ IH].
    + exists "". cbn. repeat split; lia.
    + destruct (IHa Hc _ _ H1) as (u & Hu & Hru & Hpu).
      destruct IH as (v & Hv & Hrv & Hpv).
      exists (u +:+ v). rewrite allS_app, Hu, Hv, string_app_assoc, <- Hrv, string_app_length.
      repeat split; [done|lia].
  - done.
Qed.

(** A pattern that cannot match the empty text moves the matcher on. *)
Lemma run_progress r : forall s s',
  nullable r = false -> run r s s' -> (pos s < pos s')%nat.
Proof.
  induction r as [| |q|a IHa b IHb|a IHa b IHb|g a IHa|j a IHa]; intros s s' Hn H;
    cbn [run nullable] in *; try done.
  - destruct H as (c & t & _ & _ & ->). cbn. lia.
  - destruct H as (m & Ha & Hb).
    destruct (run_consumes _ _ _ Ha) as (u & _ & Hu).
    destruct (run_consumes _ _ _ Hb) as (v & _ & Hv).
    apply andb_false_iff in Hn as [Hn|Hn]; [apply IHa in Ha|apply IHb in Hb]; try done; lia.
  - apply orb_false_iff in Hn as [Hna Hnb]. destruct H; eauto.
  - destruct H as (m & Ha & ->). cbn. by apply IHa.
Qed.

(** The text of a group over one class that is followed by a pattern
    without that group. *)
Lemma run_group_then p i a b s e :
  classOnly p a -> ~ In i (groupsIn b) ->
  run (Seq (Grp i a) b) s e ->
  exists m, run a s m /\ allS p (group i (caps e)) = true
            /\ pos m = (pos s + String.length (group i (caps e)))%nat.
Proof.
  intros Hc Hi (m' & (m & Ha & ->) & Hb). exists m. split; [done|].
  rewrite (run_frame b _ _ i Hb Hi). cbn [capture caps group]. rewrite Nat.eqb_refl.
  destruct (run_class p a Hc _ _ Ha) as (w & Hw & Hr & Hp).
  rewrite Hr, Hp. replace (pos s + String.length w - pos s)%nat with (String.length w) by lia.
  by rewrite takeS_app.
Qed.

(** *** Searching, and the loop over all matches *)

Lemma search_sound r : forall s p m,
  search r p s = Some m ->
  exists s0 e, run r (start (index m) s0) e
               /\ groups m = caps e /\ lastIndex m = pos e /\ after m = rest e
               /\ (String.length s0 <= String.length s)%nat.
Proof.
  induction s as [|c s IH]; intros p m H; cbn [search] in H.
  - destruct (mtch r Some (start p "")) as [e|] eqn:E; [|done].
    inversion H; subst. apply mtch_sound in E as (e' & Hr & [= ->]). by exists "", e.
  - destruct (mtch r Some (start p (String c s))) as [e|] eqn:E.
    + inversion H; subst. apply mtch_sound in E as (e' & Hr & [= ->]).
      by exists (String c s), e.
    + apply IH in H as (s0 & e & Hr & H1 & H2 & H3 & H4).
      exists s0, e. repeat split; try done. cbn. lia.
Qed.

(** after a match that is not empty, less of the subject is left *)
Lemma search_shrinks r s p m :
  search r p s = Some m -> (index m < lastIndex m)%nat ->
  (String.length (after m) < String.length s)%nat.
Proof.
  intros H Hlt. apply search_sound in H as (s0 & e & Hr & _ & Hl & Ha & Hlen).
  apply run_consumes in Hr as (w & Hw & Hp). cbn [start rest pos] in Hw, Hp.
  rewrite Ha. apply (f_equal String.length) in Hw. rewrite string_app_length in Hw. lia.
Qed.

(** the loop needs no more fuel than the subject has characters *)
Lemma execLoop_fuel r : forall n m p s,
  (String.length s < n)%nat -> (String.length s < m)%nat ->
  execLoop r n p s = execLoop r m p s.
Proof.
  induction n as [|n IH]; intros m p s Hn Hm; [lia|].
  destruct m as [|m]; [lia|]. cbn [execLoop].
  destruct (search r p s) as [x|] eqn:E; [|done]. f_equal.
  destruct (Nat.ltb (index x) (lastIndex x)) eqn:Hlt; [|done].
  apply Nat.ltb_lt in Hlt. pose proof (search_shrinks _ _ _ _ E Hlt). apply IH; lia.
Qed.

(** a match of a pattern that cannot match the empty text is not empty,
    so the loop over its matches never stops short *)
Lemma search_progress r s p m :
  nullable r = false -> search r p s = Some m -> (index m < lastIndex m)%nat.
Proof.
  intros Hn H. apply search_sound in H as (s0 & e & Hr & _ & -> & _).
  apply (run_progress _ _ _ Hn) in Hr. exact Hr.
Qed.

Lemma execLoop_Forall (P : MatchResult -> Prop) r :
  (forall p s m, search r p s = Some m -> P m) ->
  forall n p s, Forall P (execLoop r n p s).
Proof.
  intros HP n. induction n as [|n IH]; intros p s; cbn [execLoop]; [constructor|].
  destruct (search r p s) as [m|] eqn:E; [|constructor].
  constructor; [by eapply HP|]. destruct (Nat.ltb _ _); [apply IH|constructor].
Qed.

(* ===================================================================== *)
(** ** The parser *)
(* ===================================================================== *)

(** none of the three patterns of the parser matches the empty text *)
Lemma parser_patterns_consume :
  nullable datePattern = false /\ nullable diagnosticRegex = false
  /\ nullable activityRegex = false.
Proof. repeat split. Qed.

(** the third group of a match of the diagnostic pattern is a non-empty
    run of digits *)
Lemma diagnostic_xpValue p s m :
  search diagnosticRegex p s = Some m ->
  allS isDigit (group 3 (groups m)) = true /\ group 3 (groups m) <> "".
Proof.
  intros H. apply search_sound in H as (s0 & e & Hr & -> & _).
  change diagnosticRegex with
    (Seq (Grp 1 (Seq (lit "Mathematical Foundations ") (Plus true (Chr isWord))))
       (Seq (Plus true (Chr isSpace))
          (Seq (Grp 2 (oneOf ["Placement"; "Supplemental"]))
             (Seq (Plus true (Chr isSpace))
                (Seq (Grp 3 (Plus true (Chr isDigit)))
                   (cat [Star true (Chr isSpace); lit "/"; Star true (Chr isSpace); lit "XP"]))))))
    in Hr.
  destruct Hr as (m1 & _ & m2 & _ & m3 & _ & m4 & _ & Hr).
  apply (run_group_then isDigit) in Hr as (m5 & Hd & Hall & Hpos).
  - split; [done|]. intros E. rewrite E in Hpos. cbn in Hpos.
    apply (run_progress (Plus true (Chr isDigit))) in Hd; [lia|done].
  - cbn. repeat split; auto.
  - vm_compute. tauto.
Qed.

Lemma localDay_localMidnight tz k : localDay tz (localMidnight tz k) = k.
Proof.
  unfold localDay, localMidnight.
  replace (k * msPerDay - tz + tz) with (k * msPerDay) by lia.
  apply Z.div_mul. discriminate.
Qed.

(** C6. The text made of the header "Mon, Jan 5th, 2026", a blank or a
    line break, and the line "Mathematical Foundations I Lesson Intro to
    Limits 8 / 10 XP" parses to exactly one record: a lesson with 8 XP
    earned of 10, a percentage of 80 (the rounded quotient), marked a
    success (the percentage is at least 70), and dated, in local time, on
    2026-01-05; whatever the clock and the zone. *)
Theorem C6_scenario_A (now tz : Z) (sep : string) :
  sep = " " \/ sep = newline ->
  exists a,
    parseActivities now tz (scenarioHeader +:+ sep +:+ scenarioLine) = [a]
    /\ type a = "lesson" /\ earned a = 8 /\ base a = Some 10
    /\ percentage a = 80 /\ percentage a = Math_round (quot (earned a) 10 * 100)
    /\ isSuccess a = true /\ isSuccess a = (70 <=? percentage a)
    /\ toLocalDateString tz (timestamp a) = daysFromCivil 2026 1 5
    /\ dateKeyText (toLocalDateString tz (timestamp a)) = "2026-01-05".
Proof.
  intros [-> | ->].
  - eexists. split.
    + lazy -[localMidnight]. reflexivity.
    + cbn [type earned base percentage isSuccess timestamp].
      unfold toLocalDateString.
      rewrite localDay_localMidnight. repeat split; reflexivity.
  - eexists. split.
    + lazy -[localMidnight]. reflexivity.
    + cbn [type earned base percentage isSuccess timestamp].
      unfold toLocalDateString.
      rewrite localDay_localMidnight. repeat split; reflexivity.
Qed.

Lemma C6_scenario_A_witness :
  exists a,
    parseActivities 0 0 (scenarioHeader +:+ " " +:+ scenarioLine) = [a]
    /\ type a = "lesson" /\ earned a = 8 /\ base a = Some 10
    /\ percentage a = 80 /\ percentage a = Math_round (quot (earned a) 10 * 100)
    /\ isSuccess a = true /\ isSuccess a = (70 <=? percentage a)
    /\ toLocalDateString 0 (timestamp a) = daysFromCivil 2026 1 5
    /\ dateKeyText (toLocalDateString 0 (timestamp a)) = "2026-01-05".
Proof. exact (C6_scenario_A 0 0 " " (or_introl eq_refl)). Defined.

(** C7. The empty text parses to the empty sequence of records, and the
    snapshot of an empty sequence is the zero-valued one: success rate 0,
    every counter 0, no daily statistics, no series of the last days, and
    a zero in every slot of the weekday and hour tables. *)
Theorem C7_empty_log (now tz : Z) :
  parseActivities now tz "" = []
  /\ calculateStats now tz (Some []) = getEmptyStats
  /\ let s := calculateStats now tz (Some []) in
     successRate (successMetrics s) = 0%Q
     /\ (totalXP s = 0 /\ totalActivities s = 0%nat /\ avgXPPerDay s = 0)
     /\ activityCounts s = noCounts
     /\ (perfectCount (successMetrics s) = 0 /\ passCount (successMetrics s) = 0
         /\ failCount (successMetrics s) = 0)%nat
     /\ dailyStats s = [] /\ last14Days s = []
     /\ Forall (fun x => Slot.xp x = 0 /\ Slot.count x = 0%nat)
               (Weekday.weekdayStats (weekdayStats s))
     /\ Forall (fun x => Slot.xp x = 0 /\ Slot.count x = 0%nat)
               (hourlyStats (timeAnalysis s))
     /\ bestDayXP (bestPerformance s) = 0 /\ bestAccuracy (bestPerformance s) = 0%Q
     /\ maxHourlyXP (timeAnalysis s) = 0.
Proof.
  split; [reflexivity|]. split; [reflexivity|].
  cbn. repeat split; try reflexivity; repeat constructor.
Qed.

(** *** The closed taxonomy *)

Lemma normalizeActivityType_closed t : In (normalizeActivityType t) taxonomy.
Proof.
  unfold normalizeActivityType, taxonomy.
  destruct t as [t|]; [|simpl; tauto].
  repeat match goal with
         | |- context [if ?b then _ else _] => destruct b
         end; simpl; tauto.
Qed.

Lemma normalizeActivityType_default t :
  normalizeActivityType t = "lesson"
  \/ exists s, t = Some s /\ In (trim (toLowerCase s)) knownTokens.
Proof.
  unfold normalizeActivityType.
  destruct t as [s|]; [|by left].
  destruct (truthyS s); [|by left]. cbn [negb].
  set (n := trim (toLowerCase s)).
  assert (H : forall w, In w knownTokens -> String.eqb n w = true ->
            exists s0, Some s = Some s0 /\ In (trim (toLowerCase s0)) knownTokens).
  { intros w Hw He. apply String.eqb_eq in He. exists s. split; [done|]. fold n. by rewrite He. }
  repeat match goal with
         | |- context [String.eqb n ?w] =>
             let E := fresh in
             destruct (String.eqb n w) eqn:E;
             [right; apply (H w); [simpl; tauto | exact E]|]
         end.
  by left.
Qed.

Lemma Forall_filter_bool {A} (P : A -> Prop) f (l : list A) :
  Forall P l -> Forall P (List.filter f l).
Proof.
  induction 1 as [|x l Hx Hl IH]; simpl; [constructor|].
  destruct (f x); [constructor|]; done.
Qed.

Lemma parseActivitySection_types now tz d s :
  Forall (fun a => In (type a) taxonomy) (parseActivitySection now tz d s).
Proof.
  unfold parseActivitySection, gradedPass, diagnosticPass. apply Forall_app. split.
  - apply List.Forall_map, List.Forall_forall. intros m _. apply normalizeActivityType_closed.
  - apply List.Forall_map, List.Forall_forall. intros m _. simpl. tauto.
Qed.

Lemma sections_types now tz text ms :
  Forall (fun a => In (type a) taxonomy) (sections now tz text ms).
Proof.
  induction ms as [|m ms IH]; simpl; [constructor|].
  apply Forall_app. split; [|exact IH].
  destruct (Nat.ltb _ _); [apply parseActivitySection_types | constructor].
Qed.

(** C9. Every record that [parseActivities] emits has its type in the
    closed set diagnostic, lesson, review, quiz, multistep: the function
    that normalises a raw type token yields a member of that set for every
    token, and yields lesson for the absent token, for the empty one, and
    for every token that, in lower case and trimmed, is none of the ones
    it knows. *)
Theorem C9_closed_taxonomy :
  (forall now tz text, Forall (fun a => In (type a) taxonomy) (parseActivities now tz text))
  /\ (forall t, In (normalizeActivityType t) taxonomy)
  /\ (forall t, normalizeActivityType t = "lesson"
                \/ exists s, t = Some s /\ In (trim (toLowerCase s)) knownTokens)
  /\ normalizeActivityType None = "lesson" /\ normalizeActivityType (Some "") = "lesson".
Proof.
  split; [|split; [apply normalizeActivityType_closed
                  |split; [apply normalizeActivityType_default|done]]].
  intros. apply Forall_filter_bool, sections_types.
Qed.

(** C10. Every record of the diagnostic pass over a section has
    [base] equal to [earned], [earned] above 0, a percentage of 100 and is
    marked a success; a matched line whose XP number is 0 gets 63 for both,
    since the default replaces a parsed 0 as it replaces a text that does
    not parse. *)
Theorem C10_diagnostic_pass :
  (forall now tz dateStr sectionText,
     Forall (fun a => base a = Some (earned a) /\ 0 < earned a
                      /\ percentage a = 100 /\ isSuccess a = true
                      /\ type a = "diagnostic")
            (diagnosticPass now tz dateStr sectionText))
  /\ (forall now tz,
        map (fun a => (earned a, base a))
            (diagnosticPass now tz scenarioHeader zeroPlacement) = [(63, Some 63)])
  /\ parseInt "0" = Some 0 /\ orElse (Some 0) 63 = 63 /\ orElse None 63 = 63.
Proof.
  split; [|by split].
  intros now tz dateStr sectionText. unfold diagnosticPass.
  apply List.Forall_map. unfold execAll.
  apply execLoop_Forall. intros p s m Hm.
  cbn [diagnosticActivity base earned percentage isSuccess type].
  repeat split.
  destruct (diagnostic_xpValue _ _ _ Hm) as [Hd Hne].
  destruct (parseInt_digits _ Hd Hne) as (v & -> & Hv).
  unfold orElse. destruct (v =? 0) eqn:E; [lia|]. apply Z.eqb_neq in E. lia.
Qed.

(* ===================================================================== *)
(** ** The statistics *)
(* ===================================================================== *)

(** the parser sets no [taskName], so the statistics never see a quiz by
    its name in a parsed record *)
Lemma parsed_taskName now tz text :
  Forall (fun a => taskName a = None /\ isQuiz a = false) (parseActivities now tz text).
Proof.
  unfold parseActivities. apply Forall_filter_bool.
  induction (execAll datePattern text) as [|m ms IH]; simpl; [constructor|].
  apply Forall_app. split; [|exact IH].
  destruct (Nat.ltb _ _); [|constructor].
  unfold parseActivitySection, gradedPass, diagnosticPass. apply Forall_app.
  split; apply List.Forall_map, List.Forall_forall; intros x _; by split.
Qed.

(** a record whose [taskName] holds "quiz" in any case is counted as a
    quiz, whatever its type *)
Lemma countActivity_taskName counts a n :
  taskName a = Some n -> includes "quiz" (toLowerCase n) = true ->
  countActivity counts a
  = {| diagnostics := diagnostics counts; lessons := lessons counts;
       reviews := reviews counts; multisteps := multisteps counts;
       quizzes := S (quizzes counts) |}.
Proof.
  intros Hn Hq. unfold countActivity. rewrite Hn.
  destruct (truthyS n) eqn:E; [by rewrite Hq|]. by destruct n.
Qed.

(** C1. The counts by category of [calculateActivityCounts] look for
    "quiz" in the field [taskName] of a record and not in its [title]: the
    record of type "Assessment" with the title "Chapter 3 Quiz" is counted
    under diagnostics, and the parsed line of a lesson whose description
    starts with "Quiz" is counted under lessons; neither is counted as a
    quiz. *)
Theorem C1_quiz_title_not_seen :
  (includes "quiz" (toLowerCase (title assessmentQuiz)) = true
   /\ calculateActivityCounts [assessmentQuiz]
      = {| diagnostics := 1; lessons := 0; reviews := 0; multisteps := 0; quizzes := 0 |})
  /\ (forall now tz,
        map (fun a => (type a, title a, includes "quiz" (toLowerCase (title a))))
            (parseActivities now tz quizNamedLesson) = [("lesson", "Quiz Warm-up", true)]
        /\ calculateActivityCounts (parseActivities now tz quizNamedLesson)
           = {| diagnostics := 0; lessons := 1; reviews := 0; multisteps := 0; quizzes := 0 |}).
Proof.
  split; [by split|]. intros now tz.
  split; lazy -[localMidnight]; reflexivity.
Qed.

(** *** The success rate *)

Lemma attain_totals data e p :
  fold_left attain data (e, p)
  = (e + sumZ (map earned data), plusN p (sumN (map possibleOf data))).
Proof.
  revert e p. induction data as [|a data IH]; intros e p.
  - cbn. f_equal; [lia|]. destruct p; cbn; [f_equal; lia|done].
  - cbn [fold_left map sumZ sumN]. unfold attain at 2, possibleOf at 1.
    destruct (isDiagnostic a); rewrite IH; (f_equal; [lia|]).
    + destruct p, (sumN _); cbn; try done. f_equal; lia.
    + destruct p, (base a), (sumN _); cbn; try done. f_equal; lia.
Qed.

(** C2. The snapshot applies no default to a base that is unset or 0,
    which the daily aggregate, whose comment names the snapshot as its
    model, replaces by 10: for every log the possible XP of the snapshot
    are the sum of earned for a diagnostic record and of [base], as it
    is, for any other.  For one lesson with 8 XP and no base the total
    is not a number and the success rate 0, where the rule of the
    aggregate gives 80; for the parsed log of two lessons with 0 of 0 and
    10 of 10 XP the success rate is 100, where that rule gives 50.  The
    rate is not clamped: 12 of 10 XP give 120. *)
Theorem C2_snapshot_takes_no_default :
  (forall data : list Activity,
     totalEarned (calculateSuccessMetrics data) = Some (sumZ (map earned data))
     /\ totalPossible (calculateSuccessMetrics data) = Some (sumN (map possibleOf data)))
  /\ (map base unsetBaseLog = [None]
      /\ map possibleOfAggregator unsetBaseLog = [10]
      /\ claimedSuccessRate unsetBaseLog = 80%Q
      /\ totalPossible (calculateSuccessMetrics unsetBaseLog) = Some NaN
      /\ successRate (calculateSuccessMetrics unsetBaseLog) = 0%Q)
  /\ (forall now tz,
        let log := parseActivities now tz zeroOfZeroText in
        map (fun a => (type a, earned a, base a)) log
        = [("lesson", 0, Some 0); ("lesson", 10, Some 10)]
        /\ map possibleOfAggregator log = [10; 10]
        /\ claimedSuccessRate log = 50%Q
        /\ totalPossible (calculateSuccessMetrics log) = Some (Fin 10)
        /\ successRate (calculateSuccessMetrics log) = 100%Q)
  /\ successRate (calculateSuccessMetrics [record "lesson" "Bonus" 12 (Some 10)]) = 120%Q.
Proof.
  split; [|split; [|split; [|by vm_compute]]].
  - intros data. unfold calculateSuccessMetrics.
    destruct (fold_left classify data _) as [[pc qc] fc].
    rewrite attain_totals. cbn [totalEarned totalPossible plusN].
    split; [f_equal; lia|]. f_equal. destruct (sumN _); f_equal.
  - repeat split; vm_compute; reflexivity.
  - intros now tz log. subst log.
    repeat split; lazy -[localMidnight]; reflexivity.
Qed.

(** *** The three classes *)

Lemma classify_step p q f a :
  classify (p, q, f) a
  = ((p + tally (isPerfect a))%nat, (q + tally (isPass a))%nat, (f + tally (isFail a))%nat).
Proof.
  unfold classify, isFail, isPerfect, isPass.
  destruct (isDiagnostic a), (0 <? earned a), (gtU (earned a) (base a)) eqn:G,
    (leU (earned a) (base a)) eqn:L; cbn;
    try (f_equal; [f_equal|]; lia).
  all: exfalso; unfold gtU, leU in *; destruct (base a); try discriminate; lia.
Qed.

Lemma countIf_cons p a l : countIf p (a :: l) = (tally (p a) + countIf p l)%nat.
Proof. unfold countIf. cbn [List.filter]. by destruct (p a). Qed.

Lemma classify_counts data p q f :
  fold_left classify data (p, q, f)
  = ((p + countIf isPerfect data)%nat, (q + countIf isPass data)%nat,
     (f + countIf isFail data)%nat).
Proof.
  revert p q f. induction data as [|a data IH]; intros p q f.
  - unfold countIf; simpl. by rewrite !Nat.add_0_r.
  - cbn [fold_left]. rewrite classify_step, IH, !countIf_cons.
    f_equal; [f_equal|]; lia.
Qed.

(** a record is in exactly one of the three classes *)
Lemma one_class a :
  (isPerfect a = true /\ isPass a = false /\ isFail a = false)
  \/ (isPerfect a = false /\ isPass a = true /\ isFail a = false)
  \/ (isPerfect a = false /\ isPass a = false /\ isFail a = true).
Proof.
  unfold isFail, isPerfect, isPass.
  destruct (isDiagnostic a), (0 <? earned a), (gtU (earned a) (base a)) eqn:G,
      (leU (earned a) (base a)) eqn:L; cbn; try tauto.
  all: exfalso; unfold gtU, leU in *; destruct (base a); try discriminate; lia.
Qed.

Lemma countIf_partition data :
  (countIf isPerfect data + countIf isPass data + countIf isFail data = length data)%nat.
Proof.
  induction data as [|a data IH]; [done|].
  rewrite !countIf_cons. cbn [length].
  destruct (one_class a) as [(->&->&->)|[(->&->&->)|(->&->&->)]]; cbn [tally]; lia.
Qed.

(** C3. In the snapshot of any sequence of records the counts of perfect,
    pass and fail add up to the total number of records, which is the
    length of the sequence; the perfect ones are the records that are not
    diagnostic and earned more than their base, the passes are those that
    are not diagnostic and earned more than 0 and at most their base
    together with the diagnostic ones that earned more than 0, the fails
    are all the others; and every record is in exactly one class. *)
Theorem C3_success_partition (now tz : Z) (data : list Activity) :
  let s := calculateStats now tz (Some data) in
  let m := successMetrics s in
  (perfectCount m + passCount m + failCount m = totalActivities s
   /\ totalActivities s = length data
   /\ perfectCount m = countIf isPerfect data
   /\ passCount m = countIf isPass data
   /\ failCount m = countIf isFail data)%nat
  /\ Forall (fun a => (tally (isPerfect a) + tally (isPass a) + tally (isFail a) = 1)%nat) data.
Proof.
  intros s m. split.
  - destruct data as [|a data]; [cbn; done|].
    subst s m. unfold calculateStats.
    change (Nat.eqb (length (a :: data)) 0) with false. cbv iota.
    cbn [successMetrics totalActivities]. set (d := a :: data).
    unfold calculateSuccessMetrics.
    rewrite classify_counts.
    destruct (fold_left attain d (0, Fin 0)) as [e p].
    cbn [perfectCount passCount failCount].
    pose proof (countIf_partition d). repeat split; lia.
  - apply List.Forall_forall. intros a _.
    by destruct (one_class a) as [(->&->&->)|[(->&->&->)|(->&->&->)]].
Qed.

(* ===================================================================== *)
(** ** The charts *)
(* ===================================================================== *)

(** *** Insertion-ordered dictionaries and sorting *)

Section DictFacts.
Context {A : Type} (key : A -> Z).

Lemma In_insertBy x y l : In y (Dict.insertBy key x l) <-> y = x \/ In y l.
Proof.
  induction l as [|z l IH]; cbn; [intuition congruence|].
  destruct (key x <=? key z); cbn; [intuition congruence|]. rewrite IH. intuition congruence.
Qed.

Lemma In_sortBy y l : In y (Dict.sortBy key l) <-> In y l.
Proof.
  induction l as [|z l IH]; cbn; [done|]. rewrite In_insertBy, IH. intuition congruence.
Qed.

Lemma length_insertBy x l : length (Dict.insertBy key x l) = S (length l).
Proof. induction l as [|z l IH]; cbn; [done|]. destruct (_ <=? _); cbn; lia. Qed.

Lemma length_sortBy l : length (Dict.sortBy key l) = length l.
Proof. induction l as [|z l IH]; cbn; [done|]. by rewrite length_insertBy, IH. Qed.

Lemma insertBy_sorted x l :
  StronglySorted (keyLe key) l -> StronglySorted (keyLe key) (Dict.insertBy key x l).
Proof.
  induction 1 as [|z l Hs IH Hz]; cbn; [repeat constructor|].
  destruct (key x <=? key z) eqn:E.
  - apply Z.leb_le in E. constructor; [by constructor|].
    constructor; [done|]. eapply Forall_impl; [exact Hz|]. unfold keyLe. intros; lia.
  - apply Z.leb_gt in E. constructor; [done|].
    apply List.Forall_forall. intros y Hy. apply In_insertBy in Hy as [->|Hy].
    + unfold keyLe. lia.
    + rewrite List.Forall_forall in Hz. by apply Hz.
Qed.

Lemma sortBy_sorted l : StronglySorted (keyLe key) (Dict.sortBy key l).
Proof. induction l; cbn; [constructor|by apply insertBy_sorted]. Qed.

Lemma sorted_head_least l h :
  StronglySorted (keyLe key) l -> head l = Some h -> forall y, In y l -> key h <= key y.
Proof.
  intros Hs Hh y Hy. destruct l as [|z l]; [done|]. injection Hh as ->.
  inversion Hs as [|? ? _ Hall]; subst. destruct Hy as [->|Hy]; [lia|].
  rewrite List.Forall_forall in Hall. by apply Hall.
Qed.

Lemma sorted_last_greatest l h :
  StronglySorted (keyLe key) l -> last l = Some h -> forall y, In y l -> key y <= key h.
Proof.
  induction 1 as [|z l Hs IH Hz]; intros Hl y Hy; [done|].
  destruct l as [|z' l'].
  - cbn in Hl. injection Hl as ->. destruct Hy as [->|[]]. lia.
  - change (last (z :: z' :: l')) with (last (z' :: l')) in Hl.
    destruct Hy as [->|Hy]; [|by apply IH].
    rewrite List.Forall_forall in Hz. apply Hz.
    apply last_Some in Hl as [l'' Hl]. rewrite Hl. apply in_or_app. right. by left.
Qed.
End DictFacts.

Lemma upsert_Forall {V} (P : Z * V -> Prop) k init f (o : list (Z * V)) :
  Forall P o -> (forall v, P (k, v) -> P (k, f v)) -> P (k, f init) ->
  Forall P (Dict.upsert k init f o).
Proof.
  intros Ho Hf Hi. induction Ho as [|[k' v] o Hv Ho IH]; cbn; [by repeat constructor|].
  destruct (k =? k') eqn:E.
  - apply Z.eqb_eq in E. subst. constructor; [by apply Hf|done].
  - by constructor.
Qed.

Lemma upsert_keys {V} k init f (o : list (Z * V)) k' :
  In k' (map fst (Dict.upsert k init f o)) <-> k' = k \/ In k' (map fst o).
Proof.
  induction o as [|[k0 v] o IH]; cbn; [intuition congruence|].
  destruct (k =? k0) eqn:E; cbn.
  - apply Z.eqb_eq in E. subst. intuition congruence.
  - rewrite IH. intuition congruence.
Qed.

Lemma upsert_nonempty {V} k init f (o : list (Z * V)) : Dict.upsert k init f o <> [].
Proof. destruct o as [|[k0 v] o]; cbn; [done|]. by destruct (k =? k0). Qed.

(** *** Grouping *)

Section Grouping.
Variable tz : Z.

Lemma groups_inv (P : Z * Day.t -> Prop) (Q : Activity -> Prop) :
  (forall a k, Q a -> k = localDay tz (timestamp a) -> P (k, addToDay a (emptyDay k))) ->
  (forall a k g, Q a -> P (k, g) -> P (k, addToDay a g)) ->
  forall acts g0, Forall Q acts -> Forall P g0 ->
  Forall P (fold_left (groupStep tz) acts g0).
Proof.
  intros H0 H1 acts. induction acts as [|a acts IH]; intros g0 HQ Hg; cbn; [done|].
  inversion HQ; subst. apply IH; [done|].
  unfold groupStep. apply upsert_Forall; [done| |]; eauto.
Qed.

Lemma groups_keys acts : forall g0 k,
  In k (map fst (fold_left (groupStep tz) acts g0))
  <-> In k (map fst g0) \/ In k (activeDays tz acts).
Proof.
  induction acts as [|a acts IH]; intros g0 k; cbn; [tauto|].
  rewrite IH. unfold groupStep, toLocalDateString. rewrite upsert_keys.
  intuition congruence.
Qed.

Lemma groups_nonempty acts g0 :
  acts <> [] \/ g0 <> [] -> fold_left (groupStep tz) acts g0 <> [].
Proof.
  revert g0. induction acts as [|a acts IH]; intros g0 H; cbn; [tauto|].
  apply IH. right. apply upsert_nonempty.
Qed.

Lemma addToDay_date a g : Day.date (addToDay a g) = Day.date g.
Proof. unfold addToDay. by destruct (attainment a). Qed.

Lemma addToDay_xp a g : Day.xp (addToDay a g) = Day.xp g + earned a.
Proof. unfold addToDay. destruct (attainment a). cbn [Day.xp]. by rewrite orElse_self. Qed.

Lemma addToDay_count a g : Day.count (addToDay a g) = S (Day.count g).
Proof. unfold addToDay. by destruct (attainment a). Qed.

Lemma dailyGroups_date acts :
  Forall (fun kg => Day.date (snd kg) = fst kg) (dailyGroups tz acts).
Proof.
  apply (groups_inv _ (fun _ => True)); [| | |constructor].
  - intros a k _ _. cbn. by rewrite addToDay_date.
  - intros a k g _ Hg. cbn in *. by rewrite addToDay_date.
  - apply List.Forall_forall. done.
Qed.

Lemma dailyGroups_xp acts :
  Forall (fun a => 0 <= earned a) acts ->
  Forall (fun kg => 0 <= Day.xp (snd kg)) (dailyGroups tz acts).
Proof.
  intros H. apply (groups_inv _ (fun a => 0 <= earned a)); [| |done|constructor].
  - intros a k Ha _. cbn. rewrite addToDay_xp. cbn. lia.
  - intros a k g Ha Hg. cbn in *. rewrite addToDay_xp. lia.
Qed.

(** the dates of the sorted days are the active days *)
Lemma sortedDays_dates acts k :
  In k (map Day.date (sortedDays tz acts)) <-> In k (activeDays tz acts).
Proof.
  unfold sortedDays. rewrite in_map_iff.
  setoid_rewrite In_sortBy. unfold Dict.values.
  pose proof (dailyGroups_date acts) as Hd. rewrite List.Forall_forall in Hd.
  pose proof (groups_keys acts [] k) as Hk. fold (dailyGroups tz acts) in Hk.
  cbn in Hk. rewrite in_map_iff in Hk. split.
  - intros (d & <- & Hin). apply in_map_iff in Hin as ([k' g] & <- & Hin).
    destruct Hk as [Hk _]. destruct Hk as [[]|Hk]; [|done].
    exists (k', g). split; [|done]. cbn. symmetry. apply (Hd _ Hin).
  - intros Hin. destruct Hk as [_ Hk]. destruct Hk as ([k' g] & <- & Hg); [by right|].
    exists g. split; [apply (Hd _ Hg)|].
    apply in_map_iff. by exists (k', g).
Qed.
End Grouping.

(** *** Transitions keep the aggregates *)

Lemma markTransitions_map {B} (f : Day.t -> B) :
  (forall d fl x y, f (withTransition d fl x y) = f d) ->
  forall l p, map f (markTransitions p l) = map f l.
Proof.
  intros Hf l. induction l as [|d l IH]; intros p; cbn [markTransitions map]; [done|].
  destruct (Day.courses d) as [|c cs].
  - cbn [map]. by rewrite Hf, IH.
  - cbn [map]. rewrite IH. f_equal.
    destruct p as [p|]; [|apply Hf]. destruct (_ && _); apply Hf.
Qed.

Lemma head_map {A B} (f : A -> B) l : head (map f l) = f <$> head l.
Proof. by destruct l. Qed.

Lemma last_map {A B} (f : A -> B) l : last (map f l) = f <$> last l.
Proof.
  induction l as [|x l IH]; [done|]. destruct l as [|y l]; [done|].
  change (last (map f (x :: y :: l))) with (last (map f (y :: l))).
  by rewrite IH.
Qed.

Lemma In_head {A} (l : list A) x : head l = Some x -> In x l.
Proof. destruct l; [done|]. intros [= ->]. by left. Qed.

Lemma In_last {A} (l : list A) x : last l = Some x -> In x l.
Proof. intros H. apply last_Some in H as [l' ->]. apply in_or_app. right. by left. Qed.

(** *** Least and greatest of a list *)

Lemma fold_min_spec l x :
  let m := fold_right Z.min x l in
  (m = x \/ In m l) /\ m <= x /\ forall y, In y l -> m <= y.
Proof.
  induction l as [|z l IH]; cbn; [intuition lia|].
  destruct IH as ([E|Hin] & Hx & Hall).
  - repeat split; [|lia|].
    + destruct (Z.min_spec z (fold_right Z.min x l)) as [[_ ->]|[_ ->]]; auto.
    + intros y [->|Hy]; [lia|]. specialize (Hall y Hy). lia.
  - repeat split; [|lia|].
    + destruct (Z.min_spec z (fold_right Z.min x l)) as [[_ ->]|[_ ->]]; auto.
    + intros y [->|Hy]; [lia|]. specialize (Hall y Hy). lia.
Qed.

Lemma fold_max_spec l x :
  let m := fold_right Z.max x l in
  (m = x \/ In m l) /\ x <= m /\ forall y, In y l -> y <= m.
Proof.
  induction l as [|z l IH]; cbn; [intuition lia|].
  destruct IH as ([E|Hin] & Hx & Hall).
  - repeat split; [|lia|].
    + destruct (Z.max_spec z (fold_right Z.max x l)) as [[_ ->]|[_ ->]]; auto.
    + intros y [->|Hy]; [lia|]. specialize (Hall y Hy). lia.
  - repeat split; [|lia|].
    + destruct (Z.max_spec z (fold_right Z.max x l)) as [[_ ->]|[_ ->]]; auto.
    + intros y [->|Hy]; [lia|]. specialize (Hall y Hy). lia.
Qed.

Lemma firstActiveDay_spec tz acts :
  acts <> [] ->
  In (firstActiveDay tz acts) (activeDays tz acts)
  /\ forall y, In y (activeDays tz acts) -> firstActiveDay tz acts <= y.
Proof.
  intros Hne. unfold firstActiveDay. destruct acts as [|a acts]; [done|].
  cbn [activeDays map hd].
  set (x := localDay tz (timestamp a)). set (l := map _ acts).
  destruct (fold_min_spec (x :: l) x) as (Hm & Hx & Hall).
  split; [|exact Hall]. destruct Hm as [E|Hin]; [rewrite E; by left|exact Hin].
Qed.

Lemma lastActiveDay_spec tz acts :
  acts <> [] ->
  In (lastActiveDay tz acts) (activeDays tz acts)
  /\ forall y, In y (activeDays tz acts) -> y <= lastActiveDay tz acts.
Proof.
  intros Hne. unfold lastActiveDay. destruct acts as [|a acts]; [done|].
  cbn [activeDays map hd].
  set (x := localDay tz (timestamp a)). set (l := map _ acts).
  destruct (fold_max_spec (x :: l) x) as (Hm & Hx & Hall).
  split; [|exact Hall]. destruct Hm as [E|Hin]; [rewrite E; by left|exact Hin].
Qed.

(** the first and the last of the grouped days are the first and the last
    active day *)
Lemma groupActivitiesByDay_ends tz acts :
  acts <> [] ->
  exists first final,
    head (groupActivitiesByDay tz acts) = Some first
    /\ last (groupActivitiesByDay tz acts) = Some final
    /\ Day.date first = firstActiveDay tz acts
    /\ Day.date final = lastActiveDay tz acts.
Proof.
  intros Hne.
  assert (Hdates : map Day.date (groupActivitiesByDay tz acts) = map Day.date (sortedDays tz acts)).
  { apply markTransitions_map. done. }
  pose proof (sortBy_sorted (fun d => dateOfKey (Day.date d)) (Dict.values (dailyGroups tz acts))) as Hs.
  fold (sortedDays tz acts) in Hs.
  assert (Hlen : sortedDays tz acts <> []).
  { unfold sortedDays. intros E. apply (f_equal length) in E. rewrite length_sortBy in E.
    unfold Dict.values in E. rewrite length_map in E.
    apply (groups_nonempty tz acts []); [by left|]. by apply nil_length_inv. }
  destruct (head (sortedDays tz acts)) as [h|] eqn:Hh; [|by destruct (sortedDays tz acts)].
  destruct (last (sortedDays tz acts)) as [z|] eqn:Hz;
    [|by apply last_None in Hz].
  pose proof (f_equal head Hdates) as Eh. rewrite !head_map, Hh in Eh.
  pose proof (f_equal last Hdates) as El. rewrite !last_map, Hz in El.
  destruct (head (groupActivitiesByDay tz acts)) as [first|]; [|done].
  destruct (last (groupActivitiesByDay tz acts)) as [final|]; [|done].
  cbn in Eh, El. injection Eh as Eh. injection El as El.
  exists first, final. split; [done|]. split; [done|].
  destruct (firstActiveDay_spec tz acts Hne) as [Hfin Hfle].
  destruct (lastActiveDay_spec tz acts Hne) as [Hlin Hlle].
  assert (Hmem : forall k, In k (activeDays tz acts) ->
                           exists d, In d (sortedDays tz acts) /\ Day.date d = k).
  { intros k Hk. apply sortedDays_dates in Hk. apply in_map_iff in Hk as (d & <- & Hd). eauto. }
  assert (Hmem' : forall d, In d (sortedDays tz acts) -> In (Day.date d) (activeDays tz acts)).
  { intros d Hd. apply sortedDays_dates. by apply in_map. }
  split.
  - rewrite Eh. destruct (Hmem _ Hfin) as (d & Hd & Ed).
    pose proof (sorted_head_least _ _ _ Hs Hh d Hd) as H1. cbn in H1. unfold dateOfKey, msPerDay in H1.
    pose proof (Hfle _ (Hmem' h (In_head _ _ Hh))). lia.
  - rewrite El. destruct (Hmem _ Hlin) as (d & Hd & Ed).
    pose proof (sorted_last_greatest _ _ _ Hs Hz d Hd) as H1. cbn in H1. unfold dateOfKey, msPerDay in H1.
    pose proof (Hlle _ (Hmem' z (In_last _ _ Hz))). lia.
Qed.

Lemma firstActiveDay_le_last tz acts :
  acts <> [] -> firstActiveDay tz acts <= lastActiveDay tz acts.
Proof.
  intros Hne. destruct (firstActiveDay_spec tz acts Hne) as [Hfin Hfle].
  destruct (lastActiveDay_spec tz acts Hne) as [Hlin Hlle]. auto.
Qed.

(** *** The lookup tables *)

Lemma lookupOf_Some (f : Day.t -> Z) days k v :
  lookupOf f days !! k = Some v -> exists d, In d days /\ Day.date d = k /\ f d = v.
Proof.
  unfold lookupOf.
  assert (H : forall (m0 : gmap Z Z),
    fold_left (fun m day => <[Day.date day := f day]> m) days m0 !! k = Some v ->
    m0 !! k = Some v \/ exists d, In d days /\ Day.date d = k /\ f d = v).
  { induction days as [|d days IH]; intros m0 Hm; cbn in Hm; [by left|].
    apply IH in Hm as [Hm|(d' & Hin & Hd)].
    - destruct (decide (Day.date d = k)) as [E|E].
      + rewrite E, lookup_insert_eq in Hm. injection Hm as <-. right. exists d. by repeat split; [left|..].
      + rewrite lookup_insert_ne in Hm by done. by left.
    - right. exists d'. split; [by right|done]. }
  intros Hm. apply H in Hm as [Hm|Hm]; [|done]. by rewrite lookup_empty in Hm.
Qed.

Lemma transitionLookupOf_Some days k tr :
  transitionLookupOf days !! k = Some tr ->
  exists d, In d days /\ Day.date d = k /\ Day.courseTransition d = true
            /\ tr = {| Transition.from := Day.transitionFrom d;
                       Transition.to := Day.transitionTo d |}.
Proof.
  unfold transitionLookupOf.
  assert (H : forall (m0 : gmap Z Transition.t),
    fold_left (fun m day =>
                 if Day.courseTransition day
                 then <[Day.date day := {| Transition.from := Day.transitionFrom day;
                                           Transition.to := Day.transitionTo day |}]> m
                 else m) days m0 !! k = Some tr ->
    m0 !! k = Some tr \/
    exists d, In d days /\ Day.date d = k /\ Day.courseTransition d = true
              /\ tr = {| Transition.from := Day.transitionFrom d;
                         Transition.to := Day.transitionTo d |}).
  { induction days as [|d days IH]; intros m0 Hm; cbn in Hm; [by left|].
    apply IH in Hm as [Hm|(d' & Hin & Hd)].
    - destruct (Day.courseTransition d) eqn:Ht; [|by left].
      destruct (decide (Day.date d = k)) as [E|E].
      + rewrite E, lookup_insert_eq in Hm. injection Hm as <-. right. exists d.
        by repeat split; [left|..].
      + rewrite lookup_insert_ne in Hm by done. by left.
    - right. exists d'. split; [by right|done]. }
  intros Hm. apply H in Hm as [Hm|Hm]; [|done]. by rewrite lookup_empty in Hm.
Qed.

(** *** The day loop of the cumulative charts *)

Section DayLoop.
Variable tz : Z.

Lemma localDay_dateOfKey k : localDay tz (dateOfKey k) = k + tz / msPerDay.
Proof. unfold localDay, dateOfKey. apply Z.div_add_l. discriminate. Qed.

Lemma addDays_localMidnight k : addDays (localMidnight tz k) 1 = localMidnight tz (k + 1).
Proof. unfold addDays, localMidnight. lia. Qed.

Lemma rounds_localMidnight k0 k1 :
  rounds (localMidnight tz k0) (localMidnight tz k1) = Z.to_nat (k1 - k0 + 1).
Proof.
  unfold rounds, localMidnight. f_equal. f_equal.
  replace (k1 * msPerDay - tz - (k0 * msPerDay - tz)) with ((k1 - k0) * msPerDay) by lia.
  apply Z.div_mul. discriminate.
Qed.

(** with [n] rounds of fuel the loop runs over the days [k0], [k0 + 1],
    ..., up to [k1] or until the fuel is used up *)
Lemma cumulate_keys lookup k1 : forall n k0 acc,
  map fst (cumulate tz lookup n (localMidnight tz k0) (localMidnight tz k1) acc)
  = seqZ k0 (Z.min (Z.of_nat n) (k1 - k0 + 1)).
Proof.
  induction n as [|n IH]; intros k0 acc; cbn [cumulate].
  - rewrite seqZ_nil; [done|lia].
  - destruct (localMidnight tz k0 <=? localMidnight tz k1) eqn:E.
    + apply Z.leb_le in E. unfold localMidnight, msPerDay in E.
      cbn [map fst]. unfold toLocalDateString. rewrite localDay_localMidnight.
      rewrite addDays_localMidnight, IH.
      rewrite (seqZ_cons k0) by lia. f_equal. f_equal; lia.
    + apply Z.leb_gt in E. unfold localMidnight, msPerDay in E.
      rewrite seqZ_nil; [done|lia].
Qed.

(** more fuel than [rounds] changes nothing: the loop ends by its test *)
Lemma cumulate_fuel lookup k1 : forall n m k0 acc,
  (Z.to_nat (k1 - k0 + 1) <= n)%nat -> (Z.to_nat (k1 - k0 + 1) <= m)%nat ->
  cumulate tz lookup n (localMidnight tz k0) (localMidnight tz k1) acc
  = cumulate tz lookup m (localMidnight tz k0) (localMidnight tz k1) acc.
Proof.
  induction n as [|n IH]; intros m k0 acc Hn Hm.
  - destruct m as [|m]; [done|]. cbn [cumulate].
    destruct (localMidnight tz k0 <=? localMidnight tz k1) eqn:E; [|done].
    apply Z.leb_le in E. unfold localMidnight, msPerDay in E. lia.
  - cbn [cumulate].
    destruct (localMidnight tz k0 <=? localMidnight tz k1) eqn:E.
    + apply Z.leb_le in E. unfold localMidnight, msPerDay in E.
      destruct m as [|m]; [lia|]. cbn [cumulate].
      assert (E' : (localMidnight tz k0 <=? localMidnight tz k1) = true)
        by (apply Z.leb_le; unfold localMidnight, msPerDay; lia).
      rewrite E'. f_equal. rewrite !addDays_localMidnight. apply IH; lia.
    + destruct m as [|m]; [done|]. cbn [cumulate]. by rewrite E.
Qed.

Lemma cumulate_ascending lookup last :
  (forall k v, lookup !! k = Some v -> 0 <= v) ->
  forall n cur acc, ascending acc (map snd (cumulate tz lookup n cur last acc)).
Proof.
  intros Hpos. induction n as [|n IH]; intros cur acc; cbn [cumulate]; [done|].
  destruct (cur <=? last); [|done]. cbn [map snd ascending]. split; [|apply IH].
  unfold orElse. destruct (lookup !! _) as [v|] eqn:E; [|lia].
  apply Hpos in E. destruct (v =? 0); lia.
Qed.
End DayLoop.

Lemma ascending_nondecreasing lo l : ascending lo l -> nondecreasing l.
Proof.
  revert lo. induction l as [|x l IH]; intros lo H i v w Hv Hw; [done|].
  destruct H as [_ H]. destruct i as [|i].
  - cbn in Hv. injection Hv as <-. destruct l as [|y l]; [done|].
    cbn in Hw. injection Hw as <-. by destruct H.
  - cbn in Hv, Hw. by apply (IH x H i).
Qed.

(** *** The cumulative charts *)

Lemma cumulativeSeries_spec tz f days first final :
  head days = Some first -> last days = Some final ->
  exists t, cumulativeSeries tz f days = Some t
    /\ labels t = map Key (seqZ (Day.date first + tz / msPerDay)
                                (Day.date final - Day.date first + 1))
    /\ length (values t) = length (labels t)
    /\ transitions t = Some (transitionLookupOf days)
    /\ ((forall d, In d days -> 0 <= f d) -> nondecreasing (values t)).
Proof.
  intros Hh Hl. unfold cumulativeSeries. rewrite Hh, Hl.
  eexists. split; [reflexivity|]. cbn [labels values transitions].
  unfold setHours0. rewrite !localDay_dateOfKey.
  set (k0 := Day.date first + tz / msPerDay).
  set (k1 := Day.date final + tz / msPerDay).
  rewrite rounds_localMidnight.
  split; [|split; [|split; [done|]]].
  - rewrite <- (map_map fst Key), cumulate_keys. f_equal. f_equal. lia.
  - by rewrite !length_map.
  - intros Hpos. eapply ascending_nondecreasing, cumulate_ascending.
    intros k v Hk. apply lookupOf_Some in Hk as (d & Hd & _ & <-). by apply Hpos.
Qed.

(** *** Where transitions are marked *)

Lemma TransitionAt_cons d days k p c :
  TransitionAt days k p c -> TransitionAt (d :: days) k p c.
Proof.
  intros (before & prev & between & day & after & -> & H).
  by exists (d :: before), prev, between, day, after.
Qed.

Lemma markTransitions_spec days : forall prev d',
  In d' (markTransitions prev days) -> Day.courseTransition d' = true ->
  exists p c,
    Day.transitionFrom d' = Some p /\ Day.transitionTo d' = Some c /\ p <> c
    /\ ((exists between day after,
           days = between ++ day :: after
           /\ Forall (fun d => Day.courses d = []) between
           /\ prev = Some p /\ firstCourse day = Some c /\ Day.date day = Day.date d')
        \/ TransitionAt days (Day.date d') p c).
Proof.
  induction days as [|d days IH]; intros prev d' Hin Ht; [done|].
  cbn [markTransitions] in Hin. destruct (Day.courses d) as [|cur cs] eqn:Hc.
  - destruct Hin as [<-|Hin]; [done|].
    destruct (IH _ _ Hin Ht) as (p & c & Hf & Hto & Hne & [H|H]); exists p, c;
      (split; [done|]; split; [done|]; split; [done|]).
    + left. destruct H as (between & day & after & -> & Hb & H).
      exists (d :: between), day, after. split; [done|]. split; [by constructor|done].
    + right. by apply TransitionAt_cons.
  - destruct Hin as [<-|Hin].
    + destruct prev as [p|]; [|done].
      destruct (truthyS p && negb (String.eqb cur p)) eqn:E; [|done].
      apply andb_prop in E as [_ E]. apply negb_true_iff, String.eqb_neq in E.
      exists p, cur. cbn. split; [done|]. split; [done|]. split; [congruence|].
      left. exists [], d, days. repeat split; [constructor|by unfold firstCourse; rewrite Hc].
    + destruct (IH _ _ Hin Ht) as (p & c & Hf & Hto & Hne & [H|H]); exists p, c;
        (split; [done|]; split; [done|]; split; [done|]); right.
      * destruct H as (between & day & after & -> & Hb & [= <-] & Hfc & Hd).
        exists [], d, between, day, after. repeat split; try done.
        by unfold firstCourse; rewrite Hc.
      * by apply TransitionAt_cons.
Qed.

Lemma groupActivitiesByDay_transitions tz acts k tr :
  transitionLookupOf (groupActivitiesByDay tz acts) !! k = Some tr ->
  exists p c, tr = {| Transition.from := Some p; Transition.to := Some c |}
              /\ TransitionAt (sortedDays tz acts) k p c.
Proof.
  intros H. apply transitionLookupOf_Some in H as (d & Hin & <- & Ht & ->).
  destruct (markTransitions_spec _ _ _ Hin Ht) as (p & c & -> & -> & _ & [H|H]).
  - by destruct H as (? & ? & ? & _ & _ & ? & _).
  - by exists p, c.
Qed.

(** *** The shape of every series *)

Lemma weekSeries_shape now tz step :
  labels (weekSeries now tz step) = map Key (lastSevenDays now tz)
  /\ length (values (weekSeries now tz step)) = length (lastSevenDays now tz)
  /\ transitions (weekSeries now tz step) = None.
Proof.
  unfold weekSeries.
  assert (H : forall days ls vs c,
    let '(ls', vs', _) :=
      fold_left (fun '(labels, values, cumulative) dateKey =>
                   let '(value, cumulative) := step cumulative dateKey in
                   ((labels ++ [Key dateKey])%list, (values ++ [value])%list, cumulative))
                days (ls, vs, c) in
    ls' = (ls ++ map Key days)%list /\ length vs' = (length vs + length days)%nat).
  { induction days as [|k days IH]; intros ls vs c; cbn [fold_left].
    - rewrite app_nil_r. cbn. split; [done|lia].
    - destruct (step c k) as [v c'] eqn:E.
      specialize (IH (ls ++ [Key k])%list (vs ++ [v])%list c').
      destruct (fold_left _ days _) as [[ls' vs'] c''].
      destruct IH as [-> IH]. rewrite <- app_assoc. split; [done|].
      rewrite IH, length_app. cbn. lia. }
  specialize (H (lastSevenDays now tz) [] [] 0).
  destruct (fold_left _ _ _) as [[ls' vs'] c'']. destruct H as [-> H]. cbn. by rewrite H.
Qed.

Lemma imap_dates (g : nat -> Z) (days : list Day.t) :
  map (fun d : Z * Z => Key (fst d)) (imap (fun i day => (Day.date day, g i)) days)
  = map (fun d => Key (Day.date d)) days.
Proof.
  revert g. induction days as [|d days IH]; intros g; [done|].
  cbn. f_equal. apply (IH (fun i => g (S i))).
Qed.

Lemma rolling_shape point days :
  labels (rolling point days) = map (fun d => Key (Day.date d)) days
  /\ length (values (rolling point days)) = length days
  /\ transitions (rolling point days) = Some (transitionLookupOf days).
Proof.
  unfold rolling. cbn [labels values transitions]. split; [|split; [|done]].
  - exact (imap_dates (fun i => point (window days i)) days).
  - by rewrite length_map, length_imap.
Qed.

(** *** Sorting the records changes no day *)

Lemma sortByTimestamp_nonempty data :
  Nat.eqb (length (sortByTimestamp data)) 0 = false -> sortByTimestamp data <> [] /\ data <> [].
Proof.
  intros H. apply Nat.eqb_neq in H. unfold sortByTimestamp in *.
  split; intros E.
  - by rewrite E in H.
  - subst data. by cbn in H.
Qed.

Lemma activeDays_sorted tz data k :
  In k (activeDays tz (sortByTimestamp data)) <-> In k (activeDays tz data).
Proof.
  unfold activeDays, sortByTimestamp. rewrite !in_map_iff.
  by setoid_rewrite In_sortBy.
Qed.

Lemma firstActiveDay_sorted tz data :
  data <> [] -> firstActiveDay tz (sortByTimestamp data) = firstActiveDay tz data.
Proof.
  intros Hne.
  assert (Hne' : sortByTimestamp data <> []).
  { intros E. apply (f_equal length) in E. unfold sortByTimestamp in E.
    rewrite length_sortBy in E. by destruct data. }
  destruct (firstActiveDay_spec tz _ Hne) as [H1 H2].
  destruct (firstActiveDay_spec tz _ Hne') as [H3 H4].
  apply (proj1 (activeDays_sorted _ _ _)) in H3. apply H2 in H3.
  apply (proj2 (activeDays_sorted _ _ _)) in H1. apply H4 in H1. lia.
Qed.

Lemma lastActiveDay_sorted tz data :
  data <> [] -> lastActiveDay tz (sortByTimestamp data) = lastActiveDay tz data.
Proof.
  intros Hne.
  assert (Hne' : sortByTimestamp data <> []).
  { intros E. apply (f_equal length) in E. unfold sortByTimestamp in E.
    rewrite length_sortBy in E. by destruct data. }
  destruct (lastActiveDay_spec tz _ Hne) as [H1 H2].
  destruct (lastActiveDay_spec tz _ Hne') as [H3 H4].
  apply (proj1 (activeDays_sorted _ _ _)) in H3. apply H2 in H3.
  apply (proj2 (activeDays_sorted _ _ _)) in H1. apply H4 in H1. lia.
Qed.

(** *** [daysBetween] on two midnights *)

Lemma daysBetween_midnights tz a b :
  daysBetween (localMidnight tz a) (localMidnight tz b) = Z.abs (a - b).
Proof.
  unfold daysBetween, localMidnight.
  replace (a * msPerDay - tz - (b * msPerDay - tz)) with ((a - b) * msPerDay) by lia.
  assert (E : (Qabs (Qmake ((a - b) * msPerDay) 1 / Qmake msPerDay 1) == Qmake (Z.abs (a - b)) 1)%Q).
  { change (Qmake (Z.abs (a - b)) 1) with (Qabs (Qmake (a - b) 1)).
    apply Qabs_wd. unfold Qeq, Qdiv, Qmult, Qinv, msPerDay. cbn [Qnum Qden]. lia. }
  unfold Math_round. rewrite (Qfloor_comp _ _ (Qplus_comp _ _ E _ _ (Qeq_refl _))).
  apply Math_round_int.
Qed.

(** *** The cumulative XP chart *)

(** For every zone, the labels of the cumulative XP chart are consecutive
    days, as many as there are from the first to the last active day; they
    start on the first active day moved by [utcOffset / msPerDay] days. *)
Lemma cumulativeXP_labels tz data :
  data <> [] ->
  labels (getCumulativeXPData tz (view data))
  = map Key (seqZ (firstActiveDay tz data + tz / msPerDay)
                  (lastActiveDay tz data - firstActiveDay tz data + 1))
  /\ Z.of_nat (length (labels (getCumulativeXPData tz (view data))))
     = daysBetween (localMidnight tz (firstActiveDay tz data))
                   (localMidnight tz (lastActiveDay tz data)) + 1.
Proof.
  intros Hne. unfold getCumulativeXPData. cbn [view calculatorData calculator ChartHelpers.data].
  assert (Hne' : sortByTimestamp data <> []).
  { intros E. apply (f_equal length) in E. unfold sortByTimestamp in E.
    rewrite length_sortBy in E. by destruct data. }
  destruct (Nat.eqb (length (sortByTimestamp data)) 0) eqn:E.
  { apply Nat.eqb_eq in E. by destruct (sortByTimestamp data). }
  destruct (groupActivitiesByDay_ends tz _ Hne') as (first & final & Hh & Hl & Hf & Hz).
  destruct (cumulativeSeries_spec tz Day.xp _ _ _ Hh Hl) as (t & -> & Hlab & _).
  cbn [orThrow]. rewrite Hlab, Hf, Hz, firstActiveDay_sorted, lastActiveDay_sorted by done.
  split; [done|].
  pose proof (firstActiveDay_le_last tz data Hne).
  rewrite length_map, length_seqZ, daysBetween_midnights. lia.
Qed.

Lemma cumulativeXP_labels_east tz data :
  data <> [] -> 0 <= tz < msPerDay ->
  labels (getCumulativeXPData tz (view data))
  = map Key (seqZ (firstActiveDay tz data)
                  (lastActiveDay tz data - firstActiveDay tz data + 1)).
Proof.
  intros Hne Htz. destruct (cumulativeXP_labels tz data Hne) as [-> _].
  rewrite Z.div_small by done. f_equal. f_equal. lia.
Qed.

Lemma cumulativeXP_labels_west tz data :
  data <> [] -> - msPerDay <= tz < 0 ->
  labels (getCumulativeXPData tz (view data))
  = map Key (seqZ (firstActiveDay tz data - 1)
                  (lastActiveDay tz data - firstActiveDay tz data + 1)).
Proof.
  intros Hne Htz. destruct (cumulativeXP_labels tz data Hne) as [-> _].
  f_equal. f_equal. unfold msPerDay in *.
  assert (tz / 86400000 = -1) by (symmetry; apply (Z.div_unique _ _ _ (tz + 86400000)); lia). lia.
Qed.

(** C4. Seen from a zone seven hours behind UTC, the cumulative XP chart
    of a log with one lesson, on the morning of 5 January 2026, has the
    single label 2026-01-04 and the single value 0: the range of labels
    starts one day before the first active day and ends one day before the
    last one, and the XP of the last active day is left out.
    ([cumulativeXP_labels] gives the labels for every zone.) *)
Theorem C4_cumulativeXP_west_of_UTC :
  firstActiveDay mountainTime [morningLesson] = daysFromCivil 2026 1 5
  /\ lastActiveDay mountainTime [morningLesson] = daysFromCivil 2026 1 5
  /\ labels (getCumulativeXPData mountainTime (view [morningLesson]))
     = [Key (daysFromCivil 2026 1 4)]
  /\ values (getCumulativeXPData mountainTime (view [morningLesson])) = [0].
Proof. repeat split; vm_compute; reflexivity. Qed.

(** *** Monotone cumulative charts *)

Lemma groupActivitiesByDay_In tz acts (f : Day.t -> Z) d :
  (forall d fl x y, f (withTransition d fl x y) = f d) ->
  In d (groupActivitiesByDay tz acts) ->
  exists k g, In (k, g) (dailyGroups tz acts) /\ f g = f d.
Proof.
  intros Hf Hin. apply (in_map f) in Hin. unfold groupActivitiesByDay in Hin.
  rewrite (markTransitions_map f Hf) in Hin.
  apply in_map_iff in Hin as (g & Hg & Hin). unfold sortedDays in Hin.
  apply In_sortBy in Hin. unfold Dict.values in Hin.
  apply in_map_iff in Hin as ([k g'] & <- & Hin). by exists k, g'.
Qed.

(** C5. When no record has a negative [earned], the values of the
    cumulative XP chart and those of the cumulative chart of the number of
    records never go down from one position to the next. *)
Theorem C5_cumulative_nondecreasing tz data :
  Forall (fun a => 0 <= earned a) data ->
  nondecreasing (values (getCumulativeXPData tz (view data)))
  /\ nondecreasing (values (getCumulativeActivitiesData tz (view data))).
Proof.
  intros Hpos. unfold getCumulativeXPData, getCumulativeActivitiesData.
  cbn [view calculatorData calculator ChartHelpers.data].
  destruct (Nat.eqb (length (sortByTimestamp data)) 0) eqn:E.
  { split; apply (ascending_nondecreasing 0); cbn; lia. }
  destruct (sortByTimestamp_nonempty _ E) as [Hne' Hne].
  destruct (groupActivitiesByDay_ends tz _ Hne') as (first & final & Hh & Hl & _).
  assert (Hpos' : Forall (fun a => 0 <= earned a) (sortByTimestamp data)).
  { rewrite List.Forall_forall in *. intros a Ha. apply Hpos. by apply In_sortBy in Ha. }
  split.
  - destruct (cumulativeSeries_spec tz Day.xp _ _ _ Hh Hl) as (t & -> & _ & _ & _ & Hmono).
    cbn [orThrow]. apply Hmono. intros d Hd.
    apply (groupActivitiesByDay_In tz _ Day.xp) in Hd as (k & g & Hg & <-); [|done].
    pose proof (dailyGroups_xp tz _ Hpos') as Hx. rewrite List.Forall_forall in Hx.
    apply (Hx _ Hg).
  - destruct (cumulativeSeries_spec tz (fun d => Z.of_nat (Day.count d)) _ _ _ Hh Hl)
      as (t & -> & _ & _ & _ & Hmono).
    cbn [orThrow]. apply Hmono. intros d _. lia.
Qed.

Lemma C5_cumulative_nondecreasing_witness :
  Forall (fun a => 0 <= earned a) twoCourseLog
  /\ values (getCumulativeXPData 0 (view twoCourseLog)) = [8; 8; 8; 76]
  /\ nondecreasing (values (getCumulativeXPData 0 (view twoCourseLog)))
  /\ nondecreasing (values (getCumulativeActivitiesData 0 (view twoCourseLog))).
Proof.
  assert (H : Forall (fun a => 0 <= earned a) twoCourseLog)
    by (repeat constructor; discriminate).
  split; [exact H|]. split; [vm_compute; reflexivity|].
  exact (C5_cumulative_nondecreasing 0 twoCourseLog H).
Defined.

(** *** Every series *)

Lemma placeholder_shaped tz stats ls vs :
  length ls = length vs -> wellShaped tz stats (placeholder ls vs).
Proof. intros H. split; [cbn; by rewrite length_map|]. by intros m k tr [=]. Qed.

Lemma cumulative_shaped tz stats data f :
  calculatorData stats = Some data -> sortByTimestamp data <> [] ->
  wellShaped tz stats (orThrow (cumulativeSeries tz f (groupActivitiesByDay tz (sortByTimestamp data)))).
Proof.
  intros Hd Hne.
  destruct (groupActivitiesByDay_ends tz _ Hne) as (first & final & Hh & Hl & _).
  destruct (cumulativeSeries_spec tz f _ _ _ Hh Hl) as (t & -> & _ & Hlen & Htr & _).
  cbn [orThrow]. split; [done|]. intros m k tr Hm Hk. rewrite Htr in Hm. injection Hm as <-.
  apply groupActivitiesByDay_transitions in Hk as (p & c & -> & H). by exists data, p, c.
Qed.

Lemma rolling_shaped tz stats data point :
  calculatorData stats = Some data ->
  wellShaped tz stats (rolling point (groupActivitiesByDay tz (sortByTimestamp data))).
Proof.
  intros Hd. destruct (rolling_shape point (groupActivitiesByDay tz (sortByTimestamp data)))
    as (Hl & Hv & Ht).
  split; [by rewrite Hl, Hv, length_map|].
  intros m k tr Hm Hk. rewrite Ht in Hm. injection Hm as <-.
  apply groupActivitiesByDay_transitions in Hk as (p & c & -> & H). by exists data, p, c.
Qed.

Lemma weekSeries_shaped now tz stats step : wellShaped tz stats (weekSeries now tz step).
Proof.
  destruct (weekSeries_shape now tz step) as (Hl & Hv & Ht).
  split; [by rewrite Hl, Hv, length_map|]. intros m k tr Hm. by rewrite Ht in Hm.
Qed.

Lemma noSeries_shaped tz stats : wellShaped tz stats noSeries.
Proof. split; [done|]. by intros m k tr [=]. Qed.

Lemma weekView_shaped now tz stats f c : wellShaped tz stats (weekView now tz f c stats).
Proof.
  unfold weekView. destruct (calculatorData stats) as [data|]; [|apply noSeries_shaped].
  destruct (Nat.eqb _ _); [apply noSeries_shaped|apply weekSeries_shaped].
Qed.

(** C8. Each of the nine series-building operations, on every argument,
    returns as many values as labels; and where it returns a map of
    transitions, each entry of the map is at a day of the grouped log whose
    first course differs from the first course of the latest earlier day
    that has one, and holds these two courses. *)
Theorem C8_series_well_shaped now tz stats :
  Forall (wellShaped tz stats) (allSeries now tz stats).
Proof.
  unfold allSeries.
  repeat apply Forall_cons_2; try apply Forall_nil_2; try apply weekView_shaped.
  - unfold getCumulativeXPData. destruct (calculatorData stats) as [data|] eqn:Hd;
      [|by apply placeholder_shaped].
    destruct (Nat.eqb _ _) eqn:E; [by apply placeholder_shaped|].
    apply cumulative_shaped; [done|]. exact (proj1 (sortByTimestamp_nonempty _ E)).
  - unfold getCumulativeActivitiesData. destruct (calculatorData stats) as [data|] eqn:Hd;
      [|by apply placeholder_shaped].
    destruct (Nat.eqb _ _) eqn:E; [by apply placeholder_shaped|].
    apply cumulative_shaped; [done|]. exact (proj1 (sortByTimestamp_nonempty _ E)).
  - unfold getAvgXPOverTimeData. destruct (calculatorData stats) as [data|] eqn:Hd;
      [|by apply placeholder_shaped].
    destruct (Nat.eqb _ _) eqn:E; [by apply placeholder_shaped|]. by apply rolling_shaped.
  - unfold getSuccessRateOverTimeData. destruct (calculatorData stats) as [data|] eqn:Hd;
      [|by apply placeholder_shaped].
    destruct (Nat.eqb _ _) eqn:E; [by apply placeholder_shaped|]. by apply rolling_shaped.
  - unfold getDailyAttainmentData. destruct (calculatorData stats) as [data|];
      [|apply noSeries_shaped].
    destruct (Nat.eqb _ _); [apply noSeries_shaped|apply weekSeries_shaped].
Qed.

(* ===================================================================== *)
(** ** Records grouped by day *)
(* ===================================================================== *)

(** *** Generic grouping *)

Lemma lookupDay_upsert {V} k k' i g (o : list (Z * V)) :
  lookupDay k (Dict.upsert k' i g o)
  = if k =? k' then Some (g (default i (lookupDay k o))) else lookupDay k o.
Proof.
  induction o as [|[k0 v] o IH]; cbn.
  - by destruct (k =? k').
  - destruct (k' =? k0) eqn:E0; cbn.
    + apply Z.eqb_eq in E0. subst k0. by destruct (k =? k').
    + rewrite IH. destruct (k =? k0) eqn:E1; [|done].
      apply Z.eqb_eq in E1. subst k0.
      destruct (k =? k') eqn:E; [|done]. apply Z.eqb_eq in E. subst.
      by rewrite Z.eqb_refl in E0.
Qed.

Lemma NoDup_upsert {V} k i g (o : list (Z * V)) :
  List.NoDup (map fst o) -> List.NoDup (map fst (Dict.upsert k i g o)).
Proof.
  induction o as [|[k0 v] o IH]; cbn; intros H.
  - constructor; [intros []|constructor].
  - destruct (k =? k0) eqn:E; cbn; [done|].
    inversion H as [|? ? Hn Hd]; subst. constructor; [|by apply IH].
    intros Hin. apply upsert_keys in Hin. destruct Hin as [->|Hin]; [|done].
    by rewrite Z.eqb_refl in E.
Qed.

Lemma lookupDay_In {V} k v (o : list (Z * V)) :
  List.NoDup (map fst o) -> In (k, v) o -> lookupDay k o = Some v.
Proof.
  induction o as [|[k0 v0] o IH]; cbn; [done|]. intros Hn [Heq|Hin].
  - inversion Heq; subst. by rewrite Z.eqb_refl.
  - inversion Hn as [|? ? Hn1 Hn2]; subst.
    destruct (k =? k0) eqn:E.
    + apply Z.eqb_eq in E. subst. exfalso. apply Hn1.
      change k0 with (fst (k0, v)). by apply in_map.
    + by apply IH.
Qed.

Lemma lookupDay_Some {V} k v (o : list (Z * V)) :
  lookupDay k o = Some v -> In (k, v) o.
Proof.
  induction o as [|[k0 v0] o IH]; cbn; [done|].
  destruct (k =? k0) eqn:E.
  - apply Z.eqb_eq in E. subst. intros [= ->]. by left.
  - intros H. right. by apply IH.
Qed.

Section GroupFold.
Context {V : Type} (key : Activity -> Z) (init : Activity -> V) (f : Activity -> V -> V).

Lemma gfold_NoDup acts : forall g0,
  List.NoDup (map fst g0) -> List.NoDup (map fst (fold_left (gstep key init f) acts g0)).
Proof.
  induction acts as [|a acts IH]; intros g0 H; cbn; [done|].
  apply IH. by apply NoDup_upsert.
Qed.

(** the group of key [k] is the fold of [f] over the records with that
    key, in their order, from the initial group of the first of them *)
Lemma gfold_lookup acts : forall g0 k,
  lookupDay k (fold_left (gstep key init f) acts g0)
  = match List.filter (fun a => key a =? k) acts with
    | [] => lookupDay k g0
    | a :: l => Some (fold_left (fun v a => f a v) (a :: l) (default (init a) (lookupDay k g0)))
    end.
Proof.
  induction acts as [|a acts IH]; intros g0 k; cbn [fold_left List.filter]; [done|].
  rewrite IH. unfold gstep. rewrite lookupDay_upsert.
  rewrite (Z.eqb_sym k (key a)).
  destruct (key a =? k) eqn:E.
  - cbn [default fold_left]. destruct (List.filter _ acts) as [|b l]; [done|].
    cbn [default fold_left]. done.
  - done.
Qed.

(** a statistic that every record adds to: its sum over the groups *)
Lemma upsert_sum (m : V -> Z) k i g e (o : list (Z * V)) :
  (forall v, m (g v) = m v + e) -> m i = 0 ->
  sumZ (map (fun kv => m (snd kv)) (Dict.upsert k i g o))
  = sumZ (map (fun kv => m (snd kv)) o) + e.
Proof.
  intros Hg Hi. induction o as [|[k0 v] o IH]; cbn.
  - rewrite Hg, Hi. lia.
  - destruct (k =? k0); cbn; [rewrite Hg|rewrite IH]; lia.
Qed.

Lemma gfold_sum (m : V -> Z) (w : Activity -> Z) :
  (forall a v, m (f a v) = m v + w a) -> (forall a, m (init a) = 0) ->
  forall acts g0,
  sumZ (map (fun kv => m (snd kv)) (fold_left (gstep key init f) acts g0))
  = sumZ (map (fun kv => m (snd kv)) g0) + sumZ (map w acts).
Proof.
  intros Hf Hi. induction acts as [|a acts IH]; intros g0; cbn [fold_left map sumZ]; [lia|].
  rewrite IH. unfold gstep. rewrite (upsert_sum m _ _ _ (w a)); [lia|apply Hf|apply Hi].
Qed.
Lemma gfold_length acts : forall g0,
  (length (fold_left (gstep key init f) acts g0) <= length g0 + length acts)%nat.
Proof.
  assert (Hu : forall k i g (o : list (Z * V)),
             (length (Dict.upsert k i g o) <= S (length o))%nat).
  { intros k i g o. induction o as [|[k0 v] o IH]; cbn; [lia|].
    destruct (k =? k0); cbn; lia. }
  induction acts as [|a acts IH]; intros g0; cbn [fold_left length]; [lia|].
  etransitivity; [apply IH|]. unfold gstep. specialize (Hu (key a) (init a) (f a) g0). lia.
Qed.

Lemma gfold_nonempty acts g0 :
  acts <> [] -> fold_left (gstep key init f) acts g0 <> [].
Proof.
  intros Ha H. assert (Hk : forall k, lookupDay k (fold_left (gstep key init f) acts g0) = None)
    by (intros k; by rewrite H).
  destruct acts as [|a acts]; [done|].
  specialize (Hk (key a)). rewrite gfold_lookup in Hk.
  cbn [List.filter] in Hk. rewrite Z.eqb_refl in Hk. done.
Qed.
End GroupFold.

Lemma calculateTotalXP_sum data : calculateTotalXP data = sumZ (map earned data).
Proof.
  unfold calculateTotalXP.
  assert (H : forall acc, fold_left (fun sum a => sum + earned a) data acc
                          = acc + sumZ (map earned data)).
  { induction data as [|a data IH]; intros acc; cbn; [lia|]. rewrite IH. lia. }
  rewrite H. lia.
Qed.

(** *** CalculateDailyStats *)

Lemma calculateDailyStats_gfold tz data :
  calculateDailyStats tz data
  = fold_left (gstep (fun a => localDay tz (timestamp a)) dayInit dayAdd) data [].
Proof. reflexivity. Qed.

Lemma dayAdd_fold l : forall d,
  let r := fold_left (fun v a => dayAdd a v) l d in
  DayStat.date r = DayStat.date d
  /\ DayStat.xp r = DayStat.xp d + sumZ (map earned l)
  /\ DayStat.earned r = DayStat.earned d + sumZ (map earned l)
  /\ DayStat.count r = (DayStat.count d + length l)%nat
  /\ DayStat.activities r = DayStat.activities d ++ l.
Proof.
  induction l as [|a l IH]; intros d; cbn -[Z.add].
  - rewrite app_nil_r. repeat split; lia.
  - destruct (IH (dayAdd a d)) as (H1 & H2 & H3 & H4 & H5).
    cbn in H1, H2, H3, H4, H5. rewrite H1, H2, H3, H4, H5, <- app_assoc.
    repeat split; cbn; lia.
Qed.

Lemma calculateDailyStats_NoDup tz data :
  List.NoDup (map fst (calculateDailyStats tz data)).
Proof. rewrite calculateDailyStats_gfold. apply gfold_NoDup. constructor. Qed.

Lemma calculateDailyStats_lookup tz data k :
  match onDay tz k data with
  | [] => lookupDay k (calculateDailyStats tz data) = None
  | first :: _ =>
      exists d, lookupDay k (calculateDailyStats tz data) = Some d
        /\ DayStat.date d = timestamp first
        /\ DayStat.activities d = onDay tz k data
        /\ DayStat.xp d = dayTotal tz data k
        /\ DayStat.earned d = dayTotal tz data k
        /\ DayStat.count d = length (onDay tz k data)
  end.
Proof.
  rewrite calculateDailyStats_gfold.
  rewrite gfold_lookup. unfold dayTotal, onDay.
  destruct (List.filter _ data) as [|a l] eqn:E; [done|].
  eexists. split; [done|]. cbn [lookupDay default].
  destruct (dayAdd_fold (a :: l) (dayInit a)) as (H1 & H2 & H3 & H4 & H5).
  cbn zeta in *. rewrite H1, H2, H3, H4, H5. cbn. repeat split; lia.
Qed.

(** X5. In the daily statistics no day occurs twice; a day without a
    record has no entry; and the entry of a day with records holds these
    records in the order of the log, their number, the sum of their XP
    (twice, as [xp] and as [earned]) and, as its date, the time stamp of
    the first of them. *)
Theorem X5_dailyStats_by_day tz data k :
  List.NoDup (map fst (calculateDailyStats tz data))
  /\ match onDay tz k data with
     | [] => lookupDay k (calculateDailyStats tz data) = None
     | first :: _ =>
         exists d, lookupDay k (calculateDailyStats tz data) = Some d
           /\ DayStat.date d = timestamp first
           /\ DayStat.activities d = onDay tz k data
           /\ DayStat.xp d = dayTotal tz data k
           /\ DayStat.earned d = dayTotal tz data k
           /\ DayStat.count d = length (onDay tz k data)
     end.
Proof. split; [apply calculateDailyStats_NoDup|apply calculateDailyStats_lookup]. Qed.


(** X6. The daily statistics hold every record once: the XP of the days
    add up to the total XP and their counts to the number of records;
    there are no more days than records, and there is no day exactly when
    there is no record. *)
Theorem X6_dailyStats_totals tz data :
  sumZ (map (fun kv => DayStat.xp (snd kv)) (calculateDailyStats tz data))
  = calculateTotalXP data
  /\ sumZ (map (fun kv => Z.of_nat (DayStat.count (snd kv))) (calculateDailyStats tz data))
     = Z.of_nat (length data)
  /\ (length (calculateDailyStats tz data) <= length data)%nat
  /\ (calculateDailyStats tz data = [] <-> data = []).
Proof.
  rewrite calculateDailyStats_gfold, calculateTotalXP_sum.
  split; [|split; [|split]].
  - rewrite (gfold_sum _ _ _ DayStat.xp earned); cbn; [lia|done|done].
  - rewrite (gfold_sum _ _ _ (fun d => Z.of_nat (DayStat.count d)) (fun _ => 1)); cbn.
    + induction data; cbn; lia.
    + intros; lia.
    + done.
  - apply (gfold_length _ _ _ data []).
  - split; [|by intros ->].
    intros H. destruct data as [|a data]; [done|].
    by apply gfold_nonempty in H.
Qed.

(** *** Sorting is a permutation *)

Lemma insertBy_Permutation {A} (key : A -> Z) x l :
  Permutation (Dict.insertBy key x l) (x :: l).
Proof.
  induction l as [|y l IH]; cbn; [done|].
  destruct (key x <=? key y); [done|]. rewrite IH. apply perm_swap.
Qed.

Lemma sortBy_Permutation {A} (key : A -> Z) l : Permutation (Dict.sortBy key l) l.
Proof.
  induction l as [|x l IH]; cbn; [done|]. rewrite insertBy_Permutation. by constructor.
Qed.

Lemma sumZ_Permutation l l' : Permutation l l' -> sumZ l = sumZ l'.
Proof. induction 1; cbn; lia. Qed.

Lemma filter_Permutation {A} (p : A -> bool) l l' :
  Permutation l l' -> Permutation (List.filter p l) (List.filter p l').
Proof.
  induction 1; cbn.
  - done.
  - destruct (p x); [by constructor|done].
  - destruct (p x), (p y); try done. apply perm_swap.
  - etransitivity; eauto.
Qed.

Lemma onDay_sorted tz k data :
  Permutation (onDay tz k (sortByTimestamp data)) (onDay tz k data).
Proof. apply filter_Permutation, sortBy_Permutation. Qed.

Lemma dayTotal_sorted tz k data :
  dayTotal tz (sortByTimestamp data) k = dayTotal tz data k.
Proof.
  unfold dayTotal. apply sumZ_Permutation, Permutation_map, onDay_sorted.
Qed.

(** *** GroupActivitiesByDay *)

Lemma markTransitions_In days : forall prev d,
  In d (markTransitions prev days) ->
  exists g fl x y, In g days /\ d = withTransition g fl x y.
Proof.
  induction days as [|g days IH]; intros prev d; cbn; [done|].
  destruct (Day.courses g) as [|c cs].
  - intros [<-|H]; [by eexists g, _, _, _; split; [left|]|].
    destruct (IH _ _ H) as (g' & fl & x & y & Hg & ->). eexists g', _, _, _. split; [by right|done].
  - intros [<-|H].
    + destruct prev as [p|]; [destruct (truthyS p && negb (String.eqb c p))|];
        (eexists g, _, _, _; split; [by left|done]).
    + destruct (IH _ _ H) as (g' & fl & x & y & Hg & ->). eexists g', _, _, _. split; [by right|done].
Qed.

Lemma groupStep_gstep tz :
  groupStep tz = gstep (fun a => localDay tz (timestamp a))
                       (fun a => emptyDay (localDay tz (timestamp a))) addToDay.
Proof. reflexivity. Qed.

Lemma addToDay_fold l : forall g,
  let r := fold_left (fun v a => addToDay a v) l g in
  Day.date r = Day.date g
  /\ Day.xp r = Day.xp g + sumZ (map earned l)
  /\ Day.count r = (Day.count g + length l)%nat
  /\ Day.totalEarned r = Day.totalEarned g + sumZ (map (fun a => fst (attainment a)) l)
  /\ Day.totalPossible r = Day.totalPossible g + sumZ (map possibleOfAggregator l).
Proof.
  induction l as [|a l IH]; intros g; cbn -[Z.add].
  - repeat split; lia.
  - destruct (IH (addToDay a g)) as (H1 & H2 & H3 & H4 & H5).
    cbn zeta in *. rewrite H1, H2, H3, H4, H5.
    unfold addToDay, possibleOfAggregator. destruct (attainment a) as [e p] eqn:E.
    cbn. destruct (Z.eqb_spec (earned a) 0); repeat split; lia.
Qed.

Lemma dailyGroups_lookup tz acts k g :
  In (k, g) (dailyGroups tz acts) ->
  let l := onDay tz k acts in
  l <> [] /\ Day.date g = k
  /\ Day.xp g = sumZ (map earned l)
  /\ Day.count g = length l
  /\ Day.totalEarned g = sumZ (map (fun a => fst (attainment a)) l)
  /\ Day.totalPossible g = sumZ (map possibleOfAggregator l).
Proof.
  intros Hin l. unfold dailyGroups in Hin. rewrite groupStep_gstep in Hin.
  apply lookupDay_In in Hin; [|apply gfold_NoDup; constructor].
  rewrite gfold_lookup in Hin. subst l. unfold onDay.
  destruct (List.filter _ acts) as [|a l] eqn:E; [done|].
  cbn [lookupDay default from_option id] in Hin. injection Hin as <-.
  destruct (addToDay_fold (a :: l) (emptyDay (localDay tz (timestamp a)))) as (H1 & H2 & H3 & H4 & H5).
  cbn zeta in *. cbn [fold_left] in H1, H2, H3, H4, H5. rewrite H1, H2, H3, H4, H5.
  assert (Ha : In a (List.filter (fun a => localDay tz (timestamp a) =? k) acts))
    by (rewrite E; by left).
  apply filter_In in Ha. destruct Ha as [_ Ha]. apply Z.eqb_eq in Ha.
  cbn. repeat split; try lia. done.
Qed.

Lemma sorted_strict {A} (key : A -> Z) l :
  StronglySorted (keyLe (fun d => dateOfKey (key d))) l -> List.NoDup (map key l) ->
  StronglySorted Z.lt (map key l).
Proof.
  induction 1 as [|x l Hs IH Hall]; cbn; intros Hn; [constructor|].
  inversion Hn as [|? ? Hx Hn']; subst. constructor; [by apply IH|].
  apply List.Forall_forall. intros y Hy. apply in_map_iff in Hy. destruct Hy as (d & <- & Hd).
  rewrite List.Forall_forall in Hall. specialize (Hall d Hd).
  unfold keyLe, dateOfKey, msPerDay in Hall.
  assert (key x <> key d) by (intros Heq; apply Hx; rewrite Heq; by apply in_map).
  lia.
Qed.

Lemma sortedDays_NoDup tz acts : List.NoDup (map Day.date (sortedDays tz acts)).
Proof.
  unfold sortedDays.
  eapply Permutation_NoDup; [symmetry; apply Permutation_map, sortBy_Permutation|].
  unfold Dict.values. rewrite map_map.
  rewrite (map_ext_in _ fst).
  - unfold dailyGroups. rewrite groupStep_gstep. apply gfold_NoDup. constructor.
  - intros kg Hin. pose proof (dailyGroups_date tz acts) as HF.
    rewrite List.Forall_forall in HF. by apply HF.
Qed.

Lemma groupActivitiesByDay_dates tz acts :
  map Day.date (groupActivitiesByDay tz acts) = map Day.date (sortedDays tz acts).
Proof. unfold groupActivitiesByDay. by apply markTransitions_map. Qed.

Lemma groupActivitiesByDay_sorted tz acts :
  StronglySorted Z.lt (map Day.date (groupActivitiesByDay tz acts)).
Proof.
  rewrite groupActivitiesByDay_dates. apply sorted_strict.
  - apply sortBy_sorted.
  - apply sortedDays_NoDup.
Qed.

Lemma groupActivitiesByDay_active tz acts k :
  In k (map Day.date (groupActivitiesByDay tz acts)) <-> onDay tz k acts <> [].
Proof.
  rewrite groupActivitiesByDay_dates, sortedDays_dates.
  unfold activeDays, onDay. rewrite in_map_iff. split.
  - intros (a & Ha & Hin) Hnil.
    assert (In a (List.filter (fun a => localDay tz (timestamp a) =? k) acts))
      by (apply filter_In; split; [done|by apply Z.eqb_eq]).
    rewrite Hnil in H. done.
  - intros Hne. destruct (List.filter _ acts) as [|a l] eqn:E; [done|].
    assert (Ha : In a (List.filter (fun a => localDay tz (timestamp a) =? k) acts))
      by (rewrite E; by left).
    apply filter_In in Ha. destruct Ha as [Ha Hk]. apply Z.eqb_eq in Hk. eauto.
Qed.

Lemma groupActivitiesByDay_sums tz acts :
  Forall (fun d =>
            let l := onDay tz (Day.date d) acts in
            Day.xp d = sumZ (map earned l)
            /\ Day.count d = length l /\ (0 < Day.count d)%nat
            /\ Day.totalEarned d = sumZ (map (fun a => fst (attainment a)) l)
            /\ Day.totalPossible d = sumZ (map possibleOfAggregator l))
         (groupActivitiesByDay tz acts).
Proof.
  apply List.Forall_forall. intros d Hd.
  apply markTransitions_In in Hd. destruct Hd as (g & fl & x & y & Hg & ->).
  unfold sortedDays in Hg. apply In_sortBy in Hg.
  unfold Dict.values in Hg. apply in_map_iff in Hg. destruct Hg as ([k g'] & <- & Hin).
  apply dailyGroups_lookup in Hin. cbn in Hin. destruct Hin as (Hne & Hk & H2 & H3 & H4 & H5).
  cbn. rewrite Hk, H2, H3, H4, H5. repeat split.
  destruct (onDay tz k acts); [done|cbn; lia].
Qed.

Lemma attainment_earned a : fst (attainment a) = earned a.
Proof. unfold attainment. destruct (isDiagnostic a); cbn [fst]; apply orElse_self. Qed.

(** X16. The days of the daily aggregate are in strictly ascending order,
    they are exactly the local days on which the log has a record, and
    each holds the sums over the records of its day: the XP, the number
    of records, which is positive, the XP earned and the XP possible. *)
Theorem X16_groupActivitiesByDay_days tz acts :
  let days := groupActivitiesByDay tz acts in
  StronglySorted Z.lt (map Day.date days)
  /\ (forall k, In k (map Day.date days) <-> onDay tz k acts <> [])
  /\ Forall (fun d =>
               let l := onDay tz (Day.date d) acts in
               Day.xp d = sumZ (map earned l)
               /\ Day.count d = length l /\ (0 < Day.count d)%nat
               /\ Day.totalEarned d = sumZ (map earned l)
               /\ Day.totalPossible d = sumZ (map possibleOfAggregator l)) days.
Proof.
  split; [apply groupActivitiesByDay_sorted|].
  split; [apply groupActivitiesByDay_active|].
  eapply Forall_impl; [apply groupActivitiesByDay_sums|].
  cbv beta zeta. intros d (H1 & H2 & H3 & H4 & H5).
  rewrite (map_ext _ earned) in H4 by apply attainment_earned. done.
Qed.

(* ===================================================================== *)
(** ** The lookup tables and the week view *)
(* ===================================================================== *)

(** *** The lookup tables *)

Lemma lookupOf_fold (f : Day.t -> Z) days : forall (m : gmap Z Z) k,
  List.NoDup (map Day.date days) ->
  fold_left (fun m day => <[Day.date day := f day]> m) days m !! k
  = match List.find (fun d => Day.date d =? k) days with
    | Some d => Some (f d)
    | None => m !! k
    end.
Proof.
  induction days as [|d days IH]; intros m k Hn; cbn [fold_left List.find]; [done|].
  inversion Hn as [|? ? Hd Hn']; subst. rewrite IH by done.
  destruct (Day.date d =? k) eqn:E.
  - apply Z.eqb_eq in E. subst k.
    destruct (List.find _ days) as [d'|] eqn:F.
    + apply find_some in F. destruct F as [F1 F2]. apply Z.eqb_eq in F2.
      exfalso. apply Hd. rewrite <- F2. by apply in_map.
    + by rewrite lookup_insert_eq.
  - apply Z.eqb_neq in E. destruct (List.find _ days); [done|].
    by rewrite lookup_insert_ne.
Qed.

Lemma lookupOf_groups tz acts (f : Day.t -> Z) (F : list Activity -> Z) k :
  F [] = 0 ->
  Forall (fun d => f d = F (onDay tz (Day.date d) acts)) (groupActivitiesByDay tz acts) ->
  orElse (lookupOf f (groupActivitiesByDay tz acts) !! k) 0 = F (onDay tz k acts).
Proof.
  intros H0 Hf. pose proof (groupActivitiesByDay_sorted tz acts) as Hs.
  pose proof (groupActivitiesByDay_active tz acts) as Hk.
  unfold lookupOf. rewrite lookupOf_fold.
  2:{ clear -Hs. induction Hs as [|x l Hs IH Hall]; constructor; [|done].
      intros Hin. rewrite List.Forall_forall in Hall. specialize (Hall _ Hin). lia. }
  destruct (List.find _ _) as [d|] eqn:E.
  - apply find_some in E. destruct E as [Hin E]. apply Z.eqb_eq in E. subst k.
    rewrite List.Forall_forall in Hf. rewrite (Hf d Hin).
    unfold orElse. destruct (Z.eqb_spec (F (onDay tz (Day.date d) acts)) 0); congruence.
  - rewrite lookup_empty. cbn.
    destruct (onDay tz k acts) eqn:Ho; [done|]. exfalso.
    assert (Hin : In k (map Day.date (groupActivitiesByDay tz acts))) by (apply Hk; by rewrite Ho).
    apply in_map_iff in Hin. destruct Hin as (d & Hd & Hin).
    eapply find_none in E; [|exact Hin]. cbn in E. apply Z.eqb_neq in E. done.
Qed.

Lemma lookup_xp tz acts k :
  orElse (lookupOf Day.xp (groupActivitiesByDay tz acts) !! k) 0 = dayTotal tz acts k.
Proof.
  apply (lookupOf_groups tz acts Day.xp (fun l => sumZ (map earned l))); [done|].
  eapply Forall_impl; [apply groupActivitiesByDay_sums|]. cbn. tauto.
Qed.

Lemma lookup_count tz acts k :
  orElse (lookupOf (fun d => Z.of_nat (Day.count d)) (groupActivitiesByDay tz acts) !! k) 0
  = Z.of_nat (length (onDay tz k acts)).
Proof.
  apply (lookupOf_groups tz acts _ (fun l => Z.of_nat (length l))); [done|].
  eapply Forall_impl; [apply groupActivitiesByDay_sums|]. cbn. intros d (_ & -> & _). done.
Qed.

(** *** The week view *)

Lemma localDay_addDays tz t i : localDay tz (addDays t i) = localDay tz t + i.
Proof.
  unfold localDay, addDays. replace (t + i * msPerDay + tz) with (t + tz + i * msPerDay) by lia.
  by rewrite Z.div_add.
Qed.

Lemma lastSevenDays_seq now tz : lastSevenDays now tz = seqZ (localDay tz now - 6) 7.
Proof.
  unfold lastSevenDays, toLocalDateString. cbn [map]. rewrite !localDay_addDays.
  change (seqZ (localDay tz now - 6) 7) with
    (map (fun i => Z.of_nat i + (localDay tz now - 6)) (seq 0 7)). cbn [seq map].
  repeat (apply (f_equal2 cons); [lia|]). done.
Qed.

Lemma weekSeries_daily now tz (g : Z -> Z) :
  values (weekSeries now tz (fun cumulative dateKey => (g dateKey, cumulative)))
  = map g (lastSevenDays now tz).
Proof.
  unfold weekSeries.
  assert (H : forall days ls vs (c : Z),
    let '(_, vs', _) :=
      fold_left (fun '(labels, values, cumulative) dateKey =>
                   let '(value, cumulative) := (g dateKey, cumulative) in
                   ((labels ++ [Key dateKey])%list, (values ++ [value])%list, cumulative))
                days (ls, vs, c) in
    vs' = (vs ++ map g days)%list).
  { induction days as [|k days IH]; intros ls vs c; cbn [fold_left].
    - by rewrite app_nil_r.
    - specialize (IH (ls ++ [Key k])%list (vs ++ [g k])%list c).
      destruct (fold_left _ days _) as [[ls' vs'] c''].
      rewrite IH, <- app_assoc. done. }
  specialize (H (lastSevenDays now tz) [] [] 0).
  destruct (fold_left _ _ _) as [[ls' vs'] c'']. by rewrite H.
Qed.

Lemma weekSeries_cumulative now tz (g : Z -> Z) :
  values (weekSeries now tz (fun cumulative dateKey =>
                               (cumulative + g dateKey, cumulative + g dateKey)))
  = prefixSums 0 (map g (lastSevenDays now tz)).
Proof.
  unfold weekSeries.
  assert (H : forall days ls vs (c : Z),
    let '(_, vs', _) :=
      fold_left (fun '(labels, values, cumulative) dateKey =>
                   let '(value, cumulative) := (cumulative + g dateKey, cumulative + g dateKey) in
                   ((labels ++ [Key dateKey])%list, (values ++ [value])%list, cumulative))
                days (ls, vs, c) in
    vs' = (vs ++ prefixSums c (map g days))%list).
  { induction days as [|k days IH]; intros ls vs c; cbn [fold_left].
    - by rewrite app_nil_r.
    - specialize (IH (ls ++ [Key k])%list (vs ++ [c + g k])%list (c + g k)).
      destruct (fold_left _ days _) as [[ls' vs'] c''].
      rewrite IH, <- app_assoc. done. }
  specialize (H (lastSevenDays now tz) [] [] 0).
  destruct (fold_left _ _ _) as [[ls' vs'] c'']. by rewrite H.
Qed.

Lemma weekView_nonempty now tz f c data :
  data <> [] ->
  weekView now tz f c (view data)
  = weekSeries now tz
      (fun cumulative dateKey =>
         let dayValue :=
           orElse (lookupOf f (groupActivitiesByDay tz (sortByTimestamp data)) !! dateKey) 0 in
         if c then (cumulative + dayValue, cumulative + dayValue) else (dayValue, cumulative)).
Proof.
  intros Hne. unfold weekView. cbn [view calculatorData calculator ChartHelpers.data].
  destruct (Nat.eqb (length (sortByTimestamp data)) 0) eqn:E; [|done].
  apply Nat.eqb_eq in E. unfold sortByTimestamp in E. rewrite length_sortBy in E.
  by destruct data.
Qed.

Lemma length_onDay_sorted tz k data :
  length (onDay tz k (sortByTimestamp data)) = length (onDay tz k data).
Proof. apply Permutation_length, onDay_sorted. Qed.

(** X21. For a log with a record, the charts of the week view have seven
    points, for the seven local days that end today; the daily charts
    show the XP, or the number of records, of each of these days (0 on a
    day without records), and the cumulative charts their running
    totals. *)
Theorem X21_weekView_values now tz data :
  data <> [] ->
  let days := seqZ (localDay tz now - 6) 7 in
  let count k := Z.of_nat (length (onDay tz k data)) in
  labels (getDailyXPData now tz (view data)) = map Key days
  /\ values (getDailyXPData now tz (view data)) = map (dayTotal tz data) days
  /\ values (getWeeklyCumulativeXPData now tz (view data))
     = prefixSums 0 (map (dayTotal tz data) days)
  /\ values (getDailyActivitiesData now tz (view data)) = map count days
  /\ values (getWeeklyCumulativeActivitiesData now tz (view data))
     = prefixSums 0 (map count days).
Proof.
  intros Hne days count. subst days count.
  unfold getDailyXPData, getWeeklyCumulativeXPData, getDailyActivitiesData,
    getWeeklyCumulativeActivitiesData.
  rewrite !weekView_nonempty by done. cbn zeta.
  rewrite <- lastSevenDays_seq.
  split; [apply weekSeries_shape|].
  rewrite !weekSeries_daily, !weekSeries_cumulative.
  rewrite (map_ext _ (dayTotal tz data))
    by (intros k; by rewrite lookup_xp, dayTotal_sorted).
  rewrite (map_ext (fun k => orElse (lookupOf (fun d => Z.of_nat (Day.count d))
                                       (groupActivitiesByDay tz (sortByTimestamp data)) !! k) 0)
                   (fun k => Z.of_nat (length (onDay tz k data))))
    by (intros k; by rewrite lookup_count, length_onDay_sorted).
  done.
Qed.

(* ===================================================================== *)
(** ** The values of the cumulative charts *)
(* ===================================================================== *)

(** *** Sums over a range of days *)

Ltac zbool :=
  repeat match goal with
         | |- context [?a <=? ?b] => destruct (Z.leb_spec a b)
         | |- context [?a <? ?b] => destruct (Z.ltb_spec a b)
         | |- context [?a =? ?b] => destruct (Z.eqb_spec a b)
         end; cbn [andb orb negb]; try lia; try done.

Lemma sumZ_map_add {A} (f g : A -> Z) l :
  sumZ (map (fun x => f x + g x) l) = sumZ (map f l) + sumZ (map g l).
Proof. induction l; cbn; lia. Qed.

Lemma indicator_sum d e : forall (n : nat) lo,
  sumZ (map (fun k => if d =? k then e else 0) (seqZ lo (Z.of_nat n)))
  = if (lo <=? d) && (d <? lo + Z.of_nat n) then e else 0.
Proof.
  induction n as [|n IH]; intros lo.
  - cbn [Z.of_nat seqZ]. rewrite seqZ_nil by lia. cbn. zbool.
  - rewrite seqZ_cons by lia. cbn [map sumZ].
    replace (Z.pred (Z.of_nat (S n))) with (Z.of_nat n) by lia. rewrite IH.
    zbool.
Qed.

Lemma sum_over_days tz (w : Activity -> Z) lo n acts :
  0 <= n ->
  sumZ (map (fun k => sumZ (map w (onDay tz k acts))) (seqZ lo n))
  = sumZ (map w (inDays tz lo n acts)).
Proof.
  intros Hn. induction acts as [|a acts IH].
  - cbn. induction (seqZ lo n); cbn; lia.
  - rewrite (map_ext _ (fun k => (if localDay tz (timestamp a) =? k then w a else 0)
                                 + sumZ (map w (onDay tz k acts)))).
    2:{ intros k. unfold onDay. cbn [List.filter].
        destruct (localDay tz (timestamp a) =? k); cbn; lia. }
    rewrite sumZ_map_add, IH. rewrite <- (Z2Nat.id n) at 1 by done.
    rewrite indicator_sum, Z2Nat.id by done.
    unfold inDays. cbn [List.filter]. destruct (_ && _); cbn; lia.
Qed.

Lemma inDays_all tz lo n acts :
  Forall (fun a => lo <= localDay tz (timestamp a) < lo + n) acts ->
  inDays tz lo n acts = acts.
Proof.
  induction 1 as [|a acts Ha _ IH]; [done|]. unfold inDays in *. cbn [List.filter].
  rewrite IH. zbool.
Qed.

Lemma activeDays_range tz acts :
  Forall (fun a => firstActiveDay tz acts <= localDay tz (timestamp a)
                   < firstActiveDay tz acts + (lastActiveDay tz acts - firstActiveDay tz acts + 1))
         acts.
Proof.
  destruct acts as [|a0 acts0]; [constructor|]. set (acts := a0 :: acts0).
  assert (Hne : acts <> []) by done.
  destruct (firstActiveDay_spec tz acts Hne) as [_ Hf].
  destruct (lastActiveDay_spec tz acts Hne) as [_ Hl].
  apply List.Forall_forall. intros a Ha.
  assert (Hin : In (localDay tz (timestamp a)) (activeDays tz acts))
    by (unfold activeDays; apply in_map_iff; eauto).
  specialize (Hf _ Hin). specialize (Hl _ Hin). lia.
Qed.

Lemma last_prefixSums l : forall acc, l <> [] -> last (prefixSums acc l) = Some (acc + sumZ l).
Proof.
  induction l as [|x l IH]; intros acc Hne; [done|]. cbn [prefixSums sumZ].
  destruct l as [|y l]; [cbn; f_equal; lia|].
  change (last (acc + x :: prefixSums (acc + x) (y :: l)))
    with (last (prefixSums (acc + x) (y :: l))).
  rewrite IH by done. f_equal. cbn. lia.
Qed.

(** *** The cumulative charts *)

Lemma cumulate_values tz lookup k1 : forall n k0 acc,
  map snd (cumulate tz lookup n (localMidnight tz k0) (localMidnight tz k1) acc)
  = prefixSums acc (map (fun k => orElse (lookup !! k) 0)
                        (seqZ k0 (Z.min (Z.of_nat n) (k1 - k0 + 1)))).
Proof.
  induction n as [|n IH]; intros k0 acc; cbn [cumulate].
  - rewrite seqZ_nil; [done|lia].
  - destruct (localMidnight tz k0 <=? localMidnight tz k1) eqn:E.
    + apply Z.leb_le in E. unfold localMidnight, msPerDay in E.
      cbn [map snd]. unfold toLocalDateString. rewrite localDay_localMidnight.
      rewrite addDays_localMidnight, IH.
      rewrite (seqZ_cons k0) by lia. cbn [map prefixSums]. f_equal.
      f_equal. f_equal. f_equal; lia.
    + apply Z.leb_gt in E. unfold localMidnight, msPerDay in E.
      rewrite seqZ_nil; [done|lia].
Qed.

Lemma cumulativeSeries_values tz f days first final :
  head days = Some first -> last days = Some final ->
  values (orThrow (cumulativeSeries tz f days))
  = prefixSums 0 (map (fun k => orElse (lookupOf f days !! k) 0)
                      (seqZ (Day.date first + tz / msPerDay)
                            (Day.date final - Day.date first + 1))).
Proof.
  intros Hh Hl. unfold cumulativeSeries. rewrite Hh, Hl. cbn [orThrow values].
  unfold setHours0. rewrite !localDay_dateOfKey, rounds_localMidnight, cumulate_values.
  f_equal. f_equal. f_equal. lia.
Qed.

Lemma cumulative_nonempty tz f data :
  data <> [] ->
  exists first final,
    head (groupActivitiesByDay tz (sortByTimestamp data)) = Some first
    /\ last (groupActivitiesByDay tz (sortByTimestamp data)) = Some final
    /\ Day.date first = firstActiveDay tz data
    /\ Day.date final = lastActiveDay tz data
    /\ (match calculatorData (view data) with
        | None => placeholder [] []
        | Some data =>
            let activities := sortByTimestamp data in
            if Nat.eqb (length activities) 0 then placeholder [] []
            else orThrow (cumulativeSeries tz f (groupActivitiesByDay tz activities))
        end) = orThrow (cumulativeSeries tz f (groupActivitiesByDay tz (sortByTimestamp data))).
Proof.
  intros Hne. cbn [view calculatorData calculator ChartHelpers.data].
  assert (Hne' : sortByTimestamp data <> []).
  { intros E. apply (f_equal length) in E. unfold sortByTimestamp in E.
    rewrite length_sortBy in E. by destruct data. }
  destruct (groupActivitiesByDay_ends tz _ Hne') as (first & final & Hh & Hl & Hf & Hz).
  exists first, final. rewrite firstActiveDay_sorted in Hf by done.
  rewrite lastActiveDay_sorted in Hz by done. repeat split; try done.
  cbn zeta. destruct (Nat.eqb (length (sortByTimestamp data)) 0) eqn:E; [|done].
  apply Nat.eqb_eq in E. by destruct (sortByTimestamp data).
Qed.

Lemma cumulativeXP_values_aux tz data :
  data <> [] ->
  values (getCumulativeXPData tz (view data))
  = prefixSums 0 (map (dayTotal tz data)
                      (seqZ (firstActiveDay tz data + tz / msPerDay)
                            (lastActiveDay tz data - firstActiveDay tz data + 1))).
Proof.
  intros Hne. destruct (cumulative_nonempty tz Day.xp data Hne) as (first & final & Hh & Hl & Hf & Hz & _).
  unfold getCumulativeXPData. cbn [view calculatorData calculator ChartHelpers.data].
  destruct (Nat.eqb (length (sortByTimestamp data)) 0) eqn:E.
  { apply Nat.eqb_eq in E. unfold sortByTimestamp in E. rewrite length_sortBy in E. by destruct data. }
  rewrite (cumulativeSeries_values tz Day.xp _ first final Hh Hl), Hf, Hz.
  f_equal. apply map_ext. intros k. by rewrite lookup_xp, dayTotal_sorted.
Qed.

Lemma cumulativeActivities_values_aux tz data :
  data <> [] ->
  values (getCumulativeActivitiesData tz (view data))
  = prefixSums 0 (map (fun k => Z.of_nat (length (onDay tz k data)))
                      (seqZ (firstActiveDay tz data + tz / msPerDay)
                            (lastActiveDay tz data - firstActiveDay tz data + 1))).
Proof.
  intros Hne.
  destruct (cumulative_nonempty tz Day.xp data Hne) as (first & final & Hh & Hl & Hf & Hz & _).
  unfold getCumulativeActivitiesData. cbn [view calculatorData calculator ChartHelpers.data].
  destruct (Nat.eqb (length (sortByTimestamp data)) 0) eqn:E.
  { apply Nat.eqb_eq in E. unfold sortByTimestamp in E. rewrite length_sortBy in E. by destruct data. }
  rewrite (cumulativeSeries_values tz _ _ first final Hh Hl), Hf, Hz.
  f_equal. apply map_ext. intros k. by rewrite lookup_count, length_onDay_sorted.
Qed.

(** X18. In every zone, the cumulative charts of a log with a record have
    one point for each of the days from the first active day, moved by
    [utcOffset / msPerDay] days, over as many days as there are from the
    first to the last active day; the values are the running totals, over
    these days, of the XP of each day, or of its number of records. *)
Theorem X18_cumulative_values tz data :
  data <> [] ->
  let days := seqZ (firstActiveDay tz data + tz / msPerDay)
                   (lastActiveDay tz data - firstActiveDay tz data + 1) in
  labels (getCumulativeXPData tz (view data)) = map Key days
  /\ values (getCumulativeXPData tz (view data)) = prefixSums 0 (map (dayTotal tz data) days)
  /\ values (getCumulativeActivitiesData tz (view data))
     = prefixSums 0 (map (fun k => Z.of_nat (length (onDay tz k data))) days).
Proof.
  intros Hne days. subst days. split; [by apply cumulativeXP_labels|].
  split; [by apply cumulativeXP_values_aux|by apply cumulativeActivities_values_aux].
Qed.

Lemma range_nonempty tz data (g : Z -> Z) :
  data <> [] ->
  map g (seqZ (firstActiveDay tz data) (lastActiveDay tz data - firstActiveDay tz data + 1)) <> [].
Proof.
  intros Hne. pose proof (firstActiveDay_le_last tz data Hne).
  rewrite seqZ_cons by lia. done.
Qed.

Lemma sumZ_ones {A} (l : list A) : sumZ (map (fun _ => 1) l) = Z.of_nat (length l).
Proof. induction l; cbn [map sumZ length]; lia. Qed.

Lemma cumulative_ends tz data :
  data <> [] -> 0 <= tz < msPerDay ->
  last (values (getCumulativeXPData tz (view data))) = Some (calculateTotalXP data)
  /\ last (values (getCumulativeActivitiesData tz (view data)))
     = Some (Z.of_nat (length data)).
Proof.
  intros Hne Htz. pose proof (firstActiveDay_le_last tz data Hne) as Hle.
  rewrite cumulativeXP_values_aux, cumulativeActivities_values_aux by done.
  rewrite Z.div_small, Z.add_0_r by done.
  rewrite !last_prefixSums by (by apply range_nonempty).
  unfold dayTotal. rewrite (sum_over_days tz earned) by lia.
  rewrite (map_ext (fun k => Z.of_nat (length (onDay tz k data)))
                   (fun k => sumZ (map (fun _ => 1) (onDay tz k data))))
    by (intros k; by rewrite sumZ_ones).
  rewrite (sum_over_days tz (fun _ => 1)) by lia.
  rewrite inDays_all by apply activeDays_range.
  rewrite calculateTotalXP_sum, sumZ_ones. done.
Qed.

(** X19. At and east of UTC (an offset of 0 to less than a day), the
    cumulative XP chart of a log with a record ends at the total XP, and
    the cumulative chart of activities at the number of records. *)
Theorem X19_cumulative_totals_east tz data :
  data <> [] -> 0 <= tz < msPerDay ->
  last (values (getCumulativeXPData tz (view data))) = Some (calculateTotalXP data)
  /\ last (values (getCumulativeActivitiesData tz (view data)))
     = Some (Z.of_nat (length data)).
Proof. apply cumulative_ends. Qed.

Lemma X19_cumulative_totals_east_witness :
  twoCourseLog <> [] /\ 0 <= 0 < msPerDay
  /\ last (values (getCumulativeXPData 0 (view twoCourseLog))) = Some 76
  /\ last (values (getCumulativeActivitiesData 0 (view twoCourseLog))) = Some 3.
Proof.
  split; [discriminate|]. split; [unfold msPerDay; lia|].
  apply (X19_cumulative_totals_east 0 twoCourseLog); [discriminate|unfold msPerDay; lia].
Defined.

Lemma inDays_but_last tz (w : Activity -> Z) lo hi acts :
  Forall (fun a => lo <= localDay tz (timestamp a) <= hi) acts ->
  sumZ (map w (inDays tz (lo - 1) (hi - lo + 1) acts)) + sumZ (map w (onDay tz hi acts))
  = sumZ (map w acts).
Proof.
  induction 1 as [|a acts Ha _ IH]; [done|]. unfold inDays, onDay in *. cbn [List.filter].
  zbool; cbn [map sumZ]; lia.
Qed.

Lemma activeDays_bounds tz acts :
  Forall (fun a => firstActiveDay tz acts <= localDay tz (timestamp a) <= lastActiveDay tz acts)
         acts.
Proof.
  eapply Forall_impl; [apply (activeDays_range tz)|]. intros a Ha. cbv beta in *. lia.
Qed.

(** X20. West of UTC (an offset of less than 0, down to a day), the
    cumulative XP chart of a log with a record ends at the total XP less
    the XP of the last active day, and the cumulative chart of activities
    at the number of records less those of the last active day. *)
Theorem X20_cumulative_totals_west tz data :
  data <> [] -> - msPerDay <= tz < 0 ->
  last (values (getCumulativeXPData tz (view data)))
  = Some (calculateTotalXP data - dayTotal tz data (lastActiveDay tz data))
  /\ last (values (getCumulativeActivitiesData tz (view data)))
     = Some (Z.of_nat (length data)
             - Z.of_nat (length (onDay tz (lastActiveDay tz data) data))).
Proof.
  intros Hne Htz. pose proof (firstActiveDay_le_last tz data Hne) as Hle.
  rewrite cumulativeXP_values_aux, cumulativeActivities_values_aux by done.
  assert (Hdiv : tz / msPerDay = -1).
  { clear -Htz. unfold msPerDay in *. symmetry. apply Z.div_unique with (r := tz + 86400000). all: lia. }
  rewrite Hdiv.
  replace (firstActiveDay tz data + -1) with (firstActiveDay tz data - 1) by lia.
  rewrite !last_prefixSums by (rewrite seqZ_cons by lia; done).
  unfold dayTotal. rewrite (sum_over_days tz earned) by lia.
  rewrite (map_ext (fun k => Z.of_nat (length (onDay tz k data)))
                   (fun k => sumZ (map (fun _ => 1) (onDay tz k data))))
    by (intros k; by rewrite sumZ_ones).
  rewrite (sum_over_days tz (fun _ => 1)) by lia.
  pose proof (inDays_but_last tz earned _ _ _ (activeDays_bounds tz data)) as H1.
  pose proof (inDays_but_last tz (fun _ => 1) _ _ _ (activeDays_bounds tz data)) as H2.
  rewrite !sumZ_ones in H2. rewrite calculateTotalXP_sum.
  rewrite sumZ_ones. split; f_equal; lia.
Qed.

Lemma X20_cumulative_totals_west_witness :
  [morningLesson] <> [] /\ - msPerDay <= mountainTime < 0
  /\ last (values (getCumulativeXPData mountainTime (view [morningLesson]))) = Some 0
  /\ last (values (getCumulativeActivitiesData mountainTime (view [morningLesson]))) = Some 0.
Proof.
  split; [discriminate|]. split; [unfold msPerDay, mountainTime, msPerHour; lia|].
  apply (X20_cumulative_totals_west mountainTime [morningLesson]);
    [discriminate|unfold msPerDay, mountainTime, msPerHour; lia].
Defined.

Lemma X18_cumulative_values_witness :
  twoCourseLog <> []
  /\ labels (getCumulativeXPData 0 (view twoCourseLog))
     = map Key (seqZ (daysFromCivil 2026 1 5) 4)
  /\ values (getCumulativeXPData 0 (view twoCourseLog)) = [8; 8; 8; 76]
  /\ values (getCumulativeActivitiesData 0 (view twoCourseLog)) = [1; 1; 1; 3].
Proof.
  split; [discriminate|].
  apply (X18_cumulative_values 0 twoCourseLog). discriminate.
Defined.

(* ===================================================================== *)
(** ** The chart helpers that name days in UTC *)
(* ===================================================================== *)

(** *** The earlier chart helpers *)

Lemma isoDate_localDay t : LegacyChartHelpers.isoDate t = localDay 0 t.
Proof. unfold LegacyChartHelpers.isoDate, localDay. by rewrite Z.add_0_r. Qed.

Lemma legacy_groups acts : forall g0,
  fold_left LegacyChartHelpers.groupStep acts g0 = fold_left (groupStep 0) acts g0.
Proof.
  induction acts as [|a acts IH]; intros g0; cbn [fold_left]; [done|].
  rewrite IH. f_equal. unfold LegacyChartHelpers.groupStep, groupStep, toLocalDateString.
  by rewrite isoDate_localDay.
Qed.

Lemma legacy_groupActivitiesByDay acts :
  LegacyChartHelpers.groupActivitiesByDay acts = groupActivitiesByDay 0 acts.
Proof.
  unfold LegacyChartHelpers.groupActivitiesByDay, groupActivitiesByDay,
    LegacyChartHelpers.sortedDays, sortedDays, LegacyChartHelpers.dailyGroups, dailyGroups.
  by rewrite legacy_groups.
Qed.

(** under a fixed offset every local day lasts 24 hours *)
Lemma setDatePlus_addDays tz t k : setDatePlus tz t k = addDays t k.
Proof.
  unfold setDatePlus, addDays, localMidnight, localDay.
  pose proof (Z.div_mod (t + tz) msPerDay ltac:(unfold msPerDay; lia)). lia.
Qed.

Lemma legacy_cumulate tz lookup : forall n cur final acc,
  LegacyChartHelpers.cumulate tz lookup n cur final acc = cumulate 0 lookup n cur final acc.
Proof.
  induction n as [|n IH]; intros cur final acc; cbn [LegacyChartHelpers.cumulate cumulate]; [done|].
  destruct (cur <=? final); [|done]. unfold toLocalDateString.
  by rewrite setDatePlus_addDays, IH, isoDate_localDay.
Qed.

Lemma setHours0_UTC k : setHours0 0 (dateOfKey k) = dateOfKey k.
Proof.
  unfold setHours0, localMidnight, localDay, dateOfKey.
  rewrite Z.add_0_r, Z.sub_0_r, Z.div_mul; [done|unfold msPerDay; lia].
Qed.

Lemma legacy_cumulativeSeries tz f days :
  LegacyChartHelpers.cumulativeSeries tz f days = cumulativeSeries 0 f days.
Proof.
  unfold LegacyChartHelpers.cumulativeSeries, cumulativeSeries.
  destruct (head days) as [first|]; [|done]. destruct (last days) as [final|]; [|done].
  by rewrite !setHours0_UTC, legacy_cumulate.
Qed.

Lemma legacy_getCumulativeXPData tz stats :
  LegacyChartHelpers.getCumulativeXPData tz stats = getCumulativeXPData 0 stats.
Proof.
  unfold LegacyChartHelpers.getCumulativeXPData, getCumulativeXPData.
  destruct (calculatorData stats) as [data|]; [|done].
  destruct (Nat.eqb _ _); [done|].
  by rewrite legacy_groupActivitiesByDay, legacy_cumulativeSeries.
Qed.

Lemma legacy_getCumulativeActivitiesData tz stats :
  LegacyChartHelpers.getCumulativeActivitiesData tz stats = getCumulativeActivitiesData 0 stats.
Proof.
  unfold LegacyChartHelpers.getCumulativeActivitiesData, getCumulativeActivitiesData.
  destruct (calculatorData stats) as [data|]; [|done].
  destruct (Nat.eqb _ _); [done|].
  by rewrite legacy_groupActivitiesByDay, legacy_cumulativeSeries.
Qed.

(** X26. The chart helpers of [src/js/chart-helpers.js] name the days by
    [toISOString], in UTC.  Their daily aggregate reads no local time: it
    is the aggregate of the later helpers in a zone without offset.
    Their cumulative charts step from day to day with [setDate], on
    local time: in a zone with a fixed UTC offset, where that step is one
    of 24 hours, they are, whatever the offset, the cumulative charts of
    the later helpers in a zone without offset. *)
Theorem X26_legacy_helpers_in_UTC :
  (forall acts, LegacyChartHelpers.groupActivitiesByDay acts = groupActivitiesByDay 0 acts)
  /\ (forall tz t k, setDatePlus tz t k = t + k * msPerDay)
  /\ (forall tz stats,
        LegacyChartHelpers.getCumulativeXPData tz stats = getCumulativeXPData 0 stats)
  /\ (forall tz stats,
        LegacyChartHelpers.getCumulativeActivitiesData tz stats
        = getCumulativeActivitiesData 0 stats).
Proof.
  split; [apply legacy_groupActivitiesByDay|].
  split; [apply setDatePlus_addDays|].
  split; [apply legacy_getCumulativeXPData|apply legacy_getCumulativeActivitiesData].
Qed.

(** X27. In a zone with a fixed UTC offset, whatever the offset, the
    cumulative XP chart of [src/js/chart-helpers.js], for a log with a
    record, runs from the first to the last day, in UTC, on which the log
    has a record, with no day left out, and ends at the total XP; its
    chart of activities ends at the number of records. *)
Theorem X27_legacy_cumulativeXP tz data :
  data <> [] ->
  labels (LegacyChartHelpers.getCumulativeXPData tz (view data))
  = map Key (seqZ (firstActiveDay 0 data) (lastActiveDay 0 data - firstActiveDay 0 data + 1))
  /\ last (values (LegacyChartHelpers.getCumulativeXPData tz (view data)))
     = Some (calculateTotalXP data)
  /\ last (values (LegacyChartHelpers.getCumulativeActivitiesData tz (view data)))
     = Some (Z.of_nat (length data)).
Proof.
  intros Hne. rewrite legacy_getCumulativeXPData, legacy_getCumulativeActivitiesData.
  assert (Htz : 0 <= 0 < msPerDay) by (unfold msPerDay; lia).
  split; [by apply cumulativeXP_labels_east|by apply cumulative_ends].
Qed.

(* ===================================================================== *)
(** ** The calendar and the periods *)
(* ===================================================================== *)

(** *** The calendar *)

Lemma civil_roundtrip n :
  let '(y, m, d) := civilFromDays n in
  daysFromCivil y m d = n /\ 1 <= m <= 12 /\ 1 <= d <= 31.
Proof.
  unfold civilFromDays, daysFromCivil.
  set (z := n + 719468).
  set (era := z / 146097). set (doe := z - era * 146097).
  assert (Hdoe : 0 <= doe < 146097).
  { subst doe era. pose proof (Z.div_mod z 146097). pose proof (Z.mod_pos_bound z 146097). lia. }
  assert (Hz : n = era * 146097 + doe - 719468) by (subst doe z; lia).
  clearbody doe era. clear z.
  set (yoe := (doe - doe / 1460 + doe / 36524 - doe / 146096) / 365).
  assert (Hyoe : 0 <= yoe <= 399 /\ 0 <= doe - (365 * yoe + yoe / 4 - yoe / 100) <= 365).
  { subst yoe. Z.div_mod_to_equations; lia. }
  clearbody yoe.
  set (doy := doe - (365 * yoe + yoe / 4 - yoe / 100)) in *.
  assert (Hdoe' : doe = doy + 365 * yoe + yoe / 4 - yoe / 100) by (subst doy; lia).
  clearbody doy.
  set (mp := (5 * doy + 2) / 153).
  assert (Hmp : 0 <= mp <= 11) by (subst mp; Z.div_mod_to_equations; lia).
  destruct (mp <? 10) eqn:E1.
  - apply Z.ltb_lt in E1.
    replace (mp + 3 <=? 2) with false by (symmetry; apply Z.leb_gt; lia).
    replace (yoe + era * 400 + 0) with (yoe + era * 400) by lia.
    replace (mp + 3 - 3) with mp by lia.
    replace ((yoe + era * 400) / 400) with era by (Z.div_mod_to_equations; lia).
    subst mp. repeat split; Z.div_mod_to_equations; lia.
  - apply Z.ltb_ge in E1.
    replace (mp - 9 <=? 2) with true by (symmetry; apply Z.leb_le; lia).
    replace (mp - 9 + 9) with mp by lia.
    replace (yoe + era * 400 + 1 - 1) with (yoe + era * 400) by lia.
    replace ((yoe + era * 400) / 400) with era by (Z.div_mod_to_equations; lia).
    subst mp. repeat split; Z.div_mod_to_equations; lia.
Qed.

Lemma daysFromCivil_day y m d : daysFromCivil y m 1 + (d - 1) = daysFromCivil y m d.
Proof. unfold daysFromCivil. cbv zeta. lia. Qed.

Lemma year_since_1970 n : 0 <= n -> 1970 <= fst (fst (civilFromDays n)).
Proof.
  intros Hn. pose proof (civil_roundtrip n) as H.
  destruct (civilFromDays n) as [[y m] d]. destruct H as (H & Hm & Hd). cbn [fst].
  destruct (Z.le_gt_cases 1970 y) as [|Hy]; [done|]. exfalso.
  subst n. unfold daysFromCivil in Hn. cbv zeta in Hn.
  destruct (m <=? 2) eqn:E; [apply Z.leb_le in E|apply Z.leb_gt in E];
    revert Hn; Z.div_mod_to_equations; lia.
Qed.

Lemma localMidnight_le tz k t : localMidnight tz k <= t <-> k <= localDay tz t.
Proof.
  unfold localMidnight, localDay, msPerDay. split; intros H.
  - apply Z.div_le_lower_bound; lia.
  - pose proof (Z.div_mod (t + tz) 86400000). pose proof (Z.mod_pos_bound (t + tz) 86400000). lia.
Qed.

Lemma localMidnight_leb tz k t : (localMidnight tz k <=? t) = (k <=? localDay tz t).
Proof.
  destruct (Z.leb_spec (localMidnight tz k) t) as [H|H], (Z.leb_spec k (localDay tz t)) as [H'|H'];
    try done.
  - apply localMidnight_le in H. lia.
  - apply localMidnight_le in H'. lia.
Qed.

(** *** FilterByPeriod *)

Lemma startDate_today now tz :
  0 <= localDay tz now ->
  startDate now tz "today" = Some (localMidnight tz (localDay tz now)).
Proof.
  intros H. unfold startDate, newDate, yearOf, monthOf, dateOf. cbn [String.eqb Ascii.eqb Bool.eqb].
  pose proof (year_since_1970 _ H) as Hy. pose proof (civil_roundtrip (localDay tz now)) as Hr.
  destruct (civilFromDays (localDay tz now)) as [[y m] d]. cbn [fst snd] in *.
  destruct Hr as (Hr & _).
  replace ((0 <=? y) && (y <=? 99)) with false by (symmetry; zbool).
  by rewrite daysFromCivil_day, Hr.
Qed.

Lemma startDate_month now tz :
  0 <= localDay tz now ->
  startDate now tz "month"
  = Some (localMidnight tz (localDay tz now - (dateOf tz now - 1)))
  /\ 1 <= dateOf tz now <= 31.
Proof.
  intros H. unfold startDate, newDate, yearOf, monthOf, dateOf. cbn [String.eqb Ascii.eqb Bool.eqb].
  pose proof (year_since_1970 _ H) as Hy. pose proof (civil_roundtrip (localDay tz now)) as Hr.
  destruct (civilFromDays (localDay tz now)) as [[y m] d]. cbn [fst snd] in *.
  destruct Hr as (Hr & _ & Hd). split; [|done].
  replace ((0 <=? y) && (y <=? 99)) with false by (symmetry; zbool).
  rewrite <- Hr, <- (daysFromCivil_day y m d). do 2 f_equal. lia.
Qed.

Lemma filter_filter_same {A} (p : A -> bool) l :
  List.filter p (List.filter p l) = List.filter p l.
Proof.
  induction l as [|x l IH]; cbn; [done|]. destruct (p x) eqn:E; cbn; rewrite ?E, IH; done.
Qed.

Lemma filter_sublist {A} (p : A -> bool) l : sublist (List.filter p l) l.
Proof.
  induction l as [|x l IH]; cbn; [constructor|]. destruct (p x); by constructor.
Qed.

Lemma filter_weaken {A} (p q : A -> bool) l :
  (forall x, p x = true -> q x = true) ->
  List.filter p (List.filter q l) = List.filter p l.
Proof.
  intros H. induction l as [|x l IH]; cbn; [done|].
  destruct (q x) eqn:Eq; cbn; [by rewrite IH|].
  destruct (p x) eqn:Ep; [|done]. apply H in Ep. congruence.
Qed.

(** X13. [filterByPeriod] keeps records in their order and drops none
    twice: its result is a sublist of the log, and filtering it again
    with the same period changes nothing.  The period ['all'], as every
    text that is not ['today'], ['week'] or ['month'], keeps the whole
    log.  No period has an upper end: with a clock after 1970, a record
    that is not before the current time stays. *)
Theorem X13_filterByPeriod_sublist now tz period data :
  sublist (filterByPeriod now tz period data) data
  /\ filterByPeriod now tz period (filterByPeriod now tz period data)
     = filterByPeriod now tz period data
  /\ filterByPeriod now tz "all" data = data
  /\ (period <> "today" -> period <> "week" -> period <> "month" ->
      filterByPeriod now tz period data = data)
  /\ (0 <= localDay tz now ->
      forall a, In a data -> now <= timestamp a -> In a (filterByPeriod now tz period data)).
Proof.
  unfold filterByPeriod. split; [|split; [|split; [|split]]].
  - destruct (startDate now tz period); [apply filter_sublist|done].
  - destruct (startDate now tz period); [apply filter_filter_same|done].
  - done.
  - intros H1 H2 H3. unfold startDate.
    destruct (String.eqb_spec period "today"); [done|].
    destruct (String.eqb_spec period "week"); [done|].
    destruct (String.eqb_spec period "month"); done.
  - intros Hnow a Ha Hts.
    destruct (startDate now tz period) as [s|] eqn:E; [|done].
    apply filter_In. split; [done|]. apply Z.leb_le.
    unfold startDate in E.
    destruct (String.eqb_spec period "today") as [->|_].
    { change (startDate now tz "today" = Some s) in E. rewrite startDate_today in E by done.
      injection E as <-. transitivity now; [|done]. by apply localMidnight_le. }
    destruct (String.eqb_spec period "week") as [->|_]; [injection E as <-; lia|].
    destruct (String.eqb_spec period "month") as [->|_]; [|done].
    change (startDate now tz "month" = Some s) in E.
    destruct (startDate_month now tz Hnow) as [E' Hd]. rewrite E' in E.
    injection E as <-. transitivity now; [|done]. apply localMidnight_le. lia.
Qed.

(** X14. With a clock after 1970, the period ['today'] keeps exactly the
    records whose local day is today or later, and ['month'] those whose
    local day is not before the first of the current month, the day of
    the month being one of 1..31; every record of ['today'] is a record
    of ['week'] and of ['month']. *)
Theorem X14_filterByPeriod_today now tz data :
  0 <= localDay tz now ->
  filterByPeriod now tz "today" data
  = List.filter (fun a => localDay tz now <=? localDay tz (timestamp a)) data
  /\ filterByPeriod now tz "month" data
     = List.filter (fun a => localDay tz now - (dateOf tz now - 1) <=? localDay tz (timestamp a)) data
  /\ 1 <= dateOf tz now <= 31
  /\ filterByPeriod now tz "today" (filterByPeriod now tz "week" data)
     = filterByPeriod now tz "today" data
  /\ filterByPeriod now tz "today" (filterByPeriod now tz "month" data)
     = filterByPeriod now tz "today" data.
Proof.
  intros Hnow. destruct (startDate_month now tz Hnow) as [Em Hd].
  unfold filterByPeriod. rewrite startDate_today, Em by done.
  change (startDate now tz "week") with (Some (now - 7 * 24 * 60 * 60 * 1000)).
  split; [|split; [|split; [done|split]]].
  - apply filter_ext. intros a. apply localMidnight_leb.
  - apply filter_ext. intros a. apply localMidnight_leb.
  - apply filter_weaken. intros a Ha. apply Z.leb_le in Ha. apply Z.leb_le.
    assert (localMidnight tz (localDay tz now) <= now) by (by apply localMidnight_le).
    unfold localMidnight, localDay, msPerDay in *.
    pose proof (Z.div_mod (now + tz) 86400000). pose proof (Z.mod_pos_bound (now + tz) 86400000).
    lia.
  - apply filter_weaken. intros a Ha. apply Z.leb_le in Ha. apply Z.leb_le.
    unfold localMidnight, msPerDay in *. lia.
Qed.

(* ===================================================================== *)
(** ** The records of the parser *)
(* ===================================================================== *)

(** *** The parser *)

Lemma parseActivities_Forall now tz (P : Activity -> Prop) :
  (forall d s, Forall P (gradedPass now tz d s)) ->
  (forall d s, Forall P (diagnosticPass now tz d s)) ->
  forall text, Forall P (parseActivities now tz text).
Proof.
  intros Hg Hd text. unfold parseActivities. apply Forall_filter_bool.
  induction (execAll datePattern text) as [|m ms IH]; simpl; [constructor|].
  apply Forall_app. split; [|exact IH].
  destruct (Nat.ltb _ _); [|constructor].
  unfold parseActivitySection. apply Forall_app. split; [apply Hg|apply Hd].
Qed.

(** the fourth and the fifth group of a match of the pattern of graded
    lines are non-empty runs of digits *)
Lemma graded_numbers p s m :
  search activityRegex p s = Some m ->
  (allS isDigit (group 4 (groups m)) = true /\ group 4 (groups m) <> "")
  /\ (allS isDigit (group 5 (groups m)) = true /\ group 5 (groups m) <> "").
Proof.
  intros H. apply search_sound in H as (s0 & e & Hr & -> & _).
  change activityRegex with
    (Seq (Grp 1 (Seq (lit "Mathematical Foundations ") (Plus true (Chr isWord))))
       (Seq (Plus true (Chr isSpace))
          (Seq (Grp 2 (oneOf ["Lesson"; "Review"; "Quiz"; "Diagnostic"; "Multistep"]))
             (Seq (Plus true (Chr isSpace))
                (Seq (Grp 3 (Star false (Chr isDot)))
                   (Seq (Plus true (Chr isSpace))
                      (Seq (Grp 4 (Plus true (Chr isDigit)))
                         (Seq (Star true (Chr isSpace))
                            (Seq (lit "/")
                               (Seq (Star true (Chr isSpace))
                                  (Seq (Grp 5 (Plus true (Chr isDigit)))
                                     (cat [Star true (Chr isSpace); lit "XP"]))))))))))))
    in Hr.
  destruct Hr as (m1 & _ & m2 & _ & m3 & _ & m4 & _ & m5 & _ & m6 & _ & Hr).
  pose proof Hr as Hr4.
  apply (run_group_then isDigit) in Hr4 as (m7 & Hd4 & Hall4 & Hpos4).
  2:{ cbn. repeat split; auto. }
  2:{ vm_compute. intuition discriminate. }
  destruct Hr as (m8 & _ & m9 & _ & m10 & _ & m11 & _ & Hr).
  assert (Hg4 : group 4 (caps e) = group 4 (caps e)) by done.
  apply (run_group_then isDigit) in Hr as (m12 & Hd5 & Hall5 & Hpos5).
  2:{ cbn. repeat split; auto. }
  2:{ vm_compute. tauto. }
  split; (split; [done|]).
  - intros E. rewrite E in Hpos4. cbn in Hpos4.
    apply (run_progress (Plus true (Chr isDigit))) in Hd4; [lia|done].
  - intros E. rewrite E in Hpos5. cbn in Hpos5.
    apply (run_progress (Plus true (Chr isDigit))) in Hd5; [lia|done].
Qed.

Lemma graded_record now tz dateStr p s m :
  search activityRegex p s = Some m ->
  let a := gradedActivity now tz dateStr m in
  exists e b,
    (allS isDigit (group 4 (groups m)) = true /\ parseInt (group 4 (groups m)) = Some e)
    /\ (allS isDigit (group 5 (groups m)) = true /\ parseInt (group 5 (groups m)) = Some b)
    /\ 0 <= e /\ 0 <= b
    /\ (e < 2 ^ 53 -> b < 2 ^ 53 ->
        earned a = e
        /\ base a = Some (if b =? 0 then e else b) /\ maxXP a = base a
        /\ percentage a = (if b =? 0 then 100 else roundedPercent e b)
        /\ isSuccess a = (70 <=? percentage a))
    /\ date a = dateStr /\ timestamp a = parseDate now tz dateStr
    /\ rawText a = matched m.
Proof.
  intros Hm a. subst a. destruct (graded_numbers _ _ _ Hm) as [[Hd4 Hn4] [Hd5 Hn5]].
  destruct (parseInt_digits _ Hd4 Hn4) as (e & He & He0).
  destruct (parseInt_digits _ Hd5 Hn5) as (b & Hb & Hb0).
  exists e, b. split; [done|]. split; [done|]. split; [done|]. split; [done|].
  split; [|done]. intros Be Bb. unfold gradedActivity.
  cbn [earned base maxXP percentage isSuccess].
  rewrite He, Hb. unfold orElse, orElseN.
  destruct (Z.eqb_spec b 0) as [->|Hb']; destruct (Z.eqb_spec e 0) as [->|He'];
    cbn [Z.eqb]; rewrite ?Z.eqb_refl.
  all: repeat match goal with
              | |- context [?x =? 0] => destruct (Z.eqb_spec x 0); [lia|]
              | |- context [0 <? ?x] => destruct (Z.ltb_spec 0 x); [|lia]
              end.
  all: repeat split; try done; try lia.
  all: by apply roundedPercent_self; lia.
Qed.

(** X1. Every record of the graded pass of [parseActivitySection] is built
    from one match of the pattern of a graded line.  Groups 4 and 5 of
    the match are runs of digits; let e and b be the numbers they denote,
    the XP earned and the XP offered, and let both be below 2^53, so that
    a Number holds them.  Then the record has e as its XP earned; its
    base and its maximum are b, or e when the line offers 0; its
    percentage is [Math.round((e / b) * 100)] as the doubles of the
    program give it, and 100 when the line offers 0; and it is marked a
    success exactly when the percentage is at least 70.  It carries the
    header of its section, as time stamp the date parsed from that
    header, and the matched text.  The rounding is that of the doubles:
    a lesson with 23 of 40 XP has a percentage of 57 and is no
    success. *)
Theorem X1_graded_records now tz dateStr sectionText :
  gradedPass now tz dateStr sectionText
  = map (gradedActivity now tz dateStr) (execAll activityRegex sectionText)
  /\ Forall (fun m =>
              let a := gradedActivity now tz dateStr m in
              exists e b,
                (allS isDigit (group 4 (groups m)) = true
                 /\ parseInt (group 4 (groups m)) = Some e)
                /\ (allS isDigit (group 5 (groups m)) = true
                    /\ parseInt (group 5 (groups m)) = Some b)
                /\ 0 <= e /\ 0 <= b
                /\ (e < 2 ^ 53 -> b < 2 ^ 53 ->
                    earned a = e
                    /\ base a = Some (if b =? 0 then e else b) /\ maxXP a = base a
                    /\ percentage a = (if b =? 0 then 100 else roundedPercent e b)
                    /\ isSuccess a = (70 <=? percentage a))
                /\ date a = dateStr /\ timestamp a = parseDate now tz dateStr
                /\ rawText a = matched m)
            (execAll activityRegex sectionText)
  /\ map (fun a => (earned a, base a, percentage a, isSuccess a))
         (gradedPass now tz dateStr lessonOf23) = [(23, Some 40, 57, false)]
  /\ roundedPercent 23 40 = 57.
Proof.
  split; [reflexivity|]. split; [|split; [|by vm_compute]].
  - unfold execAll. apply execLoop_Forall. intros p s m Hm.
    exact (graded_record now tz dateStr p s m Hm).
  - lazy -[parseDate]. reflexivity.
Qed.





(** *** NormalizeActivityType *)

Lemma lowerChar_idem c : lowerChar (lowerChar c) = lowerChar c.
Proof. by destruct c as [[] [] [] [] [] [] [] []]. Qed.

Lemma toLowerCase_idem s : toLowerCase (toLowerCase s) = toLowerCase s.
Proof. induction s as [|c s IH]; cbn; [done|]. by rewrite lowerChar_idem, IH. Qed.

Lemma truthyS_toLowerCase s : truthyS (toLowerCase s) = truthyS s.
Proof. by destruct s. Qed.

(** X3. [normalizeActivityType] is idempotent, does not depend on the case
    of the letters of its argument, and leaves each of the five names of
    the taxonomy as it is. *)
Theorem X3_normalizeActivityType_idempotent t :
  normalizeActivityType (Some (normalizeActivityType t)) = normalizeActivityType t
  /\ (forall s, normalizeActivityType (Some (toLowerCase s)) = normalizeActivityType (Some s))
  /\ Forall (fun name => normalizeActivityType (Some name) = name) taxonomy.
Proof.
  split; [|split].
  - pose proof (normalizeActivityType_closed t) as H. cbn in H.
    destruct H as [<-|[<-|[<-|[<-|[<-|[]]]]]]; reflexivity.
  - intros s. unfold normalizeActivityType.
    by rewrite truthyS_toLowerCase, toLowerCase_idem.
  - repeat constructor.
Qed.

(* ===================================================================== *)
(** ** The hours *)
(* ===================================================================== *)

(** *** Tables of slots *)

Lemma fold_left_inv {A B} (f : A -> B -> A) (I : list B -> A -> Prop) l a0 :
  I [] a0 ->
  (forall pre x post a, l = pre ++ x :: post -> I pre a -> I (pre ++ [x]) (f a x)) ->
  I l (fold_left f l a0).
Proof.
  intros H0 Hstep.
  assert (H : forall post pre a, l = pre ++ post -> I pre a -> I (pre ++ post) (fold_left f post a)).
  { induction post as [|x post IH]; intros pre a Hl Ha; cbn [fold_left].
    - by rewrite app_nil_r.
    - replace (pre ++ x :: post) with ((pre ++ [x]) ++ post) by (by rewrite <- app_assoc).
      apply IH; [by rewrite <- app_assoc|]. by apply (Hstep pre x post). }
  apply (H l [] a0); done.
Qed.

Section Slots.
Variable idx : Activity -> nat.
Variable w : Activity -> Z.

Lemma slots_length data : forall hs, length (fold_left (slotStep idx w) data hs) = length hs.
Proof.
  induction data as [|a data IH]; intros hs; cbn [fold_left]; [done|].
  rewrite IH. unfold slotStep. apply length_alter.
Qed.

Lemma slots_lookup data : forall hs h,
  fold_left (slotStep idx w) data hs !! h
  = (fun s => {| Slot.xp := Slot.xp s
                             + sumZ (map w (List.filter (fun a => Nat.eqb (idx a) h) data));
                 Slot.count := Slot.count s
                               + length (List.filter (fun a => Nat.eqb (idx a) h) data) |})
      <$> (hs !! h).
Proof.
  induction data as [|a data IH]; intros hs h; cbn [fold_left List.filter].
  - destruct (hs !! h) as [[x c]|]; cbn; [|done]. do 2 f_equal; lia.
  - rewrite IH. unfold slotStep. destruct (Nat.eqb (idx a) h) eqn:E.
    + apply Nat.eqb_eq in E. rewrite E, list_lookup_alter_eq.
      destruct (hs !! h) as [[x c]|]; cbn; [|done]. do 2 f_equal; lia.
    + apply Nat.eqb_neq in E. by rewrite list_lookup_alter_ne.
Qed.

Lemma slots_sums data : forall hs,
  Forall (fun a => (idx a < length hs)%nat) data ->
  sumZ (map Slot.xp (fold_left (slotStep idx w) data hs)) = sumZ (map Slot.xp hs) + sumZ (map w data)
  /\ sumZ (map (fun s => Z.of_nat (Slot.count s)) (fold_left (slotStep idx w) data hs))
     = sumZ (map (fun s => Z.of_nat (Slot.count s)) hs) + Z.of_nat (length data).
Proof.
  assert (Ha : forall e i (hs : list Slot.t), (i < length hs)%nat ->
             sumZ (map Slot.xp (alter (bump e) i hs)) = sumZ (map Slot.xp hs) + e
             /\ sumZ (map (fun s => Z.of_nat (Slot.count s)) (alter (bump e) i hs))
                = sumZ (map (fun s => Z.of_nat (Slot.count s)) hs) + 1).
  { intros e i hs. revert i. induction hs as [|s hs IH]; intros i Hi; cbn in Hi; [lia|].
    destruct i as [|i]; cbn.
    - lia.
    - destruct (IH i) as [H1 H2]; [lia|]. 
      change (list_alter (bump e) i hs) with (alter (bump e) i hs). lia. }
  induction data as [|a data IH]; intros hs Hall; cbn [fold_left map sumZ length].
  - lia.
  - inversion Hall as [|? ? Hi Hall']; subst.
    destruct (IH (slotStep idx w hs a)) as [H1 H2].
    { unfold slotStep. by rewrite length_alter. }
    destruct (Ha (w a) (idx a) hs Hi) as [H3 H4].
    unfold slotStep in *. lia.
Qed.
End Slots.

Lemma getHours_range tz t : 0 <= getHours tz t < 24.
Proof.
  unfold getHours, msPerDay, msPerHour.
  pose proof (Z.mod_pos_bound (t + tz) 86400000).
  split; [apply Z.div_pos; lia|apply Z.div_lt_upper_bound; lia].
Qed.

Lemma getDay_range tz t : 0 <= getDay tz t < 7.
Proof. unfold getDay. apply Z.mod_pos_bound. lia. Qed.

Lemma lookup_replicate_slot n h : (h < n)%nat -> replicate n emptySlot !! h = Some emptySlot.
Proof. intros H. by apply lookup_replicate_2. Qed.

(** *** The hours *)

Lemma hourlyStats_fold tz data :
  hourlyStats (calculateTimeAnalysis tz data)
  = fold_left (hourStep tz) data (replicate 24 emptySlot).
Proof.
  unfold calculateTimeAnalysis.
  change (fold_left _ data (replicate 24 emptySlot))
    with (fold_left (hourStep tz) data (replicate 24 emptySlot)).
  destruct (fold_left _ (fold_left (hourStep tz) data (replicate 24 emptySlot)) _) as [[b m] i].
  done.
Qed.

Lemma hourlyStats_slot tz data h :
  (h < 24)%nat ->
  hourlyStats (calculateTimeAnalysis tz data) !! h = Some (slotOf (atHour tz h data)).
Proof.
  intros Hh. rewrite hourlyStats_fold. unfold hourStep. rewrite slots_lookup.
  rewrite lookup_replicate_slot by done. cbn. unfold slotOf, atHour. f_equal.
Qed.

Lemma hours_in_range tz data :
  Forall (fun a => (Z.to_nat (getHours tz (timestamp a)) < 24)%nat) data.
Proof.
  apply List.Forall_forall. intros a _. pose proof (getHours_range tz (timestamp a)). lia.
Qed.

Lemma hourly_max tz data :
  let t := calculateTimeAnalysis tz data in
  exists best : nat,
    mostProductiveHour t = formatHour best /\ (best < 24)%nat
    /\ 0 <= maxHourlyXP t
    /\ Forall (fun s => Slot.xp s <= maxHourlyXP t) (hourlyStats t)
    /\ ((maxHourlyXP t = 0 /\ best = 0%nat)
        \/ (0 < maxHourlyXP t
            /\ exists s, hourlyStats t !! best = Some s /\ Slot.xp s = maxHourlyXP t)).
Proof.
  intros t. subst t. pose proof (hourlyStats_fold tz data) as Hf.
  unfold calculateTimeAnalysis in *.
  change (fold_left _ data (replicate 24 emptySlot))
    with (fold_left (hourStep tz) data (replicate 24 emptySlot)) in *.
  set (hs := fold_left (hourStep tz) data (replicate 24 emptySlot)) in *.
  assert (Hlen : length hs = 24%nat) by (subst hs; unfold hourStep; by rewrite slots_length).
  match goal with
  | |- context [fold_left ?f hs ?a0] =>
      pose proof (fold_left_inv f
        (fun pre acc =>
           let '(best, mx, i) := acc in
           i = length pre /\ 0 <= mx
           /\ Forall (fun s => Slot.xp s <= mx) pre
           /\ ((mx = 0 /\ best = 0%nat)
               \/ (0 < mx /\ (best < length pre)%nat
                   /\ exists s, pre !! best = Some s /\ Slot.xp s = mx)))
        hs a0) as Hinv
  end.
  destruct (fold_left _ hs _) as [[best mx] i].
  cbn [hourlyStats mostProductiveHour maxHourlyXP] in *. 
  destruct Hinv as (Hi & Hmx & Hall & Hbest).
  { repeat split; [lia|constructor|by left]. }
  { intros pre x post [[b m] j] Hl (Hj & Hm & Hall & Hbest). subst j.
    destruct (Z.ltb_spec m (Slot.xp x)) as [Hlt|Hge].
    - rewrite length_app. cbn. repeat split; [lia|lia| |].
      + apply Forall_app. split; [|by repeat constructor].
        eapply Forall_impl; [exact Hall|]. cbn. intros; lia.
      + right. split; [lia|]. split; [lia|]. exists x. split; [|done].
        by rewrite lookup_app_r, Nat.sub_diag by lia.
    - rewrite length_app. cbn. repeat split; [lia|lia| |].
      + apply Forall_app. split; [done|by repeat constructor].
      + destruct Hbest as [?|(H1 & H2 & s & H3 & H4)]; [by left|right].
        split; [done|]. split; [lia|]. exists s. split; [|done].
        by rewrite lookup_app_l. }
  exists best. repeat split; try done.
  - destruct Hbest as [[_ ->]|(_ & H & _)]; lia.
  - destruct Hbest as [?|(H1 & H2 & H3)]; [by left|by right].
Qed.

(** X11. The table of the hours has 24 slots; the slot of an hour holds
    the number and the XP of the records of that hour, so the slots add
    up to the totals of the log; [maxHourlyXP] is not negative and not
    below the XP of any slot; and the most productive hour is the text
    of an hour of 0..23: of hour 0 when [maxHourlyXP] is 0, and else of
    an hour whose slot holds [maxHourlyXP]. *)
Theorem X11_timeAnalysis tz data :
  let t := calculateTimeAnalysis tz data in
  length (hourlyStats t) = 24%nat
  /\ (forall h, (h < 24)%nat -> hourlyStats t !! h = Some (slotOf (atHour tz h data)))
  /\ sumZ (map Slot.xp (hourlyStats t)) = calculateTotalXP data
  /\ sumZ (map (fun s => Z.of_nat (Slot.count s)) (hourlyStats t)) = Z.of_nat (length data)
  /\ exists best : nat,
       mostProductiveHour t = formatHour best /\ (best < 24)%nat
       /\ 0 <= maxHourlyXP t
       /\ Forall (fun s => Slot.xp s <= maxHourlyXP t) (hourlyStats t)
       /\ ((maxHourlyXP t = 0 /\ best = 0%nat)
           \/ (0 < maxHourlyXP t
               /\ exists s, hourlyStats t !! best = Some s /\ Slot.xp s = maxHourlyXP t)).
Proof.
  intros t. subst t. split; [|split; [|split; [|split]]].
  - rewrite hourlyStats_fold. unfold hourStep. by rewrite slots_length.
  - intros h. apply hourlyStats_slot.
  - rewrite hourlyStats_fold. unfold hourStep.
    destruct (slots_sums (fun a => Z.to_nat (getHours tz (timestamp a))) earned data
                         (replicate 24 emptySlot)) as [H _]; [apply hours_in_range|].
    rewrite H, calculateTotalXP_sum. done.
  - rewrite hourlyStats_fold. unfold hourStep.
    destruct (slots_sums (fun a => Z.to_nat (getHours tz (timestamp a))) earned data
                         (replicate 24 emptySlot)) as [_ H]; [apply hours_in_range|].
    rewrite H. done.
  - apply hourly_max.
Qed.


(* ===================================================================== *)
(** ** The weekdays and the last fourteen days *)
(* ===================================================================== *)

(** *** The weekdays *)

Lemma weekdayStats_fold tz data :
  Weekday.weekdayStats (calculateWeekdayStats tz data)
  = fold_left (weekdayStep tz) data (replicate 7 emptySlot).
Proof.
  unfold calculateWeekdayStats.
  change (fold_left _ data (replicate 7 emptySlot))
    with (fold_left (weekdayStep tz) data (replicate 7 emptySlot)).
  destruct (fold_left _ (fold_left (weekdayStep tz) data (replicate 7 emptySlot)) _) as [[b m] i].
  done.
Qed.

Lemma weekdayStats_slot tz data d :
  (d < 7)%nat ->
  Weekday.weekdayStats (calculateWeekdayStats tz data) !! d = Some (slotOf (onWeekday tz d data)).
Proof.
  intros Hd. rewrite weekdayStats_fold. unfold weekdayStep. rewrite slots_lookup.
  rewrite lookup_replicate_slot by done.
  rewrite (map_ext (fun a => orElse (Some (earned a)) 0) earned) by (intros; apply orElse_self).
  cbn. unfold slotOf, onWeekday. f_equal.
Qed.

Lemma ltQ_spec x y : ltQ x y = true <-> (x < y)%Q.
Proof. unfold ltQ, Qlt. apply Z.ltb_lt. Qed.

Lemma Math_round_le x y : (x <= y)%Q -> Math_round x <= Math_round y.
Proof.
  intros H. unfold Math_round. apply Qfloor_resp_le. by apply Qplus_le_compat; [|apply Qle_refl].
Qed.

Lemma weekday_best tz data :
  let w := calculateWeekdayStats tz data in
  0 <= Weekday.bestWeekdayAvg w
  /\ Forall (fun s => Math_round (slotAvg s) <= Weekday.bestWeekdayAvg w)
            (Weekday.weekdayStats w)
  /\ (Weekday.bestWeekday w = "" \/ In (Weekday.bestWeekday w) weekdayNames).
Proof.
  intros w. subst w. pose proof (weekdayStats_fold tz data) as Hf.
  unfold calculateWeekdayStats in *.
  change (fold_left _ data (replicate 7 emptySlot))
    with (fold_left (weekdayStep tz) data (replicate 7 emptySlot)) in *.
  set (ws := fold_left (weekdayStep tz) data (replicate 7 emptySlot)) in *.
  assert (Hlen : length ws = 7%nat) by (subst ws; unfold weekdayStep; by rewrite slots_length).
  match goal with
  | |- context [fold_left ?f ws ?a0] =>
      pose proof (fold_left_inv f
        (fun pre acc =>
           let '(best, avg, i) := acc in
           i = length pre /\ (0 <= avg)%Q
           /\ Forall (fun s => (slotAvg s <= avg)%Q) pre
           /\ (best = "" \/ In best weekdayNames))
        ws a0) as Hinv
  end.
  destruct (fold_left _ ws _) as [[best avg] i].
  cbn [Weekday.weekdayStats Weekday.bestWeekday Weekday.bestWeekdayAvg] in *.
  destruct Hinv as (Hi & Havg & Hall & Hbest).
  { repeat split; [apply Qle_refl|constructor|by left]. }
  { intros pre x post [[b m] j] Hl (Hj & Hm & Hall & Hbest). subst j.
    assert (Hpre : (length pre < 7)%nat).
    { apply (f_equal length) in Hl. rewrite length_app in Hl. cbn in Hl. lia. }
    destruct (ltQ m (slotAvg x)) eqn:E.
    - apply ltQ_spec in E. rewrite length_app. cbn [length]. repeat split; [lia| | |].
      + apply Qlt_le_weak. eapply Qle_lt_trans; eauto.
      + apply Forall_app. split; [|repeat constructor; apply Qle_refl].
        eapply Forall_impl; [exact Hall|]. cbn. intros s Hs.
        eapply Qle_trans; [exact Hs|by apply Qlt_le_weak].
      + right. apply nth_In. cbn [length weekdayNames]. lia.
    - assert (E' : (slotAvg x <= m)%Q).
      { apply Qnot_lt_le. intros H. apply ltQ_spec in H. congruence. }
      rewrite length_app. cbn [length]. repeat split; [lia|done| |done].
      apply Forall_app. split; [done|by repeat constructor]. }
  split; [|split; [|done]].
  - change 0 with (Math_round 0). by apply Math_round_le.
  - eapply Forall_impl; [exact Hall|]. cbn. intros s Hs. by apply Math_round_le.
Qed.

Lemma days_in_range tz data :
  Forall (fun a => (Z.to_nat (getDay tz (timestamp a)) < 7)%nat) data.
Proof.
  apply List.Forall_forall. intros a _. pose proof (getDay_range tz (timestamp a)). lia.
Qed.

(** X8. The table of the weekdays has seven slots; the slot of a weekday
    holds the number and the XP of the records of that weekday, so the
    slots add up to the totals of the log; the best average is not
    negative and, rounded, not below the rounded average of any slot;
    the best weekday is the empty text or the name of a weekday. *)
Theorem X8_weekdayStats tz data :
  let w := calculateWeekdayStats tz data in
  length (Weekday.weekdayStats w) = 7%nat
  /\ (forall d, (d < 7)%nat ->
        Weekday.weekdayStats w !! d = Some (slotOf (onWeekday tz d data)))
  /\ sumZ (map Slot.xp (Weekday.weekdayStats w)) = calculateTotalXP data
  /\ sumZ (map (fun s => Z.of_nat (Slot.count s)) (Weekday.weekdayStats w))
     = Z.of_nat (length data)
  /\ 0 <= Weekday.bestWeekdayAvg w
  /\ Forall (fun s => Math_round (slotAvg s) <= Weekday.bestWeekdayAvg w)
            (Weekday.weekdayStats w)
  /\ (Weekday.bestWeekday w = "" \/ In (Weekday.bestWeekday w) weekdayNames).
Proof.
  intros w. subst w. split; [|split; [|split; [|split]]].
  - rewrite weekdayStats_fold. unfold weekdayStep. by rewrite slots_length.
  - intros d. apply weekdayStats_slot.
  - rewrite weekdayStats_fold. unfold weekdayStep.
    destruct (slots_sums (fun a => Z.to_nat (getDay tz (timestamp a)))
                         (fun a => orElse (Some (earned a)) 0) data
                         (replicate 7 emptySlot)) as [H _]; [apply days_in_range|].
    rewrite H, calculateTotalXP_sum.
    rewrite (map_ext (fun a => orElse (Some (earned a)) 0) earned) by (intros; apply orElse_self).
    done.
  - rewrite weekdayStats_fold. unfold weekdayStep.
    destruct (slots_sums (fun a => Z.to_nat (getDay tz (timestamp a)))
                         (fun a => orElse (Some (earned a)) 0) data
                         (replicate 7 emptySlot)) as [_ H]; [apply days_in_range|].
    rewrite H. done.
  - apply weekday_best.
Qed.

(** *** The last fourteen days *)

Lemma lookupDay_xp tz data k :
  match lookupDay k (calculateDailyStats tz data) with
  | Some d => DayStat.xp d
  | None => 0
  end = dayTotal tz data k
  /\ match lookupDay k (calculateDailyStats tz data) with
     | Some d => DayStat.count d
     | None => 0%nat
     end = length (onDay tz k data).
Proof.
  pose proof (calculateDailyStats_lookup tz data k) as H.
  unfold dayTotal. destruct (onDay tz k data) as [|a l] eqn:E.
  - by rewrite H.
  - destruct H as (d & -> & _ & _ & H1 & _ & H2). unfold dayTotal in H1. rewrite E in H1. done.
Qed.

(** X10. [getLast14Days] gives fourteen points, for the fourteen local
    days that end today, oldest first; each point holds the XP and the
    number of the records of its day (0 on a day without records), its
    date is at the time of day of the current time, and the month and the
    day that make up its label are a month of 1..12 and a day of 1..31. *)
Theorem X10_last14Days now tz data :
  let points := getLast14Days now tz data in
  map (fun p => localDay tz (DayPoint.date p)) points = seqZ (localDay tz now - 13) 14
  /\ Forall (fun p =>
               let k := localDay tz (DayPoint.date p) in
               DayPoint.xp p = dayTotal tz data k
               /\ DayPoint.count p = length (onDay tz k data)
               /\ getHours tz (DayPoint.date p) = getHours tz now
               /\ 1 <= monthOf tz (DayPoint.date p) <= 12
               /\ 1 <= dateOf tz (DayPoint.date p) <= 31) points.
Proof.
  intros points. subst points. unfold getLast14Days. split.
  - rewrite map_map. cbn [DayPoint.date]. cbn [seq rev app map].
    rewrite !localDay_addDays.
    change (seqZ (localDay tz now - 13) 14) with
      (map (fun i => Z.of_nat i + (localDay tz now - 13)) (seq 0 14)). cbn [seq map].
    repeat (apply (f_equal2 cons); [lia|]). done.
  - apply List.Forall_map, List.Forall_forall. intros i _.
    cbn [DayPoint.date DayPoint.xp DayPoint.count]. unfold toDateString.
    destruct (lookupDay_xp tz data (localDay tz (addDays now (- Z.of_nat i)))) as [H1 H2].
    split; [done|]. split; [done|]. split.
    + unfold getHours, addDays.
      replace (now + - Z.of_nat i * msPerDay + tz) with (now + tz + (- Z.of_nat i) * msPerDay) by lia.
      by rewrite Z.mod_add.
    + unfold monthOf, dateOf.
      pose proof (civil_roundtrip (localDay tz (addDays now (- Z.of_nat i)))) as Hr.
      destruct (civilFromDays _) as [[y m] d]. cbn [fst snd]. tauto.
Qed.

(* ===================================================================== *)
(** ** The best day, the counts and the average *)
(* ===================================================================== *)

(** *** The best day *)

Lemma bestDay_inv tz data :
  let b := calculateBestPerformance tz data in
  0 <= bestDayXP b
  /\ Forall (fun kv => DayStat.xp (snd kv) <= bestDayXP b) (calculateDailyStats tz data)
  /\ match bestDayDate b with
     | Some k => 0 < bestDayXP b
                 /\ exists d, In (k, d) (calculateDailyStats tz data)
                              /\ DayStat.xp d = bestDayXP b
     | None => bestDayXP b = 0
     end.
Proof.
  intros b. subst b. unfold calculateBestPerformance.
  set (ds := calculateDailyStats tz data).
  match goal with
  | |- context [fold_left ?f ds ?a0] =>
      pose proof (fold_left_inv f
        (fun pre acc =>
           let '(bx, bd, _, _) := acc in
           0 <= bx
           /\ Forall (fun kv : Z * DayStat.t => DayStat.xp (snd kv) <= bx) pre
           /\ match bd with
              | Some k => 0 < bx /\ exists d, In (k, d) pre /\ DayStat.xp d = bx
              | None => bx = 0
              end)
        ds a0) as Hinv
  end.
  destruct (fold_left _ ds _) as [[[bx bd] ba] bad].
  cbn [bestDayXP bestDayDate]. apply Hinv.
  { repeat split; [lia|constructor]. }
  intros pre [k s] post [[[x d] a] ad] Hl (Hx & Hall & Hd).
  destruct (nonDiagnosticTotals (DayStat.activities s)) as [ne nb].
  destruct (Z.ltb_spec x (DayStat.xp s)) as [Hlt|Hge].
  - assert (H : 0 <= DayStat.xp s
                /\ Forall (fun kv : Z * DayStat.t => DayStat.xp (snd kv) <= DayStat.xp s)
                          (pre ++ [(k, s)])
                /\ 0 < DayStat.xp s
                /\ exists d0, In (k, d0) (pre ++ [(k, s)]) /\ DayStat.xp d0 = DayStat.xp s).
    { split; [lia|]. split; [|split; [lia|]].
      - apply Forall_app. split; [|repeat constructor; cbn; lia].
        eapply Forall_impl; [exact Hall|]. cbn. intros; lia.
      - exists s. split; [|done]. apply in_or_app. right. by left. }
    destruct (gtD _ a && posN nb); exact H.
  - assert (H : 0 <= x
                /\ Forall (fun kv : Z * DayStat.t => DayStat.xp (snd kv) <= x) (pre ++ [(k, s)])
                /\ match d with
                   | Some k0 => 0 < x /\ exists d0, In (k0, d0) (pre ++ [(k, s)]) /\ DayStat.xp d0 = x
                   | None => x = 0
                   end).
    { split; [done|]. split.
      - apply Forall_app. split; [done|repeat constructor; cbn; lia].
      - destruct d as [k0|]; [|done]. destruct Hd as (H1 & d0 & H2 & H3).
        split; [done|]. exists d0. split; [|done]. apply in_or_app. by left. }
    destruct (gtD _ a && posN nb); exact H.
Qed.

(** X9. [bestDayXP] is at least the XP of every day; where a best day is
    named, [bestDayXP] is positive and is the XP of that day; where none
    is named, [bestDayXP] is 0. *)
Theorem X9_bestDay tz data :
  let b := calculateBestPerformance tz data in
  (forall k, dayTotal tz data k <= bestDayXP b)
  /\ match bestDayDate b with
     | Some k => 0 < bestDayXP b /\ dayTotal tz data k = bestDayXP b
     | None => bestDayXP b = 0
     end.
Proof.
  intros b. subst b. destruct (bestDay_inv tz data) as (H0 & Hall & Hd). split.
  - intros k. pose proof (calculateDailyStats_lookup tz data k) as Hk.
    unfold dayTotal. destruct (onDay tz k data) as [|a l] eqn:E; [done|].
    destruct Hk as (d & Hk & _ & _ & Hx & _). unfold dayTotal in Hx. rewrite E in Hx.
    apply lookupDay_Some in Hk. rewrite List.Forall_forall in Hall.
    specialize (Hall _ Hk). cbn in Hall. lia.
  - destruct (bestDayDate _) as [k|]; [|done].
    destruct Hd as (Hpos & d & Hin & Hx). split; [done|].
    apply lookupDay_In in Hin; [|apply calculateDailyStats_NoDup].
    pose proof (calculateDailyStats_lookup tz data k) as Hk.
    destruct (onDay tz k data) as [|a l] eqn:E; [congruence|].
    destruct Hk as (d' & Hk & _ & _ & Hx' & _). congruence.
Qed.

(** *** The counts by category *)

Lemma countActivity_total c a :
  countsTotal (countActivity c a) = countsTotal c
  \/ countsTotal (countActivity c a) = S (countsTotal c).
Proof.
  unfold countActivity.
  repeat match goal with
         | |- context [if ?b then _ else _] => destruct b
         end; unfold countsTotal; cbn; lia.
Qed.

Lemma countActivity_known c a :
  In (type a) taxonomy -> isQuiz a = false ->
  countActivity c a
  = {| diagnostics := diagnostics c + tally (String.eqb (type a) "diagnostic");
       lessons := lessons c + tally (String.eqb (type a) "lesson");
       reviews := reviews c + tally (String.eqb (type a) "review");
       multisteps := multisteps c + tally (String.eqb (type a) "multistep");
       quizzes := quizzes c + tally (String.eqb (type a) "quiz") |}.
Proof.
  intros Hty Hq. unfold countActivity. unfold isQuiz in Hq. rewrite Hq.
  destruct c as [d l r m q].
  cbn in Hty. destruct Hty as [<-|[<-|[<-|[<-|[<-|[]]]]]]; cbn; f_equal; lia.
Qed.

Lemma counts_fold data : forall c,
  Forall (fun a => In (type a) taxonomy /\ isQuiz a = false) data ->
  fold_left countActivity data c
  = {| diagnostics := diagnostics c + countIf (fun a => String.eqb (type a) "diagnostic") data;
       lessons := lessons c + countIf (fun a => String.eqb (type a) "lesson") data;
       reviews := reviews c + countIf (fun a => String.eqb (type a) "review") data;
       multisteps := multisteps c + countIf (fun a => String.eqb (type a) "multistep") data;
       quizzes := quizzes c + countIf (fun a => String.eqb (type a) "quiz") data |}.
Proof.
  induction data as [|a data IH]; intros c Hall; cbn [fold_left].
  - destruct c. unfold countIf. cbn. f_equal; lia.
  - inversion Hall as [|? ? [Hty Hq] Hall']; subst.
    rewrite IH, countActivity_known by done. rewrite !countIf_cons. cbn. f_equal; lia.
Qed.

Lemma counts_le data : forall c,
  (countsTotal c <= countsTotal (fold_left countActivity data c) <= countsTotal c + length data)%nat.
Proof.
  induction data as [|a data IH]; intros c; cbn [fold_left length]; [lia|].
  specialize (IH (countActivity c a)). destruct (countActivity_total c a); lia.
Qed.

Lemma parsed_types now tz text :
  Forall (fun a => In (type a) taxonomy /\ isQuiz a = false) (parseActivities now tz text).
Proof.
  apply parseActivities_Forall; intros d s.
  - unfold gradedPass. apply List.Forall_map, List.Forall_forall. intros m _.
    split; [apply normalizeActivityType_closed|done].
  - unfold diagnosticPass. apply List.Forall_map, List.Forall_forall. intros m _.
    split; [cbn; tauto|done].
Qed.

Lemma countIf_types data :
  Forall (fun a => In (type a) taxonomy) data ->
  (countIf (fun a => String.eqb (type a) "diagnostic") data
   + countIf (fun a => String.eqb (type a) "lesson") data
   + countIf (fun a => String.eqb (type a) "review") data
   + countIf (fun a => String.eqb (type a) "multistep") data
   + countIf (fun a => String.eqb (type a) "quiz") data = length data)%nat.
Proof.
  induction 1 as [|a data Ha _ IH]; [done|]. rewrite !countIf_cons. cbn [length].
  cbn in Ha. destruct Ha as [<-|[<-|[<-|[<-|[<-|[]]]]]]; cbn; lia.
Qed.

(** X4. The five counters of [calculateActivityCounts] never add up to
    more than the number of records.  On a parsed log they add up to
    exactly the number of records, and each counter is the number of
    records of its type. *)
Theorem X4_counts_by_category data :
  (countsTotal (calculateActivityCounts data) <= length data)%nat
  /\ forall now tz text,
       let log := parseActivities now tz text in
       let c := calculateActivityCounts log in
       countsTotal c = length log
       /\ diagnostics c = countIf (fun a => String.eqb (type a) "diagnostic") log
       /\ lessons c = countIf (fun a => String.eqb (type a) "lesson") log
       /\ reviews c = countIf (fun a => String.eqb (type a) "review") log
       /\ multisteps c = countIf (fun a => String.eqb (type a) "multistep") log
       /\ quizzes c = countIf (fun a => String.eqb (type a) "quiz") log.
Proof.
  split.
  - unfold calculateActivityCounts. pose proof (counts_le data noCounts) as H. cbn in H. lia.
  - intros now tz text. cbv zeta. set (log := parseActivities now tz text).
    unfold calculateActivityCounts.
    rewrite (counts_fold log noCounts) by apply parsed_types.
    unfold countsTotal. cbn. split; [|done].
    apply countIf_types. eapply Forall_impl; [apply (parsed_types now tz text)|].
    cbn. tauto.
Qed.

(** *** The average per day *)

Lemma upsert_fst {V W} k (i : V) g (i' : W) g' (o : list (Z * V)) (o' : list (Z * W)) :
  map fst o = map fst o' ->
  map fst (Dict.upsert k i g o) = map fst (Dict.upsert k i' g' o').
Proof.
  revert o'. induction o as [|[k0 v] o IH]; intros [|[k0' v'] o'] H; cbn in *; try done.
  injection H as <- H. destruct (k =? k0); cbn; [by rewrite H|]. f_equal. by apply IH.
Qed.

Lemma gfold_fst {V W} (key : Activity -> Z) (i : Activity -> V) f (i' : Activity -> W) f' acts :
  forall (g : list (Z * V)) (g' : list (Z * W)),
  map fst g = map fst g' ->
  map fst (fold_left (gstep key i f) acts g) = map fst (fold_left (gstep key i' f') acts g').
Proof.
  induction acts as [|a acts IH]; intros g g' Hg; cbn [fold_left]; [done|].
  apply IH. unfold gstep. by apply upsert_fst.
Qed.

Lemma days_agree tz data :
  map fst (calculateDailyStats tz data) = map fst (dailyGroups tz data).
Proof.
  rewrite calculateDailyStats_gfold. unfold dailyGroups. rewrite groupStep_gstep.
  by apply gfold_fst.
Qed.

Lemma length_markTransitions days : forall prev,
  length (markTransitions prev days) = length days.
Proof.
  induction days as [|d days IH]; intros prev; cbn; [done|].
  destruct (Day.courses d); cbn; by rewrite IH.
Qed.

Lemma length_groupActivitiesByDay tz data :
  length (groupActivitiesByDay tz data) = length (calculateDailyStats tz data).
Proof.
  unfold groupActivitiesByDay, sortedDays, Dict.values.
  rewrite length_markTransitions, length_sortBy, length_map.
  rewrite <- (length_map fst), <- days_agree, length_map. done.
Qed.



(* ===================================================================== *)
(** ** Sampling, distances of days, the current course *)
(* ===================================================================== *)

(** *** SampleData *)

Section Sampling.
Context {A : Type} `{EqDecision A}.

Lemma last_app_one (l : list A) y : last (l ++ [y]) = Some y.
Proof. apply last_snoc. Qed.

(** what the loop of [sampleData] gives on the non-empty list [pre ++ [y]]:
    either it ends with the last element, or all it takes is in [pre] *)
Lemma everyNth_spec (step : nat) : (0 < step)%nat ->
  forall (fuel : nat) (pre : list A) (y : A),
  (length pre < fuel)%nat ->
  let l := pre ++ [y] in
  let r := everyNth fuel step l in
  head r = head l
  /\ ((last r = Some y /\ sublist r l /\ ((length r - 1) * step < length l)%nat)
      \/ (sublist r pre /\ ((length r - 1) * step + 1 < length l)%nat)).
Proof.
  intros Hs. induction fuel as [|fuel IH]; intros pre y Hf; [lia|].
  cbn zeta. destruct pre as [|x pre].
  - cbn [app everyNth]. rewrite drop_ge by (cbn; lia).
    destruct fuel; cbn; (split; [done|left; split; [done|split; [done|lia]]]).
  - cbn [app everyNth]. split; [done|].
    destruct step as [|s]; [lia|]. cbn [drop].
    destruct (Nat.lt_ge_cases s (length pre)) as [Hlt|Hge].
    + (* the next index is before the last element *)
      assert (Hd : drop s (pre ++ [y]) = drop s pre ++ [y])
        by (rewrite drop_app_le by lia; done).
      rewrite Hd. cbn in Hf.
      destruct (IH (drop s pre) y) as (_ & Hcase).
      { rewrite length_drop. lia. }
      cbn zeta in Hcase.
      set (r := everyNth fuel (S s) (drop s pre ++ [y])) in *.
      assert (Hr : r <> []).
      { subst r. destruct fuel; [lia|]. destruct (drop s pre); done. }
      assert (Hlen : length (drop s pre ++ [y]) = (length pre + 1 - s)%nat)
        by (rewrite length_app, length_drop; cbn; lia).
      rewrite Hlen in Hcase.
      destruct Hcase as [(Hl & Hsub & Hn)|(Hsub & Hn)].
      * left. split; [|split].
        -- destruct r; [done|]. exact Hl.
        -- constructor. etransitivity; [exact Hsub|].
           rewrite <- Hd. apply sublist_drop.
        -- cbn [length]. rewrite length_app. cbn [length].
           destruct r; [done|]. cbn [length] in *. nia.
      * right. split.
        -- constructor. etransitivity; [exact Hsub|]. apply sublist_drop.
        -- cbn [length]. rewrite length_app. cbn [length].
           destruct r; [done|]. cbn [length] in *. nia.
    + (* the next index is the last element, or beyond it *)
      destruct (Nat.eq_dec s (length pre)) as [->|Hne].
      * rewrite drop_app_length. cbn in Hf.
        destruct fuel as [|fuel]; [lia|]. cbn [everyNth]. 
        rewrite drop_ge by (cbn; lia).
        replace (everyNth fuel (S (length pre)) []) with (@nil A) by (by destruct fuel).
        left. split; [done|]. split.
        -- constructor. apply sublist_inserts_l. done.
        -- cbn [length]. rewrite length_app. cbn. lia.
      * rewrite drop_ge by (rewrite length_app; cbn; lia).
        replace (everyNth fuel (S s) []) with (@nil A) by (by destruct fuel).
        right. split.
        -- constructor. apply sublist_nil_l.
        -- cbn. rewrite length_app. cbn. lia.
Qed.

Lemma sampleData_spec (data : list A) (maxPoints : nat) :
  ((length data <= maxPoints)%nat -> sampleData data maxPoints = data)
  /\ ((maxPoints < length data)%nat ->
      sublist (sampleData data maxPoints) data
      /\ head (sampleData data maxPoints) = head data
      /\ last (sampleData data maxPoints) = last data
      /\ ((1 <= maxPoints)%nat -> (length (sampleData data maxPoints) <= 2 * maxPoints)%nat)).
Proof.
  unfold sampleData. split.
  - intros H'. by destruct (Nat.leb_spec (length data) maxPoints); [|lia].
  - intros Hm. destruct (Nat.leb_spec (length data) maxPoints); [lia|].
    destruct data as [|x0 data0] using rev_ind; [cbn in Hm; lia|]. clear IHdata0.
    rename data0 into pre, x0 into y.
    set (step := if Nat.eqb maxPoints 0 then length (pre ++ [y])
                 else Nat.div (length (pre ++ [y])) maxPoints).
    assert (Hstep : (0 < step)%nat).
    { subst step. destruct (Nat.eqb_spec maxPoints 0); [lia|].
      apply Nat.div_str_pos. lia. }
    assert (Hdiv : (1 <= maxPoints -> length (pre ++ [y]) < maxPoints * step + maxPoints)%nat).
    { intros H1. subst step. destruct (Nat.eqb_spec maxPoints 0); [lia|].
      pose proof (Nat.div_mod (length (pre ++ [y])) maxPoints).
      pose proof (Nat.mod_upper_bound (length (pre ++ [y])) maxPoints). lia. }
    clearbody step.
    destruct (everyNth_spec step Hstep (length (pre ++ [y])) pre y) as (Hh & Hcase).
    { rewrite length_app. cbn. lia. }
    cbn zeta in Hh, Hcase.
    set (r := everyNth (length (pre ++ [y])) step (pre ++ [y])) in *. clearbody r.
    rewrite last_snoc.
    destruct (last r) as [x|] eqn:Hl.
    2:{ apply last_None in Hl. rewrite Hl in Hh. by destruct pre. }
    assert (Hlen : (1 <= length r)%nat) by (destruct r; [done|cbn; lia]).
    destruct (decide (x = y)) as [->|Hne].
    + split; [|split; [done|split; [done|]]].
      * destruct Hcase as [(_ & Hsub & _)|(Hsub & _)]; [done|].
        by apply sublist_inserts_r.
      * intros H1. specialize (Hdiv H1). destruct Hcase as [(_ & _ & Hn)|(_ & Hn)]; nia.
    + destruct Hcase as [(Hl2 & _)|(Hsub & Hn)]; [congruence|].
      split; [|split; [|split]].
      * by apply sublist_app.
      * rewrite <- Hh. by destruct r.
      * by rewrite last_snoc.
      * intros H1. specialize (Hdiv H1). rewrite length_app. cbn [length]. nia.
Qed.
End Sampling.

(** X24. [sampleData] returns a list of at most [maxPoints] elements as it
    is.  From a longer list it takes a sublist that starts with the first
    and ends with the last element; for [maxPoints] of at least 1 the
    result has at most [2 * maxPoints] elements.  It may have more than
    [maxPoints]: from five elements and [maxPoints = 3] it returns all
    five. *)
Theorem X24_sampleData_points {A : Type} `{EqDecision A} (data : list A) (maxPoints : nat) :
  ((length data <= maxPoints)%nat -> sampleData data maxPoints = data)
  /\ ((maxPoints < length data)%nat ->
      sublist (sampleData data maxPoints) data
      /\ head (sampleData data maxPoints) = head data
      /\ last (sampleData data maxPoints) = last data
      /\ ((1 <= maxPoints)%nat -> (length (sampleData data maxPoints) <= 2 * maxPoints)%nat))
  /\ sampleData [1; 2; 3; 4; 5] 3 = [1; 2; 3; 4; 5]
  /\ sampleData [1; 2; 3; 4; 5; 6; 7] 3 = [1; 3; 5; 7]
  /\ sampleData [1; 2; 3; 4; 5; 6; 7; 8] 3 = [1; 3; 5; 7; 8].
Proof.
  destruct (sampleData_spec data maxPoints) as [H1 H2].
  split; [done|]. split; [done|]. by vm_compute.
Qed.

(** *** DaysBetween *)

Lemma Qabs_frac n d : (Qabs (Qmake n 1 / Qmake (Zpos d) 1) == Qmake (Z.abs n) d)%Q.
Proof.
  unfold Qabs, Qdiv, Qinv, Qmult, Qeq. cbn [Qnum Qden].
  destruct n; cbn; lia.
Qed.

Lemma daysBetween_formula a b :
  daysBetween a b = (2 * Z.abs (a - b) + msPerDay) / (2 * msPerDay).
Proof.
  unfold daysBetween, Math_round.
  pose proof (Qabs_frac (a - b) 86400000) as E. change (Z.pos 86400000) with msPerDay in E.
  rewrite (Qfloor_comp _ _ (Qplus_comp _ _ E _ _ (Qeq_refl _))).
  apply (Math_round_frac (Z.abs (a - b)) 86400000).
Qed.

(** X25. [daysBetween] is the distance of the two dates in days, rounded
    to the nearest integer with halves up; it is symmetric and not
    negative, it is [|k|] for two dates [k] days apart, and for a date
    that is [k] days and a rest of less than a day after the other it is
    [k] when the rest is less than half a day and [k + 1] otherwise. *)
Theorem X25_daysBetween_rounds a b :
  daysBetween a b = (2 * Z.abs (a - b) + msPerDay) / (2 * msPerDay)
  /\ daysBetween a b = daysBetween b a
  /\ 0 <= daysBetween a b
  /\ (forall k, daysBetween (addDays a k) a = Z.abs k)
  /\ (forall k r, 0 <= k -> 0 <= r < msPerDay ->
        daysBetween (a + k * msPerDay + r) a = if 2 * r <? msPerDay then k else k + 1).
Proof.
  rewrite !daysBetween_formula. split; [done|]. split; [|split; [|split]].
  - f_equal. lia.
  - apply Z.div_pos; unfold msPerDay; lia.
  - intros k. rewrite daysBetween_formula. unfold addDays.
    replace (a + k * msPerDay - a) with (k * msPerDay) by lia.
    rewrite Z.abs_mul. unfold msPerDay. cbn [Z.abs].
    symmetry. apply Z.div_unique with (r := 86400000); lia.
  - intros k r Hk Hr. rewrite daysBetween_formula.
    replace (a + k * msPerDay + r - a) with (k * msPerDay + r) by lia.
    unfold msPerDay in *. rewrite Z.abs_eq by lia.
    destruct (Z.ltb_spec (2 * r) 86400000).
    + symmetry. apply Z.div_unique with (r := 2 * r + 86400000); lia.
    + symmetry. apply Z.div_unique with (r := 2 * r - 86400000); lia.
Qed.

(** *** The current course *)

Lemma hasCourse_spec a :
  UIController.hasCourse a = true <-> exists c, course a = Some c /\ c <> "".
Proof.
  unfold UIController.hasCourse. destruct (course a) as [c|].
  - destruct c; cbn; split; try done.
    + intros (c & [= <-] & H). done.
    + intros _. eauto.
  - split; [done|]. by intros (c & H & _).
Qed.

(** X28. The course that [renderCurrentCourse] shows is not empty and is
    the course of a record that no record with a course is later than;
    it shows none exactly when no record has a course, and none when the
    calculator or its data is missing. *)
Theorem X28_currentCourse_latest acts :
  match UIController.currentCourse (view acts) with
  | Some c =>
      c <> "" /\ exists a, In a acts /\ course a = Some c
                 /\ forall b, In b acts -> UIController.hasCourse b = true ->
                              timestamp b <= timestamp a
  | None => Forall (fun a => UIController.hasCourse a = false) acts
  end
  /\ UIController.currentCourse {| calculator := None |} = None
  /\ UIController.currentCourse {| calculator := Some {| data := None |} |} = None.
Proof.
  split; [|done]. unfold UIController.currentCourse.
  cbn [view calculatorData calculator ChartHelpers.data].
  set (key := fun a : Activity => - timestamp a).
  set (withCourse := List.filter UIController.hasCourse acts).
  pose proof (sortBy_sorted key withCourse) as Hs.
  destruct (Dict.sortBy key withCourse) as [|a l] eqn:E.
  - apply List.Forall_forall. intros a Ha.
    destruct (UIController.hasCourse a) eqn:Hc; [|done]. exfalso.
    assert (Hin : In a (Dict.sortBy key withCourse)).
    { apply In_sortBy. apply filter_In. done. }
    by rewrite E in Hin.
  - assert (Ha : In a withCourse) by (apply (In_sortBy key); rewrite E; by left).
    apply filter_In in Ha. destruct Ha as [Ha Hc].
    apply hasCourse_spec in Hc as (c & Hc & Hne). rewrite Hc. split; [done|].
    exists a. repeat split; try done. intros b Hb Hbc.
    assert (Hin : In b (a :: l)).
    { rewrite <- E. apply In_sortBy. apply filter_In. done. }
    pose proof (sorted_head_least key (a :: l) a Hs eq_refl b Hin) as Hle.
    unfold key in Hle. lia.
Qed.

(* ===================================================================== *)
(** ** Transitions and attainment *)
(* ===================================================================== *)

(** *** Tables filled under a condition *)

Lemma condLookup_fold {V} (c : Day.t -> bool) (v : Day.t -> V) days : forall (m : gmap Z V) k,
  List.NoDup (map Day.date days) ->
  fold_left (fun m day => if c day then <[Day.date day := v day]> m else m) days m !! k
  = match List.find (fun d => Day.date d =? k) days with
    | Some d => if c d then Some (v d) else m !! k
    | None => m !! k
    end.
Proof.
  induction days as [|d days IH]; intros m k Hn; cbn [fold_left List.find]; [done|].
  inversion Hn as [|? ? Hd Hn']; subst. rewrite IH by done.
  destruct (Day.date d =? k) eqn:E.
  - apply Z.eqb_eq in E. subst k.
    destruct (List.find _ days) as [d'|] eqn:F.
    + apply find_some in F. destruct F as [F1 F2]. apply Z.eqb_eq in F2.
      exfalso. apply Hd. rewrite <- F2. by apply in_map.
    + destruct (c d); [by rewrite lookup_insert_eq|done].
  - apply Z.eqb_neq in E. destruct (List.find _ days) as [d'|]; destruct (c d); try done.
    + destruct (c d'); [done|]. by rewrite lookup_insert_ne.
    + by rewrite lookup_insert_ne.
Qed.

Lemma find_unique (days : list Day.t) d :
  List.NoDup (map Day.date days) -> In d days ->
  List.find (fun d' => Day.date d' =? Day.date d) days = Some d.
Proof.
  induction days as [|x days IH]; cbn; [done|]. intros Hn [->|Hin].
  - by rewrite Z.eqb_refl.
  - inversion Hn as [|? ? Hx Hn']; subst.
    destruct (Z.eqb_spec (Day.date x) (Day.date d)) as [E|_]; [|by apply IH].
    exfalso. apply Hx. rewrite E. by apply in_map.
Qed.

Lemma sorted_lt_NoDup l : StronglySorted Z.lt l -> List.NoDup l.
Proof.
  induction 1 as [|x l Hs IH Hall]; constructor; [|done].
  intros Hin. rewrite List.Forall_forall in Hall. specialize (Hall _ Hin). lia.
Qed.

Lemma groupActivitiesByDay_NoDup tz acts :
  List.NoDup (map Day.date (groupActivitiesByDay tz acts)).
Proof. apply sorted_lt_NoDup, groupActivitiesByDay_sorted. Qed.

(** *** Where transitions are marked: the converse *)

Lemma markTransitions_app l : forall prev,
  exists prev', forall rest,
    markTransitions prev (l ++ rest) = markTransitions prev l ++ markTransitions prev' rest.
Proof.
  induction l as [|d l IH]; intros prev.
  - by exists prev.
  - cbn [app markTransitions]. destruct (Day.courses d) as [|c cs].
    + destruct (IH prev) as (prev' & H). exists prev'. intros rest. by rewrite H.
    + destruct (IH (Some c)) as (prev' & H). exists prev'. intros rest. by rewrite H.
Qed.

Lemma markTransitions_idle between : forall p rest,
  Forall (fun d => Day.courses d = []) between ->
  exists l, markTransitions (Some p) (between ++ rest) = l ++ markTransitions (Some p) rest.
Proof.
  induction between as [|d between IH]; intros p rest Hall.
  - by exists [].
  - inversion Hall as [|? ? Hd Hall']; subst. cbn [app markTransitions]. rewrite Hd.
    destruct (IH p rest Hall') as (l & ->). by eexists (_ :: l).
Qed.

Lemma markTransitions_complete days k p c prev0 :
  TransitionAt days k p c -> truthyS p = true ->
  exists d, In d (markTransitions prev0 days) /\ Day.date d = k
            /\ Day.courseTransition d = true
            /\ Day.transitionFrom d = Some p /\ Day.transitionTo d = Some c.
Proof.
  intros (before & prev & between & day & after & -> & Hidle & Hp & Hc & Hne & Hk) Htruthy.
  destruct (markTransitions_app before prev0) as (prev' & ->).
  unfold firstCourse in Hp, Hc.
  cbn [markTransitions]. destruct (Day.courses prev) as [|p' ps] eqn:Ep; [done|].
  injection Hp as ->.
  destruct (markTransitions_idle between p (day :: after) Hidle) as (l & ->).
  cbn [markTransitions]. destruct (Day.courses day) as [|c' cs] eqn:Ec; [done|].
  injection Hc as ->. rewrite Htruthy.
  replace (String.eqb c p) with false by (symmetry; apply String.eqb_neq; congruence).
  cbn [andb negb].
  exists (withTransition day true (Some p) (Some c)). split; [|done].
  apply in_or_app. right. right. apply in_or_app. right. by left.
Qed.

Lemma setAdd_truthy c cs :
  truthyS c = true -> Forall (fun x => truthyS x = true) cs ->
  Forall (fun x => truthyS x = true) (Dict.setAdd c cs).
Proof.
  intros Hc. induction 1 as [|y cs Hy Hcs IH]; cbn [Dict.setAdd].
  - by repeat constructor.
  - destruct (String.eqb c y); by constructor.
Qed.

Lemma courses_truthy tz acts :
  Forall (fun d => Forall (fun x => truthyS x = true) (Day.courses d)) (sortedDays tz acts).
Proof.
  apply List.Forall_forall. intros d Hd. unfold sortedDays in Hd.
  apply In_sortBy in Hd. unfold Dict.values in Hd. apply in_map_iff in Hd.
  destruct Hd as ([k g] & <- & Hin).
  pose proof (groups_inv tz (fun kg => Forall (fun x => truthyS x = true) (Day.courses (snd kg)))
                         (fun _ => True)) as Hinv.
  assert (Hstep : forall a g, Forall (fun x => truthyS x = true) (Day.courses g) ->
                    Forall (fun x => truthyS x = true) (Day.courses (addToDay a g))).
  { intros a g0 Hg. unfold addToDay. destruct (attainment a). cbn [Day.courses].
    destruct (course a) as [c|]; [|done]. destruct (truthyS c) eqn:E; [|done].
    by apply setAdd_truthy. }
  assert (H : Forall (fun kg : Z * Day.t => Forall (fun x => truthyS x = true)
                                                   (Day.courses (snd kg)))
                     (fold_left (groupStep tz) acts [])).
  { apply Hinv.
    - intros a k0 _ _. apply Hstep. constructor.
    - intros a k0 g0 _ Hg. by apply Hstep.
    - apply List.Forall_forall. done.
    - constructor. }
  rewrite List.Forall_forall in H. apply (H _ Hin).
Qed.

Lemma TransitionAt_truthy tz acts k p c :
  TransitionAt (sortedDays tz acts) k p c -> truthyS p = true.
Proof.
  intros (before & prev & between & day & after & E & _ & Hp & _).
  pose proof (courses_truthy tz acts) as H. rewrite E in H.
  apply Forall_app in H as [_ H]. inversion H as [|? ? Hprev _]; subst.
  unfold firstCourse in Hp. destruct (Day.courses prev) as [|p' ps]; [done|].
  injection Hp as ->. by inversion Hprev.
Qed.

Lemma transitionLookupOf_fold days k :
  List.NoDup (map Day.date days) ->
  transitionLookupOf days !! k
  = match List.find (fun d => Day.date d =? k) days with
    | Some d => if Day.courseTransition d
                then Some {| Transition.from := Day.transitionFrom d;
                             Transition.to := Day.transitionTo d |}
                else None
    | None => None
    end.
Proof.
  intros Hn. unfold transitionLookupOf.
  rewrite (condLookup_fold Day.courseTransition
             (fun d => {| Transition.from := Day.transitionFrom d;
                          Transition.to := Day.transitionTo d |})) by done.
  rewrite lookup_empty. done.
Qed.

(** X17. The transition table built from the daily aggregate has an entry
    for day [k] exactly when a course transition occurs on that day, and
    the entry holds the two courses of the transition. *)
Theorem X17_transitions_exact tz acts k tr :
  transitionLookupOf (groupActivitiesByDay tz acts) !! k = Some tr
  <-> exists p c, tr = {| Transition.from := Some p; Transition.to := Some c |}
                  /\ TransitionAt (sortedDays tz acts) k p c.
Proof.
  split; [apply groupActivitiesByDay_transitions|].
  intros (p & c & -> & Ht).
  destruct (markTransitions_complete _ k p c None Ht (TransitionAt_truthy _ _ _ _ _ Ht))
    as (d & Hin & <- & Hf & Hp & Hc).
  rewrite transitionLookupOf_fold by apply groupActivitiesByDay_NoDup.
  rewrite (find_unique _ d) by (apply groupActivitiesByDay_NoDup || done).
  by rewrite Hf, Hp, Hc.
Qed.

(** *** The daily attainment *)

Lemma attainmentLookupOf_fold days k :
  List.NoDup (map Day.date days) ->
  attainmentLookupOf days !! k
  = match List.find (fun d => Day.date d =? k) days with
    | Some d => if 0 <? Day.totalPossible d
                then Some (roundedPercent (Day.totalEarned d) (Day.totalPossible d))
                else None
    | None => None
    end.
Proof.
  intros Hn. unfold attainmentLookupOf.
  rewrite (condLookup_fold (fun d => 0 <? Day.totalPossible d)
             (fun d => roundedPercent (Day.totalEarned d) (Day.totalPossible d)))
    by done.
  rewrite lookup_empty. done.
Qed.

Lemma attainment_lookup tz acts k :
  match attainmentLookupOf (groupActivitiesByDay tz acts) !! k with
  | Some v => v
  | None => 100
  end = dayAttainment tz acts k.
Proof.
  rewrite attainmentLookupOf_fold by apply groupActivitiesByDay_NoDup.
  unfold dayAttainment, dayTotal.
  destruct (List.find _ _) as [d|] eqn:E.
  - apply find_some in E. destruct E as [Hin E]. apply Z.eqb_eq in E. subst k.
    pose proof (groupActivitiesByDay_sums tz acts) as HF. rewrite List.Forall_forall in HF.
    destruct (HF d Hin) as (_ & _ & _ & He & Hp). cbn zeta in He, Hp.
    rewrite (map_ext _ earned) in He by apply attainment_earned.
    rewrite He, Hp. by destruct (0 <? _).
  - destruct (onDay tz k acts) eqn:Ho; [done|]. exfalso.
    assert (Hin : In k (map Day.date (groupActivitiesByDay tz acts)))
      by (apply groupActivitiesByDay_active; by rewrite Ho).
    apply in_map_iff in Hin. destruct Hin as (d & Hd & Hin).
    eapply find_none in E; [|exact Hin]. cbn in E. apply Z.eqb_neq in E. done.
Qed.

Lemma dayAttainment_sorted tz data k :
  dayAttainment tz (sortByTimestamp data) k = dayAttainment tz data k.
Proof.
  unfold dayAttainment. rewrite dayTotal_sorted.
  by rewrite (sumZ_Permutation _ _ (Permutation_map possibleOfAggregator (onDay_sorted tz k data))).
Qed.

(** X22. For a log with a record, the chart of the daily attainment has
    seven points, for the seven local days that end today; the value of a
    day is [Math.round((earned / possible) * 100)], as the doubles of the
    program give it, of the XP earned and the XP possible on that day,
    and 100 when nothing was possible; in particular it is 100 on a day
    without records.  A day with one lesson of 23 of 40 XP shows 57. *)
Theorem X22_dailyAttainment_values now tz data :
  data <> [] ->
  labels (getDailyAttainmentData now tz (view data)) = map Key (seqZ (localDay tz now - 6) 7)
  /\ values (getDailyAttainmentData now tz (view data))
     = map (dayAttainment tz data) (seqZ (localDay tz now - 6) 7)
  /\ (forall k, dayAttainment tz data k
                = let possible := sumZ (map possibleOfAggregator (onDay tz k data)) in
                  if 0 <? possible
                  then roundedPercent (sumZ (map earned (onDay tz k data))) possible
                  else 100)
  /\ (forall k, onDay tz k data = [] -> dayAttainment tz data k = 100)
  /\ values (getDailyAttainmentData 0 0 (view [record "lesson" "Limits" 23 (Some 40)]))
     = [100; 100; 100; 100; 100; 100; 57].
Proof.
  intros Hne. unfold getDailyAttainmentData.
  cbn [view calculatorData calculator ChartHelpers.data].
  destruct (Nat.eqb (length (sortByTimestamp data)) 0) eqn:E.
  { apply Nat.eqb_eq in E. unfold sortByTimestamp in E. rewrite length_sortBy in E. by destruct data. }
  cbn zeta. rewrite <- lastSevenDays_seq. split; [apply weekSeries_shape|]. split.
  - rewrite (weekSeries_daily now tz
      (fun k => match attainmentLookupOf (groupActivitiesByDay tz (sortByTimestamp data)) !! k with
                | Some v => v
                | None => 100
                end)).
    apply map_ext. intros k. by rewrite attainment_lookup, dayAttainment_sorted.
  - split; [reflexivity|]. split; [|by vm_compute].
    intros k Hk. unfold dayAttainment. by rewrite Hk.
Qed.

(* ===================================================================== *)
(** ** The week view of the dashboard and the rolling average *)
(* ===================================================================== *)

(** *** The week view of the dashboard *)

Lemma week_days_pass now tz t :
  localDay tz now - 6 <= localDay tz t -> now - 7 * 24 * 60 * 60 * 1000 <= t.
Proof.
  intros H. apply localMidnight_le in H.
  assert (H' : ~ localMidnight tz (localDay tz now + 1) <= now).
  { intros H'. apply localMidnight_le in H'. lia. }
  unfold localMidnight, msPerDay in *. lia.
Qed.

Lemma onDay_weekFilter now tz data k :
  localDay tz now - 6 <= k ->
  onDay tz k (filterByPeriod now tz "week" data) = onDay tz k data.
Proof.
  intros Hk. unfold onDay, filterByPeriod.
  change (startDate now tz "week") with (Some (now - 7 * 24 * 60 * 60 * 1000)).
  apply filter_weaken. intros a Ha. apply Z.eqb_eq in Ha. apply Z.leb_le.
  apply (week_days_pass now tz). lia.
Qed.

Lemma map_ext_seqZ (f g : Z -> Z) lo n :
  (forall k, lo <= k -> f k = g k) -> map f (seqZ lo n) = map g (seqZ lo n).
Proof.
  intros H. apply map_ext_in. intros k Hk. apply H.
  apply list_elem_of_In, elem_of_seqZ in Hk. lia.
Qed.

Lemma weekXP_values now tz data :
  data <> [] ->
  values (getWeeklyCumulativeXPData now tz (view data))
  = prefixSums 0 (map (dayTotal tz data) (seqZ (localDay tz now - 6) 7))
  /\ values (getDailyXPData now tz (view data))
     = map (dayTotal tz data) (seqZ (localDay tz now - 6) 7)
  /\ labels (getWeeklyCumulativeXPData now tz (view data))
     = map Key (seqZ (localDay tz now - 6) 7)
  /\ labels (getDailyXPData now tz (view data)) = map Key (seqZ (localDay tz now - 6) 7)
  /\ transitions (getWeeklyCumulativeXPData now tz (view data)) = None
  /\ transitions (getDailyXPData now tz (view data)) = None.
Proof.
  intros Hne. unfold getDailyXPData, getWeeklyCumulativeXPData.
  rewrite !weekView_nonempty by done. cbn zeta.
  rewrite <- lastSevenDays_seq.
  rewrite !weekSeries_daily, !weekSeries_cumulative.
  rewrite (map_ext _ (dayTotal tz data))
    by (intros k; by rewrite lookup_xp, dayTotal_sorted).
  repeat split; apply weekSeries_shape.
Qed.

Lemma series_eq (s t : TimeSeries) :
  labels s = labels t -> values s = values t -> transitions s = transitions t -> s = t.
Proof. destruct s, t. cbn. by intros -> -> ->. Qed.

(** X29. In a zone with a fixed UTC offset, where every local day lasts
    24 hours: in the week view of the dashboard, when the filtered log
    has a record, the XP chart drawn from the filtered log is the weekly
    cumulative chart of the whole log: the filter of the last 168 hours
    cuts off no record of the seven charted days, the first of which
    begins less than 168 hours before now.  The chart ends at the XP of
    the records of these seven days, the card of the total XP shows the
    XP of the filtered log, and the records of the seven days are a
    sublist of the filtered log. *)
Theorem X29_weekView_of_weekFilter now tz data :
  let filtered := filterByPeriod now tz "week" data in
  let week := inDays tz (localDay tz now - 6) 7 data in
  filtered <> [] ->
  UIController.xpChartData now tz "week" (snd (UIController.switchPeriod now tz "week" data))
  = Some (getWeeklyCumulativeXPData now tz (view data))
  /\ last (values (getWeeklyCumulativeXPData now tz (view data)))
     = Some (sumZ (map earned week))
  /\ totalXP (fst (UIController.switchPeriod now tz "week" data)) = sumZ (map earned filtered)
  /\ sublist week filtered
  /\ now - 7 * 24 * 60 * 60 * 1000 < localMidnight tz (localDay tz now - 6).
Proof.
  intros filtered week Hne.
  assert (Hne' : data <> []) by (intros ->; by apply Hne).
  split; [|split; [|split; [|split]]];
    [| | | |unfold localMidnight, localDay;
            pose proof (Z.div_mod (now + tz) msPerDay ltac:(unfold msPerDay; lia));
            pose proof (Z.mod_pos_bound (now + tz) msPerDay ltac:(unfold msPerDay; lia));
            unfold msPerDay in *; lia].
  - unfold UIController.xpChartData, UIController.switchPeriod. cbn [snd String.eqb Ascii.eqb Bool.eqb].
    f_equal. fold filtered. change {| calculator := _ |} with (view filtered).
    destruct (weekXP_values now tz filtered Hne) as (Hv & _ & Hl & _ & Ht & _).
    destruct (weekXP_values now tz data Hne') as (Hv' & _ & Hl' & _ & Ht' & _).
    apply series_eq; [congruence| |congruence].
    rewrite Hv, Hv'. f_equal. apply map_ext_seqZ. intros k Hk.
    unfold dayTotal, filtered. by rewrite onDay_weekFilter.
  - destruct (weekXP_values now tz data Hne') as (-> & _).
    rewrite last_prefixSums by (rewrite seqZ_cons by lia; done).
    unfold dayTotal. by rewrite (sum_over_days tz earned) by lia.
  - unfold UIController.switchPeriod. cbn [fst]. fold filtered. unfold calculateStats.
    destruct (Nat.eqb_spec (length filtered) 0) as [E|_]; [by destruct filtered|].
    cbn [totalXP]. apply calculateTotalXP_sum.
  - subst week filtered. unfold inDays, filterByPeriod.
    change (startDate now tz "week") with (Some (now - 7 * 24 * 60 * 60 * 1000)).
    rewrite <- (filter_weaken _ (fun a => now - 7 * 24 * 60 * 60 * 1000 <=? timestamp a)).
    + apply filter_sublist.
    + intros a Ha. apply andb_prop in Ha as [Ha _]. apply Z.leb_le in Ha. apply Z.leb_le.
      by apply (week_days_pass now tz).
Qed.

(** *** The rolling charts *)




(* ===================================================================== *)
(** ** The snapshot of the sorted log *)
(* ===================================================================== *)

(** *** The snapshot after the charts have sorted the log *)

Lemma countActivity_add c a : countActivity c a = addCounts c (countActivity noCounts a).
Proof.
  unfold countActivity, addCounts. destruct c as [d l r m q].
  repeat match goal with
         | |- context [if ?b then _ else _] => destruct b
         end; cbn; f_equal; lia.
Qed.

Lemma counts_Permutation l l' :
  Permutation l l' -> forall c, fold_left countActivity l c = fold_left countActivity l' c.
Proof.
  induction 1 as [|x l l' _ IH|x y l|l l' l'' _ IH1 _ IH2]; intros c; cbn [fold_left].
  - done.
  - apply IH.
  - f_equal. rewrite (countActivity_add (countActivity c y) x), (countActivity_add c y),
      (countActivity_add (countActivity c x) y), (countActivity_add c x).
    unfold addCounts. cbn. f_equal; lia.
  - by rewrite IH1.
Qed.

Lemma countIf_Permutation p l l' : Permutation l l' -> countIf p l = countIf p l'.
Proof. intros H. unfold countIf. apply Permutation_length. by apply filter_Permutation. Qed.

Lemma sumN_Permutation l l' : Permutation l l' -> sumN l = sumN l'.
Proof.
  induction 1 as [|x l l' _ IH|x y l|l l' l'' _ IH1 _ IH2]; cbn [sumN].
  - done.
  - by rewrite IH.
  - destruct x, y, (sumN l); try done. f_equal. lia.
  - congruence.
Qed.

Lemma successMetrics_Permutation l l' :
  Permutation l l' -> calculateSuccessMetrics l = calculateSuccessMetrics l'.
Proof.
  intros H. unfold calculateSuccessMetrics.
  rewrite !(classify_counts _ 0 0 0)%nat, !attain_totals.
  rewrite (countIf_Permutation isPerfect l l' H), (countIf_Permutation isPass l l' H),
    (countIf_Permutation isFail l l' H).
  rewrite (sumZ_Permutation _ _ (Permutation_map earned H)).
  rewrite (sumN_Permutation _ _ (Permutation_map possibleOf H)). done.
Qed.

Lemma slots_Permutation (idx : Activity -> nat) (w : Activity -> Z) l l' hs :
  Permutation l l' ->
  fold_left (slotStep idx w) l hs = fold_left (slotStep idx w) l' hs.
Proof.
  intros H. apply list_eq. intros h. rewrite !slots_lookup.
  rewrite (sumZ_Permutation _ _ (Permutation_map w (filter_Permutation _ _ _ H))).
  rewrite (Permutation_length (filter_Permutation (fun a => Nat.eqb (idx a) h) _ _ H)). done.
Qed.

(** X15. The chart functions sort the calculator's data in place, by time
    stamp.  The sorted log is a permutation of the log, in ascending
    order of time, and the snapshot taken of it has the same total XP,
    number of records, counts by category, success metrics, average per
    day, weekday table, hour table, and XP and counts of the last
    fourteen days as the snapshot of the log in its first order. *)
Theorem X15_snapshot_after_sorting now tz data :
  let sorted := sortByTimestamp data in
  let s := calculateStats now tz (Some data) in
  let s' := calculateStats now tz (Some sorted) in
  Permutation sorted data
  /\ StronglySorted (keyLe timestamp) sorted
  /\ totalXP s' = totalXP s /\ totalActivities s' = totalActivities s
  /\ activityCounts s' = activityCounts s
  /\ successMetrics s' = successMetrics s
  /\ avgXPPerDay s' = avgXPPerDay s
  /\ Weekday.weekdayStats (weekdayStats s') = Weekday.weekdayStats (weekdayStats s)
  /\ hourlyStats (timeAnalysis s') = hourlyStats (timeAnalysis s)
  /\ map (fun p => (DayPoint.xp p, DayPoint.count p)) (last14Days s')
     = map (fun p => (DayPoint.xp p, DayPoint.count p)) (last14Days s).
Proof.
  intros sorted s s'. subst s s'.
  assert (HP : Permutation sorted data) by apply sortBy_Permutation.
  split; [done|]. split; [apply sortBy_sorted|].
  unfold calculateStats. rewrite (Permutation_length HP).
  destruct (Nat.eqb (length data) 0); [done|].
  cbn [totalXP totalActivities activityCounts successMetrics avgXPPerDay weekdayStats
       timeAnalysis last14Days].
  assert (Hxp : calculateTotalXP sorted = calculateTotalXP data).
  { rewrite !calculateTotalXP_sum. apply sumZ_Permutation. by apply Permutation_map. }
  assert (Hdays : length (calculateDailyStats tz sorted) = length (calculateDailyStats tz data)).
  { rewrite <- !length_groupActivitiesByDay.
    rewrite <- !(length_map Day.date).
    apply Permutation_length, Stdlib.Sorting.Permutation.NoDup_Permutation;
      try apply groupActivitiesByDay_NoDup.
    intros k. rewrite !groupActivitiesByDay_active.
    split; intros H H'; apply H; apply Permutation_nil; rewrite <- H'.
    - apply filter_Permutation. by symmetry.
    - by apply filter_Permutation. }
  repeat split.
  - done.
  - unfold calculateActivityCounts. by apply counts_Permutation.
  - by apply successMetrics_Permutation.
  - unfold calculateAvgXPPerDay. by rewrite Hdays, Hxp.
  - rewrite !weekdayStats_fold. unfold weekdayStep. by apply slots_Permutation.
  - rewrite !hourlyStats_fold. unfold hourStep. by apply slots_Permutation.
  - unfold getLast14Days. rewrite !map_map. apply map_ext. intros i.
    cbn [DayPoint.xp DayPoint.count]. unfold toDateString.
    destruct (lookupDay_xp tz sorted (localDay tz (addDays now (- Z.of_nat i)))) as [-> ->].
    destruct (lookupDay_xp tz data (localDay tz (addDays now (- Z.of_nat i)))) as [-> ->].
    unfold sorted. rewrite dayTotal_sorted, length_onDay_sorted. done.
Qed.

(* ===================================================================== *)
(** ** The sample data *)
(* ===================================================================== *)

Lemma countActivity_counted c a :
  countsTotal (countActivity c a) = (countsTotal c + tally (counted a))%nat
  /\ (counted a = false -> countActivity c a = c).
Proof.
  unfold countActivity, counted, isQuiz, countedTypes. cbn [existsb].
  destruct c as [d l r m q].
  set (t := toLowerCase (type a)).
  destruct (includes "quiz" _); [split; [unfold countsTotal; cbn; lia|done]|].
  cbn [orb].
  destruct (String.eqb t "diagnostic"), (String.eqb t "assessment"),
    (String.eqb t "supplemental diagnostic"), (String.eqb t "lesson"),
    (String.eqb t "review"), (String.eqb t "multistep"), (String.eqb t "quiz");
    cbn; (split; [unfold countsTotal; cbn; lia|done]).
Qed.

Lemma counts_counted data : forall c,
  countsTotal (fold_left countActivity data c) = (countsTotal c + countIf counted data)%nat
  /\ (Forall (fun a => counted a = false) data -> fold_left countActivity data c = c).
Proof.
  induction data as [|a data IH]; intros c; cbn [fold_left].
  - unfold countIf. cbn. split; [lia|done].
  - destruct (IH (countActivity c a)) as [H1 H2].
    destruct (countActivity_counted c a) as [H3 H4]. split.
    + rewrite H1, H3, countIf_cons. lia.
    + intros Hall. inversion Hall as [|? ? Ha Hall']; subst.
      rewrite H2 by done. by apply H4.
Qed.

(** X30. [calculateActivityCounts] counts a record, in one of its five
    categories, exactly when the task name of the record holds "quiz" or
    its type, in lower case, is one of the seven names the function
    knows, so that a log without such a record has all counters 0.  The
    five records of [generateSampleData] carry plural types that are not
    normalised: none of them is counted, whatever the engine makes of
    their date texts, although their XP add up to 100 and
    [normalizeActivityType] would turn their types into the five names of
    the taxonomy. *)
Theorem X30_generated_sample_uncounted :
  (forall data, countsTotal (calculateActivityCounts data) = countIf counted data)
  /\ (forall data, Forall (fun a => counted a = false) data ->
                   calculateActivityCounts data = noCounts)
  /\ forall engine,
       let sample := generateSampleData engine in
       length sample = 5%nat
       /\ Forall (fun a => counted a = false) sample
       /\ calculateActivityCounts sample = noCounts
       /\ calculateTotalXP sample = 100
       /\ map (fun a => normalizeActivityType (Some (type a))) sample
          = ["lesson"; "review"; "quiz"; "diagnostic"; "multistep"]
       /\ map percentage sample = [100; 75; 90; 83; 88]
       /\ map title sample = ["Sample Lessons"; "Sample Reviews"; "Sample Quizzes";
                              "Sample Diagnostics"; "Sample Multisteps"].
Proof.
  split; [|split].
  - intros data. unfold calculateActivityCounts.
    destruct (counts_counted data noCounts) as [-> _]. done.
  - intros data H. unfold calculateActivityCounts. by apply counts_counted.
  - intros engine sample.
    assert (Hall : Forall (fun a => counted a = false) sample) by (repeat constructor).
    split; [done|]. split; [done|]. split.
    + unfold calculateActivityCounts. by apply counts_counted.
    + by vm_compute.
Qed.

(* ===================================================================== *)
(** ** Instances of the properties that have a premise *)
(* ===================================================================== *)


Lemma X21_weekView_values_witness :
  twoCourseLog <> []
  /\ values (getDailyXPData noonOfJan8 0 (view twoCourseLog)) = [0; 0; 0; 8; 0; 0; 68]
  /\ values (getWeeklyCumulativeXPData noonOfJan8 0 (view twoCourseLog))
     = [0; 0; 0; 8; 8; 8; 76].
Proof.
  split; [discriminate|].
  destruct (X21_weekView_values noonOfJan8 0 twoCourseLog) as (_ & H1 & H2 & _); [discriminate|].
  split; [exact H1|exact H2].
Defined.

Lemma X14_filterByPeriod_today_witness :
  0 <= localDay 0 noonOfJan8
  /\ map title (filterByPeriod noonOfJan8 0 "today" twoCourseLog)
     = ["Limits"; "Placement Activity"].
Proof.
  split; [by vm_compute|].
  destruct (X14_filterByPeriod_today noonOfJan8 0 twoCourseLog) as (H & _); [by vm_compute|].
  rewrite H. reflexivity.
Defined.


Lemma X22_dailyAttainment_values_witness :
  twoCourseLog <> []
  /\ values (getDailyAttainmentData noonOfJan8 0 (view twoCourseLog))
     = [100; 100; 100; 80; 100; 100; 100].
Proof.
  split; [discriminate|].
  destruct (X22_dailyAttainment_values noonOfJan8 0 twoCourseLog) as (_ & H & _); [discriminate|].
  exact H.
Defined.


Lemma X27_legacy_cumulativeXP_witness :
  twoCourseLog <> []
  /\ last (values (LegacyChartHelpers.getCumulativeXPData mountainTime (view twoCourseLog)))
     = Some 76.
Proof.
  split; [discriminate|].
  destruct (X27_legacy_cumulativeXP mountainTime twoCourseLog) as (_ & H & _); [discriminate|].
  exact H.
Defined.

Lemma X29_weekView_of_weekFilter_witness :
  filterByPeriod noonOfJan8 0 "week" twoCourseLog <> []
  /\ totalXP (fst (UIController.switchPeriod noonOfJan8 0 "week" twoCourseLog)) = 76
  /\ last (values (getWeeklyCumulativeXPData noonOfJan8 0 (view twoCourseLog))) = Some 76.
Proof.
  assert (H : filterByPeriod noonOfJan8 0 "week" twoCourseLog <> []) by (by vm_compute).
  split; [exact H|].
  destruct (X29_weekView_of_weekFilter noonOfJan8 0 twoCourseLog H) as (_ & H1 & H2 & _).
  split; [exact H2|exact H1].
Defined.
